(** * parse_network.py: replacement table, template rendering, graph extraction

    A shallow embedding of [build_replacements], of the text substitution of
    [render_network_config] and of [extract_network_graph], with the
    properties of the specification stated over it.

    Python values are the ones [yaml.safe_load] builds from the YAML core
    kinds: null, booleans, integers, strings, sequences and mappings with
    string keys.  Strings are byte strings (UTF-8 text); a mapping is an
    association list in insertion order, read at the first binding of a key.
    Exceptions are explicit: a computation that can raise returns a
    [result]. *)

From Stdlib Require Import ZArith List String Ascii Bool Lia.
From Stdlib Require Import DecimalString Sorting.Sorted.
Import ListNotations.

Open Scope list_scope.
Open Scope string_scope.

Set Warnings "-register-all".

(** ** Values *)

Inductive value : Type :=
| VNone
| VBool (b : bool)
| VInt (z : Z)
| VStr (s : string)
| VList (l : list value)
| VDict (d : list (string * value)).

Definition dict : Type := list (string * value).

(** ** Exceptions *)

Inductive exn : Type := TypeError | AttributeError.

Inductive result (A : Type) : Type :=
| Ok (a : A)
| Raise (e : exn).

Arguments Ok {A} a.
Arguments Raise {A} e.

Definition bind {A B : Type} (m : result A) (k : A -> result B) : result B :=
  match m with
  | Ok a => k a
  | Raise e => Raise e
  end.

Notation "x <- m ;; k" := (bind m (fun x => k))
  (at level 61, m at next level, right associativity).

(** A loop whose body can raise: the first exception ends the loop. *)
Fixpoint mapM {A B : Type} (f : A -> result B) (l : list A) : result (list B) :=
  match l with
  | [] => Ok []
  | a :: l' => b <- f a ;; bs <- mapM f l' ;; Ok (b :: bs)
  end.

Definition raises {A : Type} (m : result A) : Prop :=
  exists e, m = Raise e.

(** ** Python primitives used by the source *)

(** [bool(v)]: the truth value tested by [if], [and] and [or]. *)
Definition truthy (v : value) : bool :=
  match v with
  | VNone => false
  | VBool b => b
  | VInt z => negb (Z.eqb z 0)
  | VStr s => negb (String.eqb s "")
  | VList l => match l with [] => false | _ => true end
  | VDict d => match d with [] => false | _ => true end
  end.

(** [a or b]: the first operand when it is true, else the second. *)
Definition py_or (a b : value) : value := if truthy a then a else b.

(** [a and b]: the first operand when it is false, else the second. *)
Definition py_and (a b : value) : value := if truthy a then b else a.

Fixpoint lookup (k : string) (d : dict) : option value :=
  match d with
  | [] => None
  | (k', v) :: d' => if String.eqb k k' then Some v else lookup k d'
  end.

(** [d.get(k, dflt)] *)
Definition get_default (d : dict) (k : string) (dflt : value) : value :=
  match lookup k d with
  | Some v => v
  | None => dflt
  end.

(** [d.get(k)] *)
Definition get (d : dict) (k : string) : value := get_default d k VNone.

(** [d[k] = v]: a key already bound keeps its place. *)
Fixpoint dict_set (d : dict) (k : string) (v : value) : dict :=
  match d with
  | [] => [(k, v)]
  | (k', v') :: d' =>
      if String.eqb k k' then (k', v) :: d' else (k', v') :: dict_set d' k v
  end.

(** [isinstance(v, dict)] keeps the mappings of a sequence of elements. *)
Definition as_dict (v : value) : option dict :=
  match v with
  | VDict d => Some d
  | _ => None
  end.

Fixpoint dicts_of (l : list value) : list dict :=
  match l with
  | [] => []
  | v :: l' =>
      match as_dict v with
      | Some d => d :: dicts_of l'
      | None => dicts_of l'
      end
  end.

(** A byte of the form 10xxxxxx goes on with the character of the byte
    before it. *)
Definition is_continuation (c : ascii) : bool :=
  let n := nat_of_ascii c in Nat.leb 128 n && Nat.ltb n 192.

(** The characters of a text: each is a first byte with the continuation
    bytes that follow it. *)
Fixpoint chars_of (s : string) : list value :=
  match s with
  | EmptyString => []
  | String c s' =>
      match s' with
      | EmptyString => [VStr (String c EmptyString)]
      | String c' _ =>
          if is_continuation c' then
            match chars_of s' with
            | VStr g :: rest => VStr (String c g) :: rest
            | rest => VStr (String c EmptyString) :: rest
            end
          else VStr (String c EmptyString) :: chars_of s'
      end
  end.

(** [for x in v]: a sequence gives its elements, a string its characters, a
    mapping its keys; anything else is not iterable. *)
Definition py_iter (v : value) : result (list value) :=
  match v with
  | VList l => Ok l
  | VStr s => Ok (chars_of s)
  | VDict d => Ok (map (fun kv => VStr (fst kv)) d)
  | VNone | VBool _ | VInt _ => Raise TypeError
  end.

(** *** [str] and [repr] *)

Definition dquote : ascii := ascii_of_nat 34.
Definition squote : ascii := ascii_of_nat 39.
Definition backslash : ascii := ascii_of_nat 92.

Definition char1 (c : ascii) : string := String c EmptyString.

Fixpoint has_char (c : ascii) (s : string) : bool :=
  match s with
  | EmptyString => false
  | String c' s' => Ascii.eqb c c' || has_char c s'
  end.

Definition hex_digit (n : nat) : ascii :=
  if Nat.ltb n 10 then ascii_of_nat (48 + n) else ascii_of_nat (87 + n).

Definition escape_char (q c : ascii) : string :=
  let n := nat_of_ascii c in
  if Ascii.eqb c q || Ascii.eqb c backslash then String backslash (char1 c)
  else if Nat.eqb n 9 then String backslash "t"
  else if Nat.eqb n 10 then String backslash "n"
  else if Nat.eqb n 13 then String backslash "r"
  else if Nat.ltb n 32 || Nat.eqb n 127 then
    String backslash
      (String "x" (String (hex_digit (n / 16)) (char1 (hex_digit (n mod 16)))))
  else char1 c.

Fixpoint escape (q : ascii) (s : string) : string :=
  match s with
  | EmptyString => EmptyString
  | String c s' => escape_char q c ++ escape q s'
  end.

(** [repr] of a string: single quotes, unless the text has a single quote
    and no double quote.  Bytes above 127 are kept as they are: this is
    [repr] on ASCII text and on the printable characters beyond; Python
    also escapes the characters beyond ASCII that are not printable. *)
Definition repr_str (s : string) : string :=
  let q := if has_char squote s && negb (has_char dquote s)
           then dquote else squote in
  char1 q ++ escape q s ++ char1 q.

Definition str_of_Z (z : Z) : string := NilZero.string_of_int (Z.to_int z).

Fixpoint py_repr (v : value) : string :=
  match v with
  | VNone => "None"
  | VBool true => "True"
  | VBool false => "False"
  | VInt z => str_of_Z z
  | VStr s => repr_str s
  | VList l => "[" ++ String.concat ", " (map py_repr l) ++ "]"
  | VDict d =>
      "{" ++ String.concat ", "
               (map (fun kv : string * value => let (k, x) := kv in
                               repr_str k ++ ": " ++ py_repr x) d) ++ "}"
  end.

(** [str(v)], also what an f-string writes for [{v}]. *)
Definition py_str (v : value) : string :=
  match v with
  | VStr s => s
  | _ => py_repr v
  end.

(** [f"{a}-{b}"] *)
Definition fmt_dash (a b : value) : string := py_str a ++ "-" ++ py_str b.

(** *** Equality, hashing and order *)

(** The integer a number stands for: [True == 1] and [False == 0]. *)
Definition as_num (v : value) : option Z :=
  match v with
  | VBool b => Some (if b then 1 else 0)%Z
  | VInt z => Some z
  | _ => None
  end.

(** [a == b] on hashable values. *)
Definition py_eqb (a b : value) : bool :=
  match a, b with
  | VNone, VNone => true
  | VStr s, VStr t => String.eqb s t
  | _, _ =>
      match as_num a, as_num b with
      | Some x, Some y => Z.eqb x y
      | _, _ => false
      end
  end.

Definition hashable (v : value) : bool :=
  match v with
  | VList _ | VDict _ => false
  | _ => true
  end.

(** Adding to a set: an unhashable element raises, an element equal to one
    already there is dropped. *)
Definition set_add (acc : list value) (x : value) : result (list value) :=
  if hashable x then
    Ok (if existsb (py_eqb x) acc then acc else (acc ++ [x])%list)
  else Raise TypeError.

Fixpoint set_of (acc : list value) (l : list value) : result (list value) :=
  match l with
  | [] => Ok acc
  | x :: l' => acc' <- set_add acc x ;; set_of acc' l'
  end.

(** [a < b]: strings by code point, numbers by value, nothing across. *)
Definition py_lt (a b : value) : result bool :=
  match a, b with
  | VStr s, VStr t => Ok (String.ltb s t)
  | _, _ =>
      match as_num a, as_num b with
      | Some x, Some y => Ok (Z.ltb x y)
      | _, _ => Raise TypeError
      end
  end.

(** [sorted]: a stable sort by [<]; a comparison that raises ends it.  Every
    element after the first is compared with one before it, as in any
    comparison sort, so a list mixing strings and numbers raises. *)
Fixpoint sorted_insert (x : value) (l : list value) : result (list value) :=
  match l with
  | [] => Ok [x]
  | y :: l' =>
      b <- py_lt x y ;;
      if b then Ok (x :: y :: l')
      else (r <- sorted_insert x l' ;; Ok (y :: r))
  end.

Fixpoint sorted_into (acc : list value) (l : list value) : result (list value) :=
  match l with
  | [] => Ok acc
  | x :: l' => acc' <- sorted_insert x acc ;; sorted_into acc' l'
  end.

Definition py_sorted (l : list value) : result (list value) := sorted_into [] l.

(** *** String methods *)

(** [s.lower()] on the ASCII letters; the other bytes are kept.  The letters
    of ["cnfgw"] are the lowercase of ASCII letters only, so the test of the
    source reads the same on this text. *)
Definition lower_char (c : ascii) : ascii :=
  let n := nat_of_ascii c in
  if Nat.leb 65 n && Nat.leb n 90 then ascii_of_nat (n + 32) else c.

Fixpoint lower (s : string) : string :=
  match s with
  | EmptyString => EmptyString
  | String c s' => String (lower_char c) (lower s')
  end.

(** [v.lower()]: only a string has the method. *)
Definition py_lower (v : value) : result string :=
  match v with
  | VStr s => Ok (lower s)
  | _ => Raise AttributeError
  end.

(** [p in s] on strings. *)
Fixpoint contains (p s : string) : bool :=
  String.prefix p s ||
  match s with
  | EmptyString => false
  | String _ s' => contains p s'
  end.

(** [s.replace(old, new)] for a non-empty [old]: occurrences are taken from
    the left and do not overlap.  [skip] counts the characters of a matched
    occurrence still to pass over. *)
Fixpoint replace_scan (old new : string) (skip : nat) (s : string) : string :=
  match s with
  | EmptyString => EmptyString
  | String c s' =>
      match skip with
      | S k => replace_scan old new k s'
      | O =>
          if String.prefix old s
          then new ++ replace_scan old new (String.length old - 1) s'
          else String c (replace_scan old new 0 s')
      end
  end.

(** With an empty [old], [new] goes before every character and at the end. *)
Fixpoint intersperse (new s : string) : string :=
  match s with
  | EmptyString => new
  | String c s' => new ++ String c (intersperse new s')
  end.

Definition str_replace (s old new : string) : string :=
  match old with
  | EmptyString => intersperse new s
  | String _ _ => replace_scan old new 0 s
  end.

(** ** [build_replacements] *)

(** The body of the loop over [globalReplacements]: one entry put into the
    table built so far. *)
Definition add_replacement (mapping : dict) (item : value) : dict :=
  match as_dict item with
  | None => mapping
  | Some it =>
      let key := get it "key" in
      let type_ := get_default it "type" (VStr "String") in
      let value := get it "value" in
      match key with
      | VNone => mapping
      | _ =>
          if py_eqb type_ (VStr "StringList") then
            let value' :=
              match value with
              | VList _ => value
              | VNone => VList []
              | _ => VList [value]
              end in
            dict_set mapping (py_str key) value'
          else
            dict_set mapping (py_str key)
              (VStr (match value with VNone => "" | _ => py_str value end))
      end
  end.

Definition build_replacements (replacements_raw : value) : dict :=
  match as_dict replacements_raw with
  | None => []
  | Some raw =>
      match get_default raw "globalReplacements" (VList []) with
      | VList items => fold_left add_replacement items []
      | _ => []
      end
  end.

(** ** [render_network_config]

    The substitution over the raw text, between reading the file and parsing
    the rendered text. *)

(** [",".join(str(v) for v in value)] for a list, [str(value)] otherwise. *)
Definition replacement_str (value : value) : string :=
  match value with
  | VList l => String.concat "," (map py_str l)
  | _ => py_str value
  end.

Definition spaced (key : string) : string := "{{ " ++ key ++ " }}".
Definition unspaced (key : string) : string := "{{" ++ key ++ "}}".
Definition dollar (key : string) : string := "${" ++ key ++ "}".

(** The body of the loop over [replacements.items()]. *)
Definition render_entry (raw_text : string) (kv : string * value) : string :=
  let (key, value) := kv in
  let replacement_str := replacement_str value in
  let raw_text := str_replace raw_text (spaced key) replacement_str in
  let raw_text := str_replace raw_text (unspaced key) replacement_str in
  str_replace raw_text (dollar key) replacement_str.

Definition render_network_config (raw_text : string) (replacements : dict)
  : string :=
  fold_left render_entry replacements raw_text.

(** ** [extract_network_graph] *)

Definition opt_list {A : Type} (o : option A) : list A :=
  match o with
  | Some a => [a]
  | None => []
  end.

(** *** Transit gateways *)

Definition transit_gateway_entry (tgw : dict) : value :=
  let tgw_id := get tgw "name" in
  VDict [("id", tgw_id);
         ("name", get tgw "name");
         ("account", get tgw "account");
         ("region", get tgw "region");
         ("asn", get tgw "asn")].

(** *** VPCs and subnets *)

Definition subnet_entry (vpc_id : value) (subnet : dict) : dict :=
  let subnet_name := get subnet "name" in
  let subnet_id :=
    if truthy (py_and vpc_id subnet_name)
    then VStr (fmt_dash vpc_id subnet_name) else subnet_name in
  let subnet_cidr :=
    py_or (py_or (get subnet "cidr") (get subnet "ipv4CidrBlock"))
          (get subnet "ipv4Cidr") in
  let az := py_or (get subnet "availabilityZone") (get subnet "az") in
  let subnet_type :=
    py_or (py_or (py_or (get subnet "type") (get subnet "subnetType"))
                 (get subnet "tier"))
          (VStr "unknown") in
  [("id", subnet_id);
   ("name", subnet_name);
   ("cidr", subnet_cidr);
   ("az", az);
   ("type", subnet_type)].

(** [sorted({s["az"] for s in subnets if s.get("az")})]; every subnet entry
    has the key ["az"], so [s["az"]] is [s.get("az")]. *)
Definition vpc_azs (subnets : list dict) : result (list value) :=
  st <- set_of [] (filter truthy (map (fun s => get s "az") subnets)) ;;
  py_sorted st.

(** [cidrs[0]] for a non-empty list, the chain of [or] otherwise. *)
Definition vpc_cidr (vpc : dict) : value :=
  match get_default vpc "cidrs" (VList []) with
  | VList (c :: _) => c
  | _ =>
      py_or (py_or (get vpc "cidr") (get vpc "ipv4CidrBlock"))
            (get vpc "ipv4Cidr")
  end.

Definition vpc_entry (network_cfg vpc : dict) : result value :=
  let vpc_id := get vpc "name" in
  let account := get_default vpc "account" (VStr "unknown") in
  let region :=
    get_default vpc "region" (get_default network_cfg "region" VNone) in
  let cidr := vpc_cidr vpc in
  elems <- py_iter (get_default vpc "subnets" (VList [])) ;;
  let subnets := map (subnet_entry vpc_id) (dicts_of elems) in
  azs <- vpc_azs subnets ;;
  Ok (VDict [("id", vpc_id);
             ("name", get vpc "name");
             ("account", account);
             ("region", region);
             ("cidr", cidr);
             ("azs", VList azs);
             ("subnets", VList (map VDict subnets))]).

(** *** TGW attachments *)

Definition attachment_subnet_id (vpc_id sn : value) : value :=
  if truthy (py_and vpc_id sn) then VStr (fmt_dash vpc_id sn) else sn.

Definition attachment_entry (vpc_id : value) (attachment : dict)
  : result value :=
  let tgw_ref := get attachment "transitGateway" in
  let tgw_name :=
    match as_dict tgw_ref with
    | Some d => get d "name"
    | None => tgw_ref
    end in
  let att_name :=
    py_or (get attachment "name") (VStr (fmt_dash vpc_id tgw_name)) in
  let subnet_names := get_default attachment "subnets" (VList []) in
  sns <- py_iter subnet_names ;;
  let attachment_subnet_ids := map (attachment_subnet_id vpc_id) sns in
  Ok (VDict
        [("id", if truthy (py_and vpc_id tgw_name)
                then VStr (fmt_dash vpc_id tgw_name) else att_name);
         ("tgw_id", tgw_name);
         ("vpc_id", vpc_id);
         ("name", att_name);
         ("subnets", VList attachment_subnet_ids);
         ("route_tables",
          VDict [("tgw_association", get attachment "routeTableAssociations");
                 ("tgw_propagations",
                  get_default attachment "routeTablePropagations"
                    (VList []))])]).

Definition vpc_attachments (vpc : dict) : result (list value) :=
  let vpc_id := get vpc "name" in
  elems <- py_iter (get_default vpc "transitGatewayAttachments" (VList [])) ;;
  mapM (attachment_entry vpc_id) (dicts_of elems).

(** One turn of the loop over [vpcs]: the VPC entry, then its attachments. *)
Definition process_vpc (network_cfg vpc : dict)
  : result (value * list value) :=
  e <- vpc_entry network_cfg vpc ;;
  atts <- vpc_attachments vpc ;;
  Ok (e, atts).

(** *** Direct Connect gateways *)

Definition vif_entry (vif : dict) : value :=
  VDict [("id", get vif "name");
         ("name", get vif "name");
         ("connection_id", get vif "connectionId");
         ("customer_asn", get vif "customerAsn");
         ("region", get vif "region");
         ("type", get vif "type");
         ("vlan", get vif "vlan");
         ("jumbo_frames", get vif "jumboFrames")].

Definition dx_assoc_entry (assoc : dict) : value :=
  VDict [("tgw_name", get assoc "name");
         ("account", get assoc "account");
         ("allowed_prefixes", get_default assoc "allowedPrefixes" (VList []));
         ("route_table_associations",
          get_default assoc "routeTableAssociations" (VList []));
         ("route_table_propagations",
          get_default assoc "routeTablePropagations" (VList []))].

Definition dx_gateway_entry (dxgw : dict) : result value :=
  let dxgw_name := get dxgw "name" in
  vifs <- py_iter (get_default dxgw "virtualInterfaces" (VList [])) ;;
  assocs <-
    py_iter (get_default dxgw "transitGatewayAssociations" (VList [])) ;;
  Ok (VDict [("id", dxgw_name);
             ("name", dxgw_name);
             ("account", get dxgw "account");
             ("asn", get dxgw "asn");
             ("virtual_interfaces", VList (map vif_entry (dicts_of vifs)));
             ("tgw_associations",
              VList (map dx_assoc_entry (dicts_of assocs)))]).

(** *** VPN connections *)

Definition vpn_entry (cgw vpn : dict) : value :=
  let cgw_name := get cgw "name" in
  VDict [("name", get vpn "name");
         ("customer_gateway", cgw_name);
         ("account", get cgw "account");
         ("region", get cgw "region");
         ("transit_gateway", get vpn "transitGateway");
         ("static_routes_only", get vpn "staticRoutesOnly");
         ("route_table_associations",
          get_default vpn "routeTableAssociations" (VList []));
         ("route_table_propagations",
          get_default vpn "routeTablePropagations" (VList []));
         ("tunnel_specifications",
          get_default vpn "tunnelSpecifications" (VList []))].

Definition cgw_vpn_connections (cgw : dict) : result (list value) :=
  vpns <- py_iter (get_default cgw "vpnConnections" (VList [])) ;;
  Ok (map (vpn_entry cgw) (dicts_of vpns)).

(** *** CNFGW endpoints *)

Definition cnfgw_entry (tgw rt route : dict) (target_endpoint : value)
  : value :=
  VDict [("id", target_endpoint);
         ("name", target_endpoint);
         ("tgw", get tgw "name");
         ("route_table", get rt "name");
         ("destination",
          py_or (get route "destinationCidrBlock") (get route "destination"));
         ("type", VStr "palo_alto_cnfgw")].

(** The body of the loop over the routes of a route table: the entry the
    route adds, if it adds one. *)
Definition route_endpoint (tgw rt route : dict) : result (option value) :=
  let target_endpoint := get route "targetVpcEndpoint" in
  if truthy target_endpoint then
    low <- py_lower target_endpoint ;;
    if contains "cnfgw" low
    then Ok (Some (cnfgw_entry tgw rt route target_endpoint))
    else Ok None
  else Ok None.

Definition rt_endpoints (tgw rt : dict) : result (list value) :=
  routes <- py_iter (get_default rt "routes" (VList [])) ;;
  es <- mapM (route_endpoint tgw rt) (dicts_of routes) ;;
  Ok (flat_map opt_list es).

Definition tgw_endpoints (tgw : dict) : result (list value) :=
  rts <- py_iter (get_default tgw "routeTables" (VList [])) ;;
  ess <- mapM (rt_endpoints tgw) (dicts_of rts) ;;
  Ok (List.concat ess).

Definition cnfgw_endpoints_of (network_cfg : dict) : result (list value) :=
  if truthy (get network_cfg "transitGateways") then
    tgws <- py_iter (get_default network_cfg "transitGateways" (VList [])) ;;
    ess <- mapM tgw_endpoints (dicts_of tgws) ;;
    Ok (List.concat ess)
  else Ok [].

(** *** The graph *)

Definition extract_network_graph (network_cfg : dict) : result value :=
  tgws <- py_iter (get_default network_cfg "transitGateways" (VList [])) ;;
  let transit_gateways := map transit_gateway_entry (dicts_of tgws) in
  vs <- py_iter (get_default network_cfg "vpcs" (VList [])) ;;
  pvs <- mapM (process_vpc network_cfg) (dicts_of vs) ;;
  let vpcs := map fst pvs in
  let tgw_attachments := List.concat (map snd pvs) in
  dxs <- py_iter (get_default network_cfg "directConnectGateways" (VList [])) ;;
  dx_gateways <- mapM dx_gateway_entry (dicts_of dxs) ;;
  cgws <- py_iter (get_default network_cfg "customerGateways" (VList [])) ;;
  vpnss <- mapM cgw_vpn_connections (dicts_of cgws) ;;
  let vpn_connections := List.concat vpnss in
  cnfgw_endpoints <- cnfgw_endpoints_of network_cfg ;;
  Ok (VDict [("transit_gateways", VList transit_gateways);
             ("vpcs", VList vpcs);
             ("tgw_attachments", VList tgw_attachments);
             ("dx_gateways", VList dx_gateways);
             ("vpn_connections", VList vpn_connections);
             ("cnfgw_endpoints", VList cnfgw_endpoints)]).

(** ** Readings of the specification

    Definitions that follow the words of the specification, to be compared
    with the ones above. *)

(** "The first present of" a list of keys: the value of the first key bound
    in [d], null when none is. *)
Fixpoint first_present (d : dict) (ks : list string) : value :=
  match ks with
  | [] => VNone
  | k :: ks' =>
      match lookup k d with
      | Some v => v
      | None => first_present d ks'
      end
  end.

(** The value of the first key bound to a true value. *)
Fixpoint first_truthy (d : dict) (ks : list string) : option value :=
  match ks with
  | [] => None
  | k :: ks' =>
      match lookup k d with
      | Some v => if truthy v then Some v else first_truthy d ks'
      | None => first_truthy d ks'
      end
  end.

Definition cidr_keys : list string := ["cidr"; "ipv4CidrBlock"; "ipv4Cidr"].

Definition destination_keys : list string :=
  ["destinationCidrBlock"; "destination"].

(** The CIDR of a VPC as the specification words it. *)
Definition claimed_vpc_cidr (vpc : dict) : value :=
  match lookup "cidrs" vpc with
  | Some (VList (c :: _)) => c
  | _ => first_present vpc cidr_keys
  end.

(** A StringList value as a sequence: a sequence is kept, null is empty, any
    other value is the only element. *)
Definition as_sequence (v : value) : list value :=
  match v with
  | VList l => l
  | VNone => []
  | _ => [v]
  end.

Definition is_str (v : value) : bool :=
  match v with
  | VStr _ => true
  | _ => false
  end.

Definition is_num (v : value) : bool :=
  match v with
  | VBool _ | VInt _ => true
  | _ => false
  end.

(** The key an element of [globalReplacements] binds in the table. *)
Definition entry_key (item : value) : option string :=
  match as_dict item with
  | None => None
  | Some it =>
      match get it "key" with
      | VNone => None
      | key => Some (py_str key)
      end
  end.

(** ** Example inputs *)

Definition net1 : dict :=
  [("name", VStr "Net1");
   ("subnets", VList [VDict [("name", VStr "Priv")]; VDict []])].

(** A VPC with one attachment that names its transit gateway by a nested
    mapping and two subnets by name. *)
Definition net1_attached : dict :=
  [("name", VStr "Net1");
   ("subnets",
    VList [VDict [("name", VStr "Priv"); ("availabilityZone", VStr "b")];
           VDict [("name", VStr "Pub"); ("az", VStr "a")];
           VDict [("name", VStr "Db"); ("az", VStr "a")];
           VDict [("name", VStr "Spare"); ("az", VStr "")]]);
   ("transitGatewayAttachments",
    VList [VDict [("transitGateway", VDict [("name", VStr "Tgw")]);
                  ("subnets", VList [VStr "Priv"; VStr "Pub"])]])].

Definition attachment1 : dict :=
  [("transitGateway", VDict [("name", VStr "Tgw")]);
   ("subnets", VList [VStr "Priv"; VStr "Pub"])].

(** A VPC without a name whose only attachment names nothing. *)
Definition bare_attachment_cfg : dict :=
  [("vpcs", VList [VDict [("transitGatewayAttachments", VList [VDict []])]])].

(** A VPC whose [cidr] is present and empty. *)
Definition empty_cidr_vpc : dict :=
  [("cidr", VStr ""); ("ipv4CidrBlock", VStr "10.2.0.0/16")].

(** The VPC of the specification's example: a [cidrs] sequence and a
    scalar [cidr]. *)
Definition two_cidrs_vpc : dict :=
  [("cidrs", VList [VStr "10.0.0.0/16"; VStr "10.1.0.0/16"]);
   ("cidr", VStr "10.2.0.0/16")].

(** A route to a CNFGW endpoint whose [destinationCidrBlock] is present and
    empty. *)
Definition empty_block_route : dict :=
  [("targetVpcEndpoint", VStr "vpce-cnfgw-01");
   ("destinationCidrBlock", VStr "");
   ("destination", VStr "10.0.0.0/8")].

Definition cnfgw_route : dict :=
  [("targetVpcEndpoint", VStr "vpce-CNFGW-01");
   ("destinationCidrBlock", VStr "10.0.0.0/8")].

Definition other_route : dict := [("targetVpcEndpoint", VStr "vpce-other")].

(** A root with one transit gateway, one route table and two routes. *)
Definition cnfgw_cfg : dict :=
  [("transitGateways",
    VList [VDict [("name", VStr "Tgw");
                  ("routeTables",
                   VList [VDict [("name", VStr "rt");
                                 ("routes",
                                  VList [VDict cnfgw_route;
                                         VDict other_route])]])]])].

(** A replacement document whose only entry is a StringList with a bare
    integer value. *)
Definition int_list_replacements : value :=
  VDict [("globalReplacements",
          VList [VDict [("key", VStr "Ports");
                        ("type", VStr "StringList");
                        ("value", VInt 443)]])].

(** A replacement document with a sequence, a bare string, and a StringList
    without a value. *)
Definition region_replacements : dict :=
  [("globalReplacements",
    VList [VDict [("key", VStr "Regions");
                  ("type", VStr "StringList");
                  ("value", VList [VStr "ca-central-1"; VStr "us-east-1"])];
           VDict [("key", VStr "Home");
                  ("type", VStr "StringList");
                  ("value", VStr "ca-central-1")];
           VInt 7;
           VDict [("key", VStr "Spare"); ("type", VStr "StringList")]])].

(** Text without the characters that open a placeholder. *)
Definition plain (s : string) : bool :=
  negb (has_char "{"%char s) && negb (has_char "$"%char s).

Definition region_table : dict := [("Region", VStr "ca-central-1")].

(** ** The set and the sort on strings

    What [set_of] and [py_sorted] compute on a list of strings. *)

Definition str_set_add (acc : list string) (x : string) : list string :=
  if existsb (String.eqb x) acc then acc else (acc ++ [x])%list.

Definition str_set_of (acc l : list string) : list string :=
  fold_left str_set_add l acc.

Fixpoint str_insert (x : string) (l : list string) : list string :=
  match l with
  | [] => [x]
  | y :: l' => if String.ltb x y then x :: y :: l' else y :: str_insert x l'
  end.

Definition str_sorted_into (acc l : list string) : list string :=
  fold_left (fun acc x => str_insert x acc) l acc.

Definition str_of (v : value) : string :=
  match v with
  | VStr s => s
  | _ => ""
  end.

(** Strict order of strings, by character code. *)
Definition str_lt (a b : string) : Prop := String.ltb a b = true.

(** The AZ of the entry of a subnet. *)
Definition subnet_az (vpc_id : value) (subnet : dict) : value :=
  get (subnet_entry vpc_id subnet) "az".

(** ** Inputs on which the extractor returns

    The conditions under which no step of [extract_network_graph] raises:
    they bear on the collections that are present and on the mappings among
    their elements; an absent collection and an element that is not a
    mapping are free. *)

(** The collection [v] can be iterated and the mappings among its elements
    satisfy [f]. *)
Definition each_dict (f : dict -> bool) (v : value) : bool :=
  match py_iter v with
  | Ok l => forallb f (dicts_of l)
  | Raise _ => false
  end.

(** The same for the field [k] of [d], the empty list when absent. *)
Definition field_each (f : dict -> bool) (d : dict) (k : string) : bool :=
  each_dict f (get_default d k (VList [])).

Definition field_iterable (d : dict) (k : string) : bool :=
  field_each (fun _ => true) d k.

(** The true AZs of a VPC can be put in a set and sorted: all are strings,
    or all are numbers. *)
Definition az_sortable (azs : list value) : bool :=
  forallb is_str azs || forallb is_num azs.

Definition wf_attachment (attachment : dict) : bool :=
  match py_iter (get_default attachment "subnets" (VList [])) with
  | Ok _ => true
  | Raise _ => false
  end.

Definition wf_vpc (vpc : dict) : bool :=
  match py_iter (get_default vpc "subnets" (VList [])) with
  | Ok elems =>
      az_sortable
        (filter truthy (map (subnet_az (get vpc "name")) (dicts_of elems)))
  | Raise _ => false
  end
  && field_each wf_attachment vpc "transitGatewayAttachments".

Definition wf_dxgw (dxgw : dict) : bool :=
  field_iterable dxgw "virtualInterfaces"
  && field_iterable dxgw "transitGatewayAssociations".

Definition wf_cgw (cgw : dict) : bool := field_iterable cgw "vpnConnections".

(** The endpoint of a route is a string, or a false value. *)
Definition wf_route (route : dict) : bool :=
  negb (truthy (get route "targetVpcEndpoint"))
  || is_str (get route "targetVpcEndpoint").

Definition wf_rt (rt : dict) : bool := field_each wf_route rt "routes".

Definition wf_tgw (tgw : dict) : bool := field_each wf_rt tgw "routeTables".

Definition wf_cfg (network_cfg : dict) : bool :=
  field_each wf_tgw network_cfg "transitGateways"
  && field_each wf_vpc network_cfg "vpcs"
  && field_each wf_dxgw network_cfg "directConnectGateways"
  && field_each wf_cgw network_cfg "customerGateways".

(** A root whose [transitGateways] is present and null. *)
Definition null_tgws_cfg : dict := [("transitGateways", VNone)].

(** A root with elements that are not mappings at every level, beside
    mappings of the expected shape. *)
Definition mixed_cfg : dict :=
  [("region", VStr "ca-central-1");
   ("transitGateways",
    VList [VStr "stray";
           VDict [("name", VStr "Tgw");
                  ("routeTables",
                   VList [VInt 1;
                          VDict [("name", VStr "rt");
                                 ("routes",
                                  VList [VNone;
                                         VDict cnfgw_route;
                                         VDict other_route])]])]]);
   ("vpcs", VList [VInt 3; VDict net1_attached; VDict []]);
   ("directConnectGateways",
    VList [VBool true;
           VDict [("name", VStr "Dx");
                  ("virtualInterfaces",
                   VList [VNone; VDict [("name", VStr "vif")]])]]);
   ("customerGateways",
    VList [VDict [("name", VStr "Cgw"); ("vpnConnections", VStr "none")]])].

(** Two values that [<] compares: two strings, or two numbers. *)
Definition same_kind (a b : value) : bool :=
  (is_str a && is_str b) || (is_num a && is_num b).

(** ** Shapes of table values *)

Definition is_list (v : value) : bool :=
  match v with
  | VList _ => true
  | _ => false
  end.

(** A value of the replacement table: a string or a sequence. *)
Definition table_value (v : value) : bool := is_str v || is_list v.

(** The text a String entry stores for its value. *)
Definition string_entry_text (v : value) : string :=
  match v with
  | VNone => ""
  | _ => py_str v
  end.

(** A replacement document with a key bound twice, an element without a
    key and an element that is not a mapping. *)
Definition rebinding_replacements : dict :=
  [("globalReplacements",
    VList [VDict [("key", VStr "Region"); ("value", VStr "us-east-1")];
           VDict [("key", VStr "Asn"); ("type", VStr "String");
                  ("value", VInt 64512)];
           VDict [("value", VStr "lost")];
           VStr "stray";
           VDict [("key", VStr "Region"); ("type", VStr "Number")]])].

(** The five keys of the root that the extractor reads. *)
Definition root_keys : list string :=
  ["transitGateways"; "vpcs"; "directConnectGateways"; "customerGateways";
   "region"].

(** The four collections of the root. *)
Definition root_collections : list string :=
  ["transitGateways"; "vpcs"; "directConnectGateways"; "customerGateways"].

(** The graph of a root without collections. *)
Definition empty_graph : value :=
  VDict [("transit_gateways", VList []);
         ("vpcs", VList []);
         ("tgw_attachments", VList []);
         ("dx_gateways", VList []);
         ("vpn_connections", VList []);
         ("cnfgw_endpoints", VList [])].

(** The name of the transit gateway an attachment refers to. *)
Definition attachment_tgw_name (attachment : dict) : value :=
  match as_dict (get attachment "transitGateway") with
  | Some d => get d "name"
  | None => get attachment "transitGateway"
  end.

Definition type_keys : list string := ["type"; "subnetType"; "tier"].

Definition az_keys : list string := ["availabilityZone"; "az"].

(** [mixed_cfg] with other keys beside the ones the extractor reads. *)
Definition mixed_cfg_more : dict :=
  (("homeRegion", VStr "ca-central-1") :: ("endpointPolicies", VInt 3)
   :: mixed_cfg)%list.

(** [mixed_cfg] without the elements that are not mappings at the top of
    its collections. *)
Definition mixed_cfg_clean : dict :=
  [("region", VStr "ca-central-1");
   ("transitGateways",
    VList [VDict [("name", VStr "Tgw");
                  ("routeTables",
                   VList [VInt 1;
                          VDict [("name", VStr "rt");
                                 ("routes",
                                  VList [VNone;
                                         VDict cnfgw_route;
                                         VDict other_route])]])]]);
   ("vpcs", VList [VDict net1_attached; VDict []]);
   ("directConnectGateways",
    VList [VDict [("name", VStr "Dx");
                  ("virtualInterfaces",
                   VList [VNone; VDict [("name", VStr "vif")]])]]);
   ("customerGateways",
    VList [VDict [("name", VStr "Cgw"); ("vpnConnections", VStr "none")]])].

(** An attachment that names its transit gateway by a plain name. *)
Definition attachment1_plain : dict :=
  [("transitGateway", VStr "Tgw");
   ("subnets", VList [VStr "Priv"; VStr "Pub"])].

Definition vpn_cfg : dict :=
  [("customerGateways",
    VList [VDict [("name", VStr "Cgw"); ("account", VStr "Network");
                  ("vpnConnections",
                   VList [VDict [("name", VStr "vpn1");
                                 ("transitGateway", VStr "Tgw")];
                          VInt 0])]])].

(** Two collections with the same mappings among their elements. *)
Definition same_mappings (v v' : value) : Prop :=
  exists l l', py_iter v = Ok l /\ py_iter v' = Ok l' /\
               dicts_of l = dicts_of l'.

(** Subnet entries in two orders, one AZ repeated. *)
Definition subnets_ab : list dict :=
  [[("az", VStr "a")]; [("az", VStr "b")]; [("az", VNone)]].

Definition subnets_ba : list dict :=
  [[("az", VStr "b")]; [("az", VStr "")]; [("az", VStr "a")];
   [("az", VStr "b")]].

(** ** The set and the sort on numbers

    What [set_of] and [py_sorted] compute on a list of numbers, read
    through the integers they stand for. *)

Definition num_of (v : value) : Z :=
  match as_num v with
  | Some z => z
  | None => 0%Z
  end.

Definition z_set_add (acc : list Z) (x : Z) : list Z :=
  if existsb (Z.eqb x) acc then acc else (acc ++ [x])%list.

Definition z_set_of (acc l : list Z) : list Z := fold_left z_set_add l acc.

Fixpoint z_insert (x : Z) (l : list Z) : list Z :=
  match l with
  | [] => [x]
  | y :: l' => if Z.ltb x y then x :: y :: l' else y :: z_insert x l'
  end.

Definition z_sorted_into (acc l : list Z) : list Z :=
  fold_left (fun acc x => z_insert x acc) l acc.

(** A VPC whose subnets have the integers 10 and 9 as AZ. *)
Definition int_az_vpc : dict :=
  [("name", VStr "Net2");
   ("subnets",
    VList [VDict [("name", VStr "A"); ("availabilityZone", VInt 10)];
           VDict [("name", VStr "B"); ("availabilityZone", VInt 9)]])].

(** A VPC whose subnets have numbers as AZ: one twice, once as [True]. *)
Definition num_az_vpc : dict :=
  [("subnets",
    VList [VDict [("az", VInt 2)]; VDict [("az", VInt 1)];
           VDict [("az", VBool true)]; VDict [("az", VInt 0)]])].

(** * Properties *)

(** ** The exception monad *)

Lemma bind_Ok {A B : Type} (m : result A) (k : A -> result B) (b : B) :
  bind m k = Ok b -> exists a, m = Ok a /\ k a = Ok b.
Proof.
  destruct m as [a|e]; simpl; intros H.
  - exists a; split; [reflexivity | exact H].
  - discriminate H.
Qed.

Lemma mapM_Ok_Forall {A B : Type} (f : A -> result B) (l : list A) :
  Forall (fun a => exists b, f a = Ok b) l -> exists bs, mapM f l = Ok bs.
Proof.
  induction 1 as [|a l [b Hb] _ [bs Hbs]]; simpl.
  - exists []; reflexivity.
  - rewrite Hb; simpl. rewrite Hbs; simpl. exists (b :: bs); reflexivity.
Qed.

Lemma mapM_Ok_inv {A B : Type} (f : A -> result B) (l : list A) (bs : list B) :
  mapM f l = Ok bs -> Forall2 (fun a b => f a = Ok b) l bs.
Proof.
  revert bs; induction l as [|a l IH]; simpl; intros bs H.
  - injection H as <-; constructor.
  - apply bind_Ok in H as [b [Hb H]].
    apply bind_Ok in H as [bs' [Hbs H]].
    injection H as <-. constructor; [exact Hb | apply IH; exact Hbs].
Qed.

Lemma mapM_pure {A B : Type} (f : A -> B) (l : list A) :
  mapM (fun a => Ok (f a)) l = Ok (map f l).
Proof.
  induction l as [|a l IH]; simpl; [reflexivity|].
  rewrite IH; reflexivity.
Qed.

(** ** Truth values *)

Lemma truthy_py_and (a b : value) :
  truthy (py_and a b) = truthy a && truthy b.
Proof. unfold py_and; destruct (truthy a) eqn:E; simpl; auto. Qed.

Lemma truthy_VStr (s : string) : truthy (VStr s) = true <-> s <> "".
Proof.
  simpl. rewrite negb_true_iff. apply String.eqb_neq.
Qed.

Lemma get_absent (d : dict) (k : string) : lookup k d = None -> get d k = VNone.
Proof. unfold get, get_default; intros ->; reflexivity. Qed.

Lemma in_dicts_of (d : dict) (l : list value) :
  In d (dicts_of l) <-> In (VDict d) l.
Proof.
  induction l as [|v l IH]; simpl; [tauto|].
  destruct v; simpl; rewrite IH; split; intros H;
    try (right; exact H); try (destruct H as [H|H]; [discriminate H | exact H]).
  - destruct H as [->|H]; [left; reflexivity | right; exact H].
  - destruct H as [H|H]; [left; injection H as ->; reflexivity | right; exact H].
Qed.

(** ** The shape of the entries *)

Lemma vpc_entry_inv (network_cfg vpc : dict) (v : value) :
  vpc_entry network_cfg vpc = Ok v ->
  exists elems azs,
    py_iter (get_default vpc "subnets" (VList [])) = Ok elems /\
    vpc_azs (map (subnet_entry (get vpc "name")) (dicts_of elems)) = Ok azs /\
    v = VDict [("id", get vpc "name");
               ("name", get vpc "name");
               ("account", get_default vpc "account" (VStr "unknown"));
               ("region",
                get_default vpc "region"
                  (get_default network_cfg "region" VNone));
               ("cidr", vpc_cidr vpc);
               ("azs", VList azs);
               ("subnets",
                VList (map VDict
                         (map (subnet_entry (get vpc "name"))
                            (dicts_of elems))))].
Proof.
  unfold vpc_entry; intros H.
  apply bind_Ok in H as [elems [He H]].
  apply bind_Ok in H as [azs [Ha H]].
  injection H as <-. exists elems, azs; auto.
Qed.

Lemma attachment_entry_Ok (vpc_id : value) (attachment : dict)
      (sns : list value) :
  py_iter (get_default attachment "subnets" (VList [])) = Ok sns ->
  exists e,
    attachment_entry vpc_id attachment = Ok (VDict e) /\
    get e "subnets" = VList (map (attachment_subnet_id vpc_id) sns) /\
    get e "route_tables" =
      VDict [("tgw_association", get attachment "routeTableAssociations");
             ("tgw_propagations",
              get_default attachment "routeTablePropagations" (VList []))].
Proof.
  intros H. unfold attachment_entry. rewrite H; simpl.
  eexists; split; [reflexivity|]. split; reflexivity.
Qed.

(** ** Subnet and attachment identifiers *)

(** C6: in a VPC entry, the subnets are the entries of the mappings of the
    [subnets] field, and the id of each is ["<vpcName>-<subnetName>"] when
    both names are true values (for strings: present and non-empty), the
    subnet name otherwise, null when the subnet has no name. *)
Theorem subnet_id_synthesis :
  forall (network_cfg vpc : dict) (v : value),
    vpc_entry network_cfg vpc = Ok v ->
    exists elems e,
      py_iter (get_default vpc "subnets" (VList [])) = Ok elems /\
      v = VDict e /\
      get e "subnets" =
        VList (map (fun s => VDict (subnet_entry (get vpc "name") s))
                 (dicts_of elems)) /\
      forall subnet, In subnet (dicts_of elems) ->
        let vpc_name := get vpc "name" in
        let subnet_name := get subnet "name" in
        let id := get (subnet_entry vpc_name subnet) "id" in
        (truthy vpc_name = true -> truthy subnet_name = true ->
         id = VStr (py_str vpc_name ++ "-" ++ py_str subnet_name)) /\
        (forall a b, vpc_name = VStr a -> subnet_name = VStr b ->
                     a <> "" -> b <> "" -> id = VStr (a ++ "-" ++ b)) /\
        (truthy vpc_name = false \/ truthy subnet_name = false ->
         id = subnet_name) /\
        (lookup "name" subnet = None -> id = VNone).
Proof.
  intros network_cfg vpc v H.
  apply vpc_entry_inv in H as [elems [azs [He [_ ->]]]].
  exists elems; eexists; split; [exact He|]. split; [reflexivity|].
  split; [cbn; rewrite map_map; reflexivity|].
  intros subnet _ vpc_name subnet_name id.
  assert (Hid : id = if truthy vpc_name && truthy subnet_name
                     then VStr (fmt_dash vpc_name subnet_name)
                     else subnet_name).
  { subst id; cbn. rewrite truthy_py_and. reflexivity. }
  repeat split.
  - intros Hv Hs. rewrite Hid, Hv, Hs. reflexivity.
  - intros a b Ha Hb Hna Hnb. rewrite Hid, Ha, Hb.
    apply truthy_VStr in Hna, Hnb. rewrite Hna, Hnb. reflexivity.
  - intros [Hf|Hf]; rewrite Hid, Hf; [reflexivity|].
    rewrite andb_false_r; reflexivity.
  - intros Hn. rewrite Hid. subst subnet_name.
    rewrite (get_absent _ _ Hn). rewrite andb_false_r. reflexivity.
Qed.

Lemma subnet_id_synthesis_witness :
  exists v,
    vpc_entry [] net1 = Ok v /\
    exists elems e,
      py_iter (get_default net1 "subnets" (VList [])) = Ok elems /\
      v = VDict e /\
      get e "subnets" =
        VList (map (fun s => VDict (subnet_entry (get net1 "name") s))
                 (dicts_of elems)) /\
      forall subnet, In subnet (dicts_of elems) ->
        let vpc_name := get net1 "name" in
        let subnet_name := get subnet "name" in
        let id := get (subnet_entry vpc_name subnet) "id" in
        (truthy vpc_name = true -> truthy subnet_name = true ->
         id = VStr (py_str vpc_name ++ "-" ++ py_str subnet_name)) /\
        (forall a b, vpc_name = VStr a -> subnet_name = VStr b ->
                     a <> "" -> b <> "" -> id = VStr (a ++ "-" ++ b)) /\
        (truthy vpc_name = false \/ truthy subnet_name = false ->
         id = subnet_name) /\
        (lookup "name" subnet = None -> id = VNone).
Proof.
  eexists; split; [reflexivity|].
  apply (subnet_id_synthesis [] net1); reflexivity.
Defined.

(** The example of the specification: VPC [Net1] with subnet [Priv], and a
    subnet without a name in a VPC without a name. *)
Example subnet_id_examples :
  get (subnet_entry (VStr "Net1") [("name", VStr "Priv")]) "id"
    = VStr "Net1-Priv" /\
  get (subnet_entry VNone []) "id" = VNone.
Proof. split; reflexivity. Qed.

(** C7: the subnet reference an attachment holds for a bare subnet name is
    the synthesized id of the subnet entry of the same VPC that bears this
    name: position by position, the references of the attachment entry are
    the ids the subnets of these names get. *)
Theorem attachment_subnets_joinable :
  forall (vpc attachment : dict) (sns : list value),
    py_iter (get_default attachment "subnets" (VList [])) = Ok sns ->
    exists e ids,
      attachment_entry (get vpc "name") attachment = Ok (VDict e) /\
      get e "subnets" = VList ids /\
      List.length ids = List.length sns /\
      forall (i : nat) (sn : value) (subnet : dict),
        nth_error sns i = Some sn ->
        get subnet "name" = sn ->
        nth_error ids i
          = Some (get (subnet_entry (get vpc "name") subnet) "id").
Proof.
  intros vpc attachment sns H.
  destruct (attachment_entry_Ok (get vpc "name") attachment sns H)
    as [e [He [Hs _]]].
  exists e, (map (attachment_subnet_id (get vpc "name")) sns).
  split; [exact He|]. split; [exact Hs|].
  split; [apply length_map|].
  intros i sn subnet Hi Hn.
  rewrite nth_error_map, Hi; simpl. rewrite <- Hn. reflexivity.
Qed.

Lemma attachment_subnets_joinable_witness :
  exists e ids,
    attachment_entry (get net1_attached "name") attachment1 = Ok (VDict e) /\
    get e "subnets" = VList ids /\
    List.length ids = 2 /\
    forall (i : nat) (sn : value) (subnet : dict),
      nth_error [VStr "Priv"; VStr "Pub"] i = Some sn ->
      get subnet "name" = sn ->
      nth_error ids i
        = Some (get (subnet_entry (get net1_attached "name") subnet) "id").
Proof.
  apply (attachment_subnets_joinable net1_attached attachment1
           [VStr "Priv"; VStr "Pub"]).
  reflexivity.
Defined.

(** C10: in an attachment entry, [tgw_association] is the raw value of
    [routeTableAssociations], null when the key is absent, and
    [tgw_propagations] is the raw value of [routeTablePropagations], the
    empty list when the key is absent. *)
Theorem attachment_route_tables_defaults :
  forall (vpc_id : value) (attachment : dict) (sns : list value),
    py_iter (get_default attachment "subnets" (VList [])) = Ok sns ->
    exists e assoc props,
      attachment_entry vpc_id attachment = Ok (VDict e) /\
      get e "route_tables"
        = VDict [("tgw_association", assoc); ("tgw_propagations", props)] /\
      (lookup "routeTableAssociations" attachment = None -> assoc = VNone) /\
      (forall x, lookup "routeTableAssociations" attachment = Some x ->
                 assoc = x) /\
      (lookup "routeTablePropagations" attachment = None ->
       props = VList []) /\
      (forall x, lookup "routeTablePropagations" attachment = Some x ->
                 props = x).
Proof.
  intros vpc_id attachment sns H.
  destruct (attachment_entry_Ok vpc_id attachment sns H) as [e [He [_ Hr]]].
  exists e. do 2 eexists. split; [exact He|]. split; [exact Hr|].
  unfold get, get_default.
  repeat split; try (intros x Hx; rewrite Hx; reflexivity);
    intros Hx; rewrite Hx; reflexivity.
Qed.

Lemma attachment_route_tables_defaults_witness :
  exists e assoc props,
    attachment_entry (VStr "Net1") attachment1 = Ok (VDict e) /\
    get e "route_tables"
      = VDict [("tgw_association", assoc); ("tgw_propagations", props)] /\
    (lookup "routeTableAssociations" attachment1 = None -> assoc = VNone) /\
    (forall x, lookup "routeTableAssociations" attachment1 = Some x ->
               assoc = x) /\
    (lookup "routeTablePropagations" attachment1 = None ->
     props = VList []) /\
    (forall x, lookup "routeTablePropagations" attachment1 = Some x ->
               props = x).
Proof.
  apply (attachment_route_tables_defaults (VStr "Net1") attachment1
           [VStr "Priv"; VStr "Pub"]).
  reflexivity.
Defined.

(** C3: the graph of a VPC without a name whose attachment has no name and
    no transit gateway: the [name] and the [id] of the attachment entry are
    the text ["None-None"], written from the two missing names. *)
Theorem attachment_name_from_missing_parts :
  extract_network_graph bare_attachment_cfg
  = Ok (VDict
          [("transit_gateways", VList []);
           ("vpcs",
            VList [VDict [("id", VNone); ("name", VNone);
                          ("account", VStr "unknown"); ("region", VNone);
                          ("cidr", VNone); ("azs", VList []);
                          ("subnets", VList [])]]);
           ("tgw_attachments",
            VList [VDict [("id", VStr "None-None"); ("tgw_id", VNone);
                          ("vpc_id", VNone); ("name", VStr "None-None");
                          ("subnets", VList []);
                          ("route_tables",
                           VDict [("tgw_association", VNone);
                                  ("tgw_propagations", VList [])])]]);
           ("dx_gateways", VList []);
           ("vpn_connections", VList []);
           ("cnfgw_endpoints", VList [])]).
Proof. reflexivity. Qed.

(** ** CIDR of a VPC *)

Lemma first_present_truthy (d : dict) (ks : list string) :
  (forall k x, In k ks -> lookup k d = Some x -> truthy x = true) ->
  first_present d ks
  = match first_truthy d ks with Some x => x | None => VNone end.
Proof.
  induction ks as [|k ks IH]; simpl; intros H; [reflexivity|].
  destruct (lookup k d) as [x|] eqn:E.
  - rewrite (H k x (or_introl eq_refl) E). reflexivity.
  - apply IH. intros k' x' Hin. apply H. right; exact Hin.
Qed.

Lemma first_truthy_None_absent (d : dict) (ks : list string) (k : string) :
  (forall k x, In k ks -> lookup k d = Some x -> truthy x = true) ->
  first_truthy d ks = None -> In k ks -> lookup k d = None.
Proof.
  induction ks as [|k0 ks IH]; simpl; intros H Hn Hin; [contradiction|].
  destruct (lookup k0 d) as [x|] eqn:E.
  - rewrite (H k0 x (or_introl eq_refl) E) in Hn. discriminate Hn.
  - destruct Hin as [<-|Hin]; [exact E|].
    apply IH; auto. intros k' x' Hin'. apply H. right; exact Hin'.
Qed.

Lemma or_chain_first_truthy (d : dict) (k1 k2 k3 : string) :
  py_or (py_or (get d k1) (get d k2)) (get d k3)
  = match first_truthy d [k1; k2; k3] with
    | Some x => x
    | None => get d k3
    end.
Proof.
  unfold py_or, get, get_default; simpl.
  destruct (lookup k1 d) as [x1|]; destruct (lookup k2 d) as [x2|];
    destruct (lookup k3 d) as [x3|]; simpl;
    try destruct (truthy x1) eqn:T1; simpl; rewrite ?T1;
    try destruct (truthy x2) eqn:T2; simpl; rewrite ?T2;
    try destruct (truthy x3) eqn:T3; simpl; rewrite ?T3; reflexivity.
Qed.

(** C5, as the code has it: the CIDR of a VPC entry is the first element of
    [cidrs] when this is a non-empty sequence; otherwise the first of
    [cidr], [ipv4CidrBlock], [ipv4Cidr] that is bound to a true value, and
    with none the value of [ipv4Cidr], null when that key is absent.  It is
    the value the specification words whenever the scalar fields that are
    present hold true values. *)
Theorem vpc_cidr_precedence :
  forall (network_cfg vpc : dict) (v : value),
    vpc_entry network_cfg vpc = Ok v ->
    exists e,
      v = VDict e /\
      (forall c l, get_default vpc "cidrs" (VList []) = VList (c :: l) ->
                   get e "cidr" = c) /\
      ((forall c l, get_default vpc "cidrs" (VList []) <> VList (c :: l)) ->
       get e "cidr"
       = match first_truthy vpc cidr_keys with
         | Some x => x
         | None => get vpc "ipv4Cidr"
         end) /\
      ((forall k x, In k cidr_keys -> lookup k vpc = Some x ->
                    truthy x = true) ->
       get e "cidr" = claimed_vpc_cidr vpc).
Proof.
  intros network_cfg vpc v H.
  apply vpc_entry_inv in H as [elems [azs [_ [_ ->]]]].
  eexists; split; [reflexivity|].
  assert (Hc : get
                 [("id", get vpc "name"); ("name", get vpc "name");
                  ("account", get_default vpc "account" (VStr "unknown"));
                  ("region",
                   get_default vpc "region"
                     (get_default network_cfg "region" VNone));
                  ("cidr", vpc_cidr vpc); ("azs", VList azs);
                  ("subnets",
                   VList (map VDict
                            (map (subnet_entry (get vpc "name"))
                               (dicts_of elems))))] "cidr"
               = vpc_cidr vpc) by reflexivity.
  rewrite Hc; clear Hc.
  assert (Hchain : (forall c l,
                       get_default vpc "cidrs" (VList []) <> VList (c :: l)) ->
                   vpc_cidr vpc
                   = match first_truthy vpc cidr_keys with
                     | Some x => x
                     | None => get vpc "ipv4Cidr"
                     end).
  { intros Hn. unfold vpc_cidr, cidr_keys.
    rewrite <- or_chain_first_truthy.
    destruct (get_default vpc "cidrs" (VList [])) as [| | | |[|c l]|];
      try reflexivity.
    exfalso; exact (Hn c l eq_refl). }
  split; [|split].
  - intros c l Hl. unfold vpc_cidr. rewrite Hl. reflexivity.
  - exact Hchain.
  - intros Ht. unfold claimed_vpc_cidr.
    destruct (get_default vpc "cidrs" (VList [])) as [| | | |[|c l]|] eqn:E.
    6: { unfold vpc_cidr; rewrite E.
         unfold get_default in E.
         destruct (lookup "cidrs" vpc) as [x|]; [|discriminate E].
         subst x. reflexivity. }
    all: rewrite Hchain by (intros c l; congruence).
    all: rewrite (first_present_truthy vpc cidr_keys Ht).
    all: unfold get_default in E.
    all: destruct (first_truthy vpc cidr_keys) eqn:F;
      [|rewrite (get_absent vpc "ipv4Cidr")
          by (apply (first_truthy_None_absent vpc cidr_keys); auto;
              simpl; auto)].
    all: destruct (lookup "cidrs" vpc) as [x|]; [subst x|]; try reflexivity.
    all: try discriminate E.
Qed.

Lemma vpc_cidr_precedence_witness :
  exists v e,
    vpc_entry [] two_cidrs_vpc = Ok v /\
    v = VDict e /\
    get e "cidr" = VStr "10.0.0.0/16" /\
    get e "cidr" = claimed_vpc_cidr two_cidrs_vpc.
Proof.
  destruct (vpc_cidr_precedence [] two_cidrs_vpc _ eq_refl)
    as [e [He [H1 [_ H3]]]].
  eexists; exists e. split; [reflexivity|]. split; [exact He|]. split.
  - apply (H1 (VStr "10.0.0.0/16") [VStr "10.1.0.0/16"]). reflexivity.
  - apply H3. intros k x [<-|[<-|[<-|[]]]] Hx; vm_compute in Hx;
      try discriminate Hx. injection Hx as <-. reflexivity.
Defined.

(** The claim fails for a VPC whose [cidr] is present and empty: the first
    present field is [cidr], the code passes over it. *)
Lemma vpc_cidr_first_present_fails :
  exists e,
    vpc_entry [] empty_cidr_vpc = Ok (VDict e) /\
    get e "cidr" = VStr "10.2.0.0/16" /\
    claimed_vpc_cidr empty_cidr_vpc = VStr "".
Proof. eexists; repeat split. Qed.

(** The example of the specification. *)
Example vpc_cidr_example : vpc_cidr two_cidrs_vpc = VStr "10.0.0.0/16".
Proof. reflexivity. Qed.

(** ** CNFGW endpoints *)

Lemma Forall2_In_r {A B : Type} (R : A -> B -> Prop) (l : list A)
      (bs : list B) (b : B) :
  Forall2 R l bs -> In b bs -> exists a, In a l /\ R a b.
Proof.
  induction 1 as [|a b' l bs Hab _ IH]; simpl; [contradiction|].
  intros [<-|Hin].
  - exists a; auto.
  - destruct (IH Hin) as [a' [Ha' HR]]. exists a'; auto.
Qed.

Lemma Forall2_In_l {A B : Type} (R : A -> B -> Prop) (l : list A)
      (bs : list B) (a : A) :
  Forall2 R l bs -> In a l -> exists b, In b bs /\ R a b.
Proof.
  induction 1 as [|a' b l bs Hab _ IH]; simpl; [contradiction|].
  intros [<-|Hin].
  - exists b; auto.
  - destruct (IH Hin) as [b' [Hb' HR]]. exists b'; auto.
Qed.

(** What a loop of loops gathers: the elements of the lists its turns
    return. *)
Lemma mapM_concat_In {A B : Type} (f : A -> result (list B)) (l : list A)
      (bss : list (list B)) (b : B) :
  mapM f l = Ok bss ->
  (In b (List.concat bss) <-> exists a bs, In a l /\ f a = Ok bs /\ In b bs).
Proof.
  intros H. apply mapM_Ok_inv in H. rewrite in_concat. split.
  - intros [bs [Hbs Hb]].
    destruct (Forall2_In_r _ _ _ _ H Hbs) as [a [Ha Hf]].
    exists a, bs; auto.
  - intros [a [bs [Ha [Hf Hb]]]].
    destruct (Forall2_In_l _ _ _ _ H Ha) as [bs' [Hbs' Hf']].
    rewrite Hf in Hf'. injection Hf' as <-. exists bs; auto.
Qed.

Lemma in_flat_map_opt_list {A : Type} (os : list (option A)) (a : A) :
  In a (flat_map opt_list os) <-> In (Some a) os.
Proof.
  rewrite in_flat_map. split.
  - intros [[x|] [Hin Hx]]; simpl in Hx; [|contradiction].
    destruct Hx as [->|[]]. exact Hin.
  - intros Hin. exists (Some a). simpl; auto.
Qed.

Lemma rt_endpoints_In (tgw rt : dict) (es : list value) (e : value) :
  rt_endpoints tgw rt = Ok es ->
  (In e es <->
   exists routes route,
     py_iter (get_default rt "routes" (VList [])) = Ok routes /\
     In route (dicts_of routes) /\
     route_endpoint tgw rt route = Ok (Some e)).
Proof.
  unfold rt_endpoints. intros H.
  apply bind_Ok in H as [routes [Hr H]].
  apply bind_Ok in H as [os [Hos H]]. injection H as <-.
  apply mapM_Ok_inv in Hos. rewrite in_flat_map_opt_list. split.
  - intros Hin. destruct (Forall2_In_r _ _ _ _ Hos Hin) as [route [? ?]].
    exists routes, route; auto.
  - intros [routes' [route [Hr' [Hin Hf]]]].
    rewrite Hr in Hr'. injection Hr' as <-.
    destruct (Forall2_In_l _ _ _ _ Hos Hin) as [o [Ho Hf']].
    rewrite Hf in Hf'. injection Hf' as <-. exact Ho.
Qed.

Lemma tgw_endpoints_In (tgw : dict) (es : list value) (e : value) :
  tgw_endpoints tgw = Ok es ->
  (In e es <->
   exists rts rt routes route,
     py_iter (get_default tgw "routeTables" (VList [])) = Ok rts /\
     In rt (dicts_of rts) /\
     py_iter (get_default rt "routes" (VList [])) = Ok routes /\
     In route (dicts_of routes) /\
     route_endpoint tgw rt route = Ok (Some e)).
Proof.
  unfold tgw_endpoints. intros H.
  apply bind_Ok in H as [rts [Hr H]].
  apply bind_Ok in H as [ess [Hess H]]. injection H as <-.
  rewrite (mapM_concat_In _ _ _ e Hess). split.
  - intros [rt [bs [Hin [Hf Hb]]]].
    apply (rt_endpoints_In tgw rt bs e Hf) in Hb
      as [routes [route [? [? ?]]]].
    exists rts, rt, routes, route; auto.
  - intros [rts' [rt [routes [route [Hr' [Hin [Hro [Hin' Hf]]]]]]]].
    rewrite Hr in Hr'. injection Hr' as <-.
    destruct (Forall2_In_l _ _ _ _ (mapM_Ok_inv _ _ _ Hess) Hin)
      as [bs [_ Hbs]].
    exists rt, bs. split; [exact Hin|]. split; [exact Hbs|].
    apply (rt_endpoints_In tgw rt bs e Hbs). exists routes, route; auto.
Qed.

Lemma falsy_iter_no_dict (v : value) (l : list value) :
  truthy v = false -> py_iter v = Ok l -> dicts_of l = [].
Proof.
  destruct v as [| | |s|l'|d]; simpl; intros Ht H; try discriminate H;
    injection H as <-.
  - destruct s; [reflexivity | discriminate Ht].
  - destruct l'; [reflexivity | discriminate Ht].
  - destruct d; [reflexivity | discriminate Ht].
Qed.

Lemma get_default_truthy (d : dict) (k : string) (dflt : value) :
  truthy (get d k) = true -> get_default d k dflt = get d k.
Proof.
  unfold get, get_default. destruct (lookup k d); [reflexivity|].
  simpl; discriminate.
Qed.

Lemma get_default_falsy (d : dict) (k : string) :
  truthy (get d k) = false -> truthy (get_default d k (VList [])) = false.
Proof.
  unfold get, get_default. destruct (lookup k d); auto.
Qed.

(** The endpoints of the graph are the entries the routes of the three-level
    traversal add. *)
Lemma cnfgw_endpoints_of_In (network_cfg : dict) (es : list value)
      (e : value) :
  cnfgw_endpoints_of network_cfg = Ok es ->
  (In e es <->
   exists tgws tgw rts rt routes route,
     py_iter (get_default network_cfg "transitGateways" (VList []))
       = Ok tgws /\
     In tgw (dicts_of tgws) /\
     py_iter (get_default tgw "routeTables" (VList [])) = Ok rts /\
     In rt (dicts_of rts) /\
     py_iter (get_default rt "routes" (VList [])) = Ok routes /\
     In route (dicts_of routes) /\
     route_endpoint tgw rt route = Ok (Some e)).
Proof.
  unfold cnfgw_endpoints_of.
  destruct (truthy (get network_cfg "transitGateways")) eqn:Ht; intros H.
  - apply bind_Ok in H as [tgws [Hr H]].
    apply bind_Ok in H as [ess [Hess H]]. injection H as <-.
    rewrite (mapM_concat_In _ _ _ e Hess). split.
    + intros [tgw [bs [Hin [Hf Hb]]]].
      apply (tgw_endpoints_In tgw bs e Hf) in Hb
        as [rts [rt [routes [route [? [? [? [? ?]]]]]]]].
      exists tgws, tgw, rts, rt, routes, route. repeat split; assumption.
    + intros [tgws' [tgw [rts [rt [routes [route
               [Hr' [Hin [Hrt [Hin1 [Hro [Hin2 Hf]]]]]]]]]]]].
      rewrite Hr in Hr'. injection Hr' as <-.
      destruct (Forall2_In_l _ _ _ _ (mapM_Ok_inv _ _ _ Hess) Hin)
        as [bs [_ Hbs]].
      exists tgw, bs. split; [exact Hin|]. split; [exact Hbs|].
      apply (tgw_endpoints_In tgw bs e Hbs).
      exists rts, rt, routes, route. repeat split; assumption.
  - injection H as <-. split; [intros []|].
    intros [tgws [tgw [_ [_ [_ [_ [Hr [Hin _]]]]]]]].
    rewrite (falsy_iter_no_dict _ _ (get_default_falsy _ _ Ht) Hr) in Hin.
    exact Hin.
Qed.

Lemma route_endpoint_Some (tgw rt route : dict) (e : value) :
  route_endpoint tgw rt route = Ok (Some e) <->
  exists s,
    get route "targetVpcEndpoint" = VStr s /\ s <> "" /\
    contains "cnfgw" (lower s) = true /\
    e = cnfgw_entry tgw rt route (VStr s).
Proof.
  unfold route_endpoint. split.
  - destruct (truthy (get route "targetVpcEndpoint")) eqn:Ht;
      [|discriminate].
    destruct (get route "targetVpcEndpoint") as [| | |s| |];
      simpl; try discriminate.
    destruct (contains "cnfgw" (lower s)) eqn:Hc; [|discriminate].
    intros H; injection H as <-. exists s.
    apply truthy_VStr in Ht. auto.
  - intros [s [-> [Hn [Hc ->]]]].
    apply truthy_VStr in Hn. rewrite Hn. simpl. rewrite Hc. reflexivity.
Qed.

Lemma py_or_first_truthy (d : dict) (k1 k2 : string) :
  py_or (get d k1) (get d k2)
  = match first_truthy d [k1; k2] with
    | Some x => x
    | None => get d k2
    end.
Proof.
  unfold py_or, get, get_default; simpl.
  destruct (lookup k1 d) as [x1|]; destruct (lookup k2 d) as [x2|]; simpl;
    try destruct (truthy x1) eqn:T1; simpl; rewrite ?T1;
    try destruct (truthy x2) eqn:T2; simpl; rewrite ?T2; reflexivity.
Qed.

(** C9, as the code has it: a route adds an endpoint entry exactly when its
    [targetVpcEndpoint] is a non-empty string whose lowercased text contains
    ["cnfgw"]; the entries of the graph are the ones such routes add; the
    type of an entry is ["palo_alto_cnfgw"] and its destination is
    [destinationCidrBlock] when that is bound to a true value, else the
    value of [destination], null when absent.  The destination is the first
    present of the two fields whenever a present [destinationCidrBlock]
    holds a true value. *)
Theorem cnfgw_endpoint_filter :
  forall (network_cfg : dict) (es : list value),
    cnfgw_endpoints_of network_cfg = Ok es ->
    (forall e,
        In e es <->
        exists tgws tgw rts rt routes route s,
          py_iter (get_default network_cfg "transitGateways" (VList []))
            = Ok tgws /\
          In tgw (dicts_of tgws) /\
          py_iter (get_default tgw "routeTables" (VList [])) = Ok rts /\
          In rt (dicts_of rts) /\
          py_iter (get_default rt "routes" (VList [])) = Ok routes /\
          In route (dicts_of routes) /\
          get route "targetVpcEndpoint" = VStr s /\ s <> "" /\
          contains "cnfgw" (lower s) = true /\
          e = cnfgw_entry tgw rt route (VStr s)) /\
    (forall (tgw rt route : dict),
        ((exists e, route_endpoint tgw rt route = Ok (Some e)) <->
         (exists s, get route "targetVpcEndpoint" = VStr s /\ s <> "" /\
                    contains "cnfgw" (lower s) = true)) /\
        forall e, route_endpoint tgw rt route = Ok (Some e) ->
          exists d,
            e = VDict d /\
            get d "type" = VStr "palo_alto_cnfgw" /\
            get d "destination"
            = (if truthy (get route "destinationCidrBlock")
               then get route "destinationCidrBlock"
               else get route "destination") /\
            ((forall x, lookup "destinationCidrBlock" route = Some x ->
                        truthy x = true) ->
             get d "destination" = first_present route destination_keys)).
Proof.
  intros network_cfg es H. split.
  - intros e. rewrite (cnfgw_endpoints_of_In network_cfg es e H). split.
    + intros [tgws [tgw [rts [rt [routes [route
               [H1 [H2 [H3 [H4 [H5 [H6 H7]]]]]]]]]]]].
      apply route_endpoint_Some in H7 as [s [? [? [? ?]]]].
      exists tgws, tgw, rts, rt, routes, route, s.
      repeat split; assumption.
    + intros [tgws [tgw [rts [rt [routes [route [s
               [H1 [H2 [H3 [H4 [H5 [H6 [H7 [H8 [H9 H10]]]]]]]]]]]]]]]].
      exists tgws, tgw, rts, rt, routes, route.
      repeat split; try assumption.
      apply route_endpoint_Some. exists s; auto.
  - intros tgw rt route. split.
    + split.
      * intros [e He]. apply route_endpoint_Some in He as [s [? [? [? ?]]]].
        exists s; auto.
      * intros [s [? [? ?]]]. exists (cnfgw_entry tgw rt route (VStr s)).
        apply route_endpoint_Some. exists s; auto.
    + intros e He. apply route_endpoint_Some in He as [s [_ [_ [_ ->]]]].
      eexists; split; [reflexivity|]. split; [reflexivity|].
      split; [reflexivity|].
      intros Ht. cbn. unfold py_or, get, get_default.
      destruct (lookup "destinationCidrBlock" route) as [x|] eqn:E.
      * rewrite (Ht x eq_refl). reflexivity.
      * simpl. reflexivity.
Qed.

Lemma cnfgw_endpoint_filter_witness :
  exists es,
    cnfgw_endpoints_of cnfgw_cfg = Ok es /\
    (In (cnfgw_entry [("name", VStr "Tgw")] [("name", VStr "rt")]
           cnfgw_route (VStr "vpce-CNFGW-01")) es <->
     exists tgws tgw rts rt routes route s,
       py_iter (get_default cnfgw_cfg "transitGateways" (VList []))
         = Ok tgws /\
       In tgw (dicts_of tgws) /\
       py_iter (get_default tgw "routeTables" (VList [])) = Ok rts /\
       In rt (dicts_of rts) /\
       py_iter (get_default rt "routes" (VList [])) = Ok routes /\
       In route (dicts_of routes) /\
       get route "targetVpcEndpoint" = VStr s /\ s <> "" /\
       contains "cnfgw" (lower s) = true /\
       cnfgw_entry [("name", VStr "Tgw")] [("name", VStr "rt")]
         cnfgw_route (VStr "vpce-CNFGW-01")
       = cnfgw_entry tgw rt route (VStr s)).
Proof.
  eexists. split; [reflexivity|].
  apply (cnfgw_endpoint_filter cnfgw_cfg _ eq_refl).
Defined.

(** The claim fails for a route whose [destinationCidrBlock] is present and
    empty: the entry takes [destination]. *)
Lemma cnfgw_destination_present_fails :
  exists d,
    route_endpoint [] [] empty_block_route = Ok (Some (VDict d)) /\
    get d "destination" = VStr "10.0.0.0/8" /\
    lookup "destinationCidrBlock" empty_block_route = Some (VStr "").
Proof. eexists; repeat split. Qed.

(** The examples of the specification: the match ignores case. *)
Example cnfgw_filter_examples :
  route_endpoint [] [] cnfgw_route
  = Ok (Some (cnfgw_entry [] [] cnfgw_route (VStr "vpce-CNFGW-01"))) /\
  route_endpoint [] [] other_route = Ok None.
Proof. split; reflexivity. Qed.

(** ** The replacement table *)

Lemma lookup_dict_set_eq (d : dict) (k : string) (v : value) :
  lookup k (dict_set d k v) = Some v.
Proof.
  induction d as [|[k' v'] d IH]; simpl.
  - rewrite String.eqb_refl; reflexivity.
  - destruct (String.eqb k k') eqn:E; simpl; rewrite E; auto.
Qed.

Lemma lookup_dict_set_neq (d : dict) (k k' : string) (v : value) :
  k <> k' -> lookup k (dict_set d k' v) = lookup k d.
Proof.
  intros Hn. induction d as [|[k0 v0] d IH]; simpl.
  - apply String.eqb_neq in Hn. rewrite Hn; reflexivity.
  - destruct (String.eqb k' k0) eqn:E; simpl.
    + apply String.eqb_eq in E; subst k0.
      apply String.eqb_neq in Hn. rewrite Hn. reflexivity.
    + rewrite IH. reflexivity.
Qed.

Lemma py_eqb_StringList (v : value) :
  py_eqb v (VStr "StringList") = true <-> v = VStr "StringList".
Proof.
  split.
  - destruct v as [| b | z | s | l | d]; simpl; try discriminate.
    intros H. apply String.eqb_eq in H. congruence.
  - intros ->. reflexivity.
Qed.

(** An element that binds another key, or none, leaves the entry of [k]. *)
Lemma add_replacement_other (mapping : dict) (item : value) (k : string) :
  entry_key item <> Some k ->
  lookup k (add_replacement mapping item) = lookup k mapping.
Proof.
  unfold entry_key, add_replacement.
  destruct (as_dict item) as [it|]; [|reflexivity].
  intros H.
  assert (Hk : get it "key" = VNone \/ k <> py_str (get it "key")).
  { destruct (get it "key"); auto; right; intros ->; apply H; reflexivity. }
  destruct Hk as [Hk|Hk]; [rewrite Hk; reflexivity|].
  destruct (get it "key"); try reflexivity;
    destruct (py_eqb _ _); apply lookup_dict_set_neq; exact Hk.
Qed.

Lemma fold_add_replacement_other (items : list value) (mapping : dict)
      (k : string) :
  Forall (fun item => entry_key item <> Some k) items ->
  lookup k (fold_left add_replacement items mapping) = lookup k mapping.
Proof.
  intros H; revert mapping.
  induction H as [|item items Hi _ IH]; simpl; intros mapping;
    [reflexivity|].
  rewrite IH. apply add_replacement_other. exact Hi.
Qed.

(** The entry a StringList element puts into the table. *)
Lemma add_replacement_StringList (mapping it : dict) :
  get it "key" <> VNone ->
  get_default it "type" (VStr "String") = VStr "StringList" ->
  lookup (py_str (get it "key")) (add_replacement mapping (VDict it))
  = Some (VList (as_sequence (get it "value"))).
Proof.
  intros Hk Ht. unfold add_replacement; simpl. rewrite Ht; simpl.
  destruct (get it "key") eqn:E; try (exfalso; apply Hk; reflexivity);
    rewrite lookup_dict_set_eq; destruct (get it "value"); reflexivity.
Qed.

(** C2, as the code has it: the table entry of a StringList element (the
    last element that binds its key) is a sequence: a sequence value as it
    is, null or no value the empty sequence, any other value [x] the
    sequence [[x]].  The elements are not converted: they are strings when
    the source value is a string, null, or a sequence of strings. *)
Theorem build_replacements_string_list :
  forall (raw it : dict) (items1 items2 : list value),
    get_default raw "globalReplacements" (VList [])
      = VList (items1 ++ VDict it :: items2)%list ->
    get it "key" <> VNone ->
    get_default it "type" (VStr "String") = VStr "StringList" ->
    Forall (fun item => entry_key item <> Some (py_str (get it "key")))
      items2 ->
    exists l,
      lookup (py_str (get it "key")) (build_replacements (VDict raw))
        = Some (VList l) /\
      (forall l', get it "value" = VList l' -> l = l') /\
      (get it "value" = VNone -> l = []) /\
      (forall x, get it "value" = x -> x <> VNone ->
                 (forall l', x <> VList l') -> l = [x]) /\
      (forallb is_str (as_sequence (get it "value")) = true ->
       forallb is_str l = true).
Proof.
  intros raw it items1 items2 Hraw Hk Ht Hlater.
  exists (as_sequence (get it "value")). split.
  - unfold build_replacements; simpl. rewrite Hraw.
    rewrite fold_left_app; simpl.
    rewrite fold_add_replacement_other by exact Hlater.
    apply add_replacement_StringList; assumption.
  - repeat split.
    + intros l' ->. reflexivity.
    + intros ->. reflexivity.
    + intros x <- Hn Hl. destruct (get it "value"); try reflexivity.
      * exfalso; apply Hn; reflexivity.
      * exfalso; apply (Hl l); reflexivity.
    + auto.
Qed.

Lemma build_replacements_string_list_witness :
  exists l,
    lookup "Home" (build_replacements (VDict region_replacements))
      = Some (VList l) /\
    l = [VStr "ca-central-1"] /\
    forallb is_str l = true.
Proof.
  destruct (build_replacements_string_list region_replacements
              [("key", VStr "Home"); ("type", VStr "StringList");
               ("value", VStr "ca-central-1")]
              [VDict [("key", VStr "Regions"); ("type", VStr "StringList");
                      ("value",
                       VList [VStr "ca-central-1"; VStr "us-east-1"])]]
              [VInt 7;
               VDict [("key", VStr "Spare"); ("type", VStr "StringList")]])
    as [l [Hl [_ [_ [Hx Hs]]]]].
  - reflexivity.
  - discriminate.
  - reflexivity.
  - repeat constructor; vm_compute; discriminate.
  - exists l. split; [exact Hl|]. split.
    + apply (Hx (VStr "ca-central-1")); [reflexivity|discriminate|].
      intros l'; discriminate.
    + apply Hs. reflexivity.
Defined.

(** The claim fails for a StringList whose value is an integer: the entry
    is a sequence whose element is the integer, not a string. *)
Lemma string_list_element_not_str :
  lookup "Ports" (build_replacements int_list_replacements)
    = Some (VList [VInt 443]) /\
  forallb is_str [VInt 443] = false.
Proof. split; reflexivity. Qed.

(** The three shapes of a StringList value. *)
Example build_replacements_shapes :
  build_replacements (VDict region_replacements)
  = [("Regions", VList [VStr "ca-central-1"; VStr "us-east-1"]);
     ("Home", VList [VStr "ca-central-1"]);
     ("Spare", VList [])].
Proof. reflexivity. Qed.

(** ** Literal replacement *)

Lemma append_assoc (a b c : string) : (a ++ b) ++ c = a ++ (b ++ c).
Proof. induction a as [|x a IH]; simpl; [reflexivity | rewrite IH; reflexivity]. Qed.

Lemma append_nil_r (a : string) : a ++ "" = a.
Proof. induction a as [|x a IH]; simpl; [reflexivity | rewrite IH; reflexivity]. Qed.

Lemma has_char_app (c : ascii) (a b : string) :
  has_char c (a ++ b) = has_char c a || has_char c b.
Proof.
  induction a as [|x a IH]; simpl; [reflexivity|].
  rewrite IH, orb_assoc. reflexivity.
Qed.

Lemma has_char_cons_false (c x : ascii) (s : string) :
  has_char c (String x s) = false -> c <> x /\ has_char c s = false.
Proof.
  simpl. intros H. apply orb_false_elim in H as [H1 H2].
  split; [|exact H2]. intros ->. rewrite Ascii.eqb_refl in H1. discriminate.
Qed.

Lemma prefix_app (a b : string) : String.prefix a (a ++ b) = true.
Proof.
  induction a as [|x a IH]; simpl; [destruct b; reflexivity|].
  destruct (ascii_dec x x); [exact IH | congruence].
Qed.

Lemma prefix_cons (a b : ascii) (p s : string) :
  String.prefix (String a p) (String b s)
  = if ascii_dec a b then String.prefix p s else false.
Proof. reflexivity. Qed.

(** A pattern does not start where its first character is not. *)
Lemma prefix_no_head (c : ascii) (p s : string) :
  has_char c s = false -> String.prefix (String c p) s = false.
Proof.
  destruct s as [|x s]; simpl; [reflexivity|]. intros H.
  apply (has_char_cons_false c x s) in H as [Hn _].
  destruct (ascii_dec c x); [contradiction | reflexivity].
Qed.

Lemma contains_no_head (c : ascii) (p s : string) :
  has_char c s = false -> contains (String c p) s = false.
Proof.
  induction s as [|x s IH]; intros H.
  - reflexivity.
  - change (String.prefix (String c p) (String x s)
            || contains (String c p) s = false).
    rewrite (prefix_no_head c p _ H).
    apply has_char_cons_false in H as [_ H]. rewrite (IH H). reflexivity.
Qed.

Lemma contains_cons (p : string) (x : ascii) (s : string) :
  contains p (String x s) = String.prefix p (String x s) || contains p s.
Proof. reflexivity. Qed.

Lemma contains_app_no_head (c : ascii) (p pre s : string) :
  has_char c pre = false ->
  contains (String c p) (pre ++ s) = contains (String c p) s.
Proof.
  induction pre as [|x pre IH]; intros H; [reflexivity|].
  change (contains (String c p) (String x (pre ++ s))
          = contains (String c p) s).
  rewrite contains_cons.
  apply has_char_cons_false in H as [Hn H]. rewrite (IH H).
  simpl. destruct (ascii_dec c x); [contradiction | reflexivity].
Qed.

Lemma replace_scan_cons (old new : string) (x : ascii) (s : string) :
  replace_scan old new 0 (String x s)
  = if String.prefix old (String x s)
    then new ++ replace_scan old new (String.length old - 1) s
    else String x (replace_scan old new 0 s).
Proof. reflexivity. Qed.

(** A text without an occurrence is left as it is. *)
Lemma replace_scan_absent (old new s : string) :
  contains old s = false -> replace_scan old new 0 s = s.
Proof.
  induction s as [|x s IH]; intros H; [reflexivity|].
  rewrite contains_cons in H. apply orb_false_elim in H as [Hp Hc].
  rewrite replace_scan_cons, Hp, (IH Hc). reflexivity.
Qed.

Lemma replace_scan_skip (old new a b : string) :
  replace_scan old new (String.length a) (a ++ b) = replace_scan old new 0 b.
Proof.
  induction a as [|x a IH]; simpl; [|exact IH].
  destruct b; reflexivity.
Qed.

(** An occurrence at the head is replaced, and the scan goes on after it. *)
Lemma replace_scan_head (c : ascii) (p new s : string) :
  replace_scan (String c p) new 0 (String c p ++ s)
  = new ++ replace_scan (String c p) new 0 s.
Proof.
  change (String c p ++ s) with (String c (p ++ s)).
  rewrite replace_scan_cons.
  change (String c (p ++ s)) with (String c p ++ s).
  rewrite prefix_app.
  replace (String.length (String c p) - 1) with (String.length p)
    by (simpl; lia).
  rewrite replace_scan_skip. reflexivity.
Qed.

(** No occurrence starts in a text without the first character of the
    pattern. *)
Lemma replace_scan_app_no_head (c : ascii) (p new pre s : string) :
  has_char c pre = false ->
  replace_scan (String c p) new 0 (pre ++ s)
  = pre ++ replace_scan (String c p) new 0 s.
Proof.
  induction pre as [|x pre IH]; intros H; [reflexivity|].
  change (String x pre ++ s) with (String x (pre ++ s)).
  rewrite replace_scan_cons.
  apply has_char_cons_false in H as [Hn H]. rewrite (IH H).
  simpl. destruct (ascii_dec c x); [contradiction | reflexivity].
Qed.

(** One occurrence between two texts without the first character of the
    pattern. *)
Lemma replace_scan_once (c : ascii) (p new pre post : string) :
  has_char c pre = false -> has_char c post = false ->
  replace_scan (String c p) new 0 (pre ++ String c p ++ post)
  = pre ++ new ++ post.
Proof.
  intros Hpre Hpost.
  rewrite (replace_scan_app_no_head c p new pre _ Hpre).
  rewrite replace_scan_head.
  rewrite (replace_scan_absent _ _ post (contains_no_head c p post Hpost)).
  reflexivity.
Qed.

(** ** Rendering *)

Lemma plain_brace (s : string) : plain s = true -> has_char "{"%char s = false.
Proof.
  unfold plain. intros H. apply andb_prop in H as [H _].
  apply negb_true_iff in H. exact H.
Qed.

Lemma plain_dollar (s : string) :
  plain s = true -> has_char "$"%char s = false.
Proof.
  unfold plain. intros H. apply andb_prop in H as [_ H].
  apply negb_true_iff in H. exact H.
Qed.

Lemma plain_app (a b : string) :
  plain a = true -> plain b = true -> plain (a ++ b) = true.
Proof.
  intros Ha Hb. unfold plain. rewrite !has_char_app.
  rewrite (plain_brace a Ha), (plain_brace b Hb).
  rewrite (plain_dollar a Ha), (plain_dollar b Hb). reflexivity.
Qed.

(** The spaced pattern of a key does not start at its unspaced form. *)
Lemma spaced_not_at_unspaced (key r1 r2 : string) :
  String.prefix (String " " (key ++ r1)) (key ++ String "}" r2) = false.
Proof.
  induction key as [|x key IH]; [reflexivity|].
  change (String.prefix (String " " (String x (key ++ r1)))
            (String x (key ++ String "}" r2)) = false).
  rewrite prefix_cons. destruct (ascii_dec " " x) as [<-|]; [|reflexivity].
  exact IH.
Qed.

Lemma spaced_absent_unspaced (key pre post : string) :
  has_char "{"%char key = false ->
  has_char "{"%char pre = false -> has_char "{"%char post = false ->
  contains (spaced key) (pre ++ unspaced key ++ post) = false.
Proof.
  intros Hk Hpre Hpost. unfold spaced, unspaced.
  change ("{{ " ++ key ++ " }}")
    with (String "{" (String "{" (String " " (key ++ " }}")))).
  rewrite (contains_app_no_head _ _ pre _ Hpre).
  rewrite !append_assoc.
  change ("{{" ++ key ++ "}}" ++ post)
    with (String "{" (String "{" (key ++ "}}" ++ post))).
  assert (Hrest : has_char "{"%char (key ++ "}}" ++ post) = false).
  { rewrite !has_char_app, Hk, Hpost. reflexivity. }
  rewrite !contains_cons.
  rewrite (contains_no_head _ _ _ Hrest), !orb_false_r.
  apply orb_false_intro.
  - simpl. change ("}}" ++ post) with (String "}" (String "}" post)).
    apply spaced_not_at_unspaced.
  - simpl. apply prefix_no_head. exact Hrest.
Qed.

(** A pattern that opens with two braces does not occur around the
    dollar form. *)
Lemma braces_absent_dollar (p key pre post : string) :
  has_char "{"%char key = false ->
  has_char "{"%char pre = false -> has_char "{"%char post = false ->
  contains (String "{" (String "{" p)) (pre ++ dollar key ++ post) = false.
Proof.
  intros Hk Hpre Hpost. unfold dollar.
  rewrite (contains_app_no_head _ _ pre _ Hpre).
  rewrite !append_assoc.
  change ("${" ++ key ++ "}" ++ post)
    with (String "$" (String "{" (key ++ "}" ++ post))).
  assert (Hrest : has_char "{"%char (key ++ "}" ++ post) = false).
  { rewrite !has_char_app, Hk, Hpost. reflexivity. }
  rewrite !contains_cons.
  rewrite (contains_no_head _ _ _ Hrest), !orb_false_r.
  apply orb_false_intro.
  - reflexivity.
  - simpl. apply prefix_no_head. exact Hrest.
Qed.

Lemma str_replace_absent (s old new : string) :
  old <> "" -> contains old s = false -> str_replace s old new = s.
Proof.
  destruct old as [|c p]; [congruence|]. intros _ H.
  apply replace_scan_absent. exact H.
Qed.

Lemma str_replace_no_head (c : ascii) (p old new s : string) :
  old = String c p -> has_char c s = false -> str_replace s old new = s.
Proof.
  intros -> H. apply replace_scan_absent, contains_no_head. exact H.
Qed.

Lemma str_replace_once (c : ascii) (p old new pre post : string) :
  old = String c p ->
  has_char c pre = false -> has_char c post = false ->
  str_replace (pre ++ old ++ post) old new = pre ++ new ++ post.
Proof.
  intros -> Hpre Hpost. rewrite <- append_assoc.
  unfold str_replace. rewrite append_assoc.
  apply replace_scan_once; assumption.
Qed.

Lemma spaced_cons (key : string) :
  spaced key = String "{" (String "{" (String " " (key ++ " }}"))).
Proof. reflexivity. Qed.

Lemma unspaced_cons (key : string) :
  unspaced key = String "{" (String "{" (key ++ "}}")).
Proof. reflexivity. Qed.

Lemma dollar_cons (key : string) :
  dollar key = String "$" (String "{" (key ++ "}")).
Proof. reflexivity. Qed.

(** The three forms of a placeholder, each between two plain texts, give
    the same rendered text. *)
Lemma render_entry_forms (key : string) (value : value) (pre post : string) :
  plain pre = true -> plain post = true ->
  plain (replacement_str value) = true ->
  has_char "{"%char key = false ->
  render_entry (pre ++ spaced key ++ post) (key, value)
    = pre ++ replacement_str value ++ post /\
  render_entry (pre ++ unspaced key ++ post) (key, value)
    = pre ++ replacement_str value ++ post /\
  render_entry (pre ++ dollar key ++ post) (key, value)
    = pre ++ replacement_str value ++ post.
Proof.
  intros Hpre Hpost Hr Hk.
  assert (Hout : plain (pre ++ replacement_str value ++ post) = true)
    by (repeat apply plain_app; assumption).
  pose proof (plain_brace _ Hpre) as Hb1.
  pose proof (plain_brace _ Hpost) as Hb2.
  pose proof (plain_dollar _ Hpre) as Hd1.
  pose proof (plain_dollar _ Hpost) as Hd2.
  unfold render_entry; cbv zeta. repeat split.
  - rewrite (str_replace_once _ _ _ _ _ _ (spaced_cons key) Hb1 Hb2).
    rewrite (str_replace_no_head _ _ _ _ _ (unspaced_cons key)
               (plain_brace _ Hout)).
    apply (str_replace_no_head _ _ _ _ _ (dollar_cons key)
             (plain_dollar _ Hout)).
  - rewrite (str_replace_absent _ (spaced key));
      [| discriminate | apply spaced_absent_unspaced; assumption].
    rewrite (str_replace_once _ _ _ _ _ _ (unspaced_cons key) Hb1 Hb2).
    apply (str_replace_no_head _ _ _ _ _ (dollar_cons key)
             (plain_dollar _ Hout)).
  - rewrite (str_replace_absent _ (spaced key));
      [| discriminate
       | rewrite spaced_cons; apply braces_absent_dollar; assumption].
    rewrite (str_replace_absent _ (unspaced key));
      [| discriminate
       | rewrite unspaced_cons; apply braces_absent_dollar; assumption].
    apply (str_replace_once _ _ _ _ _ _ (dollar_cons key) Hd1 Hd2).
Qed.

(** C4: the renderer takes the entries in the order of the table; for each
    key it replaces ["{{ Key }}"], then ["{{Key}}"], then ["${Key}"], each
    over the whole text, by the same replacement text, which for a list is
    its elements joined by commas.  The replacement is literal: each of the
    three forms of a placeholder, between texts without an opening brace or
    a dollar, renders to the same text. *)
Theorem render_three_passes :
  (forall (raw_text key : string) (value : value) (rest : dict),
      render_network_config raw_text ((key, value) :: rest)
      = render_network_config
          (str_replace
             (str_replace
                (str_replace raw_text ("{{ " ++ key ++ " }}")
                   (replacement_str value))
                ("{{" ++ key ++ "}}") (replacement_str value))
             ("${" ++ key ++ "}") (replacement_str value))
          rest) /\
  (forall raw_text : string, render_network_config raw_text [] = raw_text) /\
  (forall l : list value,
      replacement_str (VList l) = String.concat "," (map py_str l)) /\
  (forall s : string, replacement_str (VStr s) = s) /\
  (forall (key : string) (value : value) (pre post : string),
      plain pre = true -> plain post = true ->
      plain (replacement_str value) = true ->
      has_char "{"%char key = false ->
      render_network_config (pre ++ "{{ " ++ key ++ " }}" ++ post)
        [(key, value)]
        = pre ++ replacement_str value ++ post /\
      render_network_config (pre ++ "{{" ++ key ++ "}}" ++ post)
        [(key, value)]
        = pre ++ replacement_str value ++ post /\
      render_network_config (pre ++ "${" ++ key ++ "}" ++ post)
        [(key, value)]
        = pre ++ replacement_str value ++ post).
Proof.
  split; [reflexivity|]. split; [reflexivity|]. split; [reflexivity|].
  split; [reflexivity|].
  intros key value pre post Hpre Hpost Hr Hk.
  destruct (render_entry_forms key value pre post Hpre Hpost Hr Hk)
    as [H1 [H2 H3]].
  unfold spaced, unspaced, dollar in H1, H2, H3.
  rewrite !append_assoc in H1, H2, H3.
  repeat split; assumption.
Qed.

(** The example of the specification, in the three forms. *)
Lemma render_three_passes_witness :
  render_network_config "region: {{ Region }}" region_table
    = "region: ca-central-1" /\
  render_network_config "region: {{Region}}" region_table
    = "region: ca-central-1" /\
  render_network_config "region: ${Region}" region_table
    = "region: ca-central-1".
Proof.
  destruct render_three_passes as [_ [_ [_ [_ H]]]].
  exact (H "Region" (VStr "ca-central-1") "region: " ""
           eq_refl eq_refl eq_refl eq_refl).
Defined.

(** Entries in the order of the table, a list joined by commas. *)
Example render_order_example :
  render_network_config "{{ A }}/{{B}}/${L}"
    [("A", VStr "{{B}}"); ("B", VInt 7); ("L", VList [VStr "x"; VInt 2])]
  = "7/7/x,2".
Proof. reflexivity. Qed.

(** ** Order of strings *)

Lemma ascii_compare_Lt (a b : ascii) :
  Ascii.compare a b = Lt <-> (N_of_ascii a < N_of_ascii b)%N.
Proof. unfold Ascii.compare. apply N.compare_lt_iff. Qed.

Lemma ascii_compare_Eq (a b : ascii) : Ascii.compare a b = Eq <-> a = b.
Proof.
  split; [apply Ascii.compare_eq_iff|].
  intros ->. unfold Ascii.compare. apply N.compare_refl.
Qed.

Lemma string_compare_trans (s1 s2 s3 : string) :
  String.compare s1 s2 = Lt -> String.compare s2 s3 = Lt ->
  String.compare s1 s3 = Lt.
Proof.
  revert s2 s3. induction s1 as [|c1 s1 IH]; intros [|c2 s2] [|c3 s3];
    simpl; try discriminate; try reflexivity.
  destruct (Ascii.compare c1 c2) eqn:E12; try discriminate;
    destruct (Ascii.compare c2 c3) eqn:E23; try discriminate; intros H1 H2.
  - apply ascii_compare_Eq in E12, E23. subst c2 c3.
    rewrite (proj2 (ascii_compare_Eq c1 c1) eq_refl). eapply IH; eassumption.
  - apply ascii_compare_Eq in E12. subst c2. rewrite E23. reflexivity.
  - apply ascii_compare_Eq in E23. subst c3. rewrite E12. reflexivity.
  - apply ascii_compare_Lt in E12, E23.
    rewrite (proj2 (ascii_compare_Lt c1 c3)) by (eapply N.lt_trans; eassumption).
    reflexivity.
Qed.

Lemma str_lt_trans (a b c : string) : str_lt a b -> str_lt b c -> str_lt a c.
Proof.
  unfold str_lt, String.ltb. intros H1 H2.
  destruct (String.compare a b) eqn:E1; try discriminate.
  destruct (String.compare b c) eqn:E2; try discriminate.
  rewrite (string_compare_trans a b c E1 E2). reflexivity.
Qed.

Lemma str_lt_asym (a b : string) : str_lt a b -> String.ltb b a = false.
Proof.
  unfold str_lt, String.ltb. rewrite (String.compare_antisym b a).
  destruct (String.compare a b); simpl; auto; discriminate.
Qed.

Lemma str_not_lt (a b : string) :
  String.ltb b a = false -> a <> b -> str_lt a b.
Proof.
  unfold str_lt, String.ltb. rewrite (String.compare_antisym b a).
  destruct (String.compare a b) eqn:E; simpl; auto; try discriminate.
  intros _ Hn. apply String.compare_eq_iff in E. contradiction.
Qed.

(** ** The set and the sort *)

Lemma in_str_set_add (acc : list string) (x a : string) :
  In a (str_set_add acc x) <-> In a acc \/ a = x.
Proof.
  unfold str_set_add. destruct (existsb (String.eqb x) acc) eqn:E.
  - apply existsb_exists in E as [y [Hy Hxy]].
    apply String.eqb_eq in Hxy; subst y.
    split; [auto | intros [H| ->]; assumption].
  - rewrite in_app_iff; simpl. split; intros [H|H]; auto.
    + destruct H as [<-|[]]. auto.
Qed.

Lemma NoDup_str_set_add (acc : list string) (x : string) :
  NoDup acc -> NoDup (str_set_add acc x).
Proof.
  intros H. unfold str_set_add.
  destruct (existsb (String.eqb x) acc) eqn:E; [exact H|].
  apply NoDup_rev in H. rewrite <- (rev_involutive (acc ++ [x])).
  apply NoDup_rev. rewrite rev_app_distr; simpl. constructor; [|exact H].
  rewrite <- in_rev. intros Hin.
  assert (existsb (String.eqb x) acc = true).
  { apply existsb_exists. exists x. split; [exact Hin|].
    apply String.eqb_refl. }
  congruence.
Qed.

Lemma in_str_set_of (l acc : list string) (a : string) :
  In a (str_set_of acc l) <-> In a acc \/ In a l.
Proof.
  unfold str_set_of. revert acc.
  induction l as [|x l IH]; simpl; intros acc; [tauto|].
  rewrite IH, in_str_set_add. split; intros H; intuition auto.
Qed.

Lemma NoDup_str_set_of (l acc : list string) :
  NoDup acc -> NoDup (str_set_of acc l).
Proof.
  unfold str_set_of. revert acc.
  induction l as [|x l IH]; simpl; intros acc H; [exact H|].
  apply IH, NoDup_str_set_add, H.
Qed.

Lemma in_str_insert (x : string) (l : list string) (a : string) :
  In a (str_insert x l) <-> a = x \/ In a l.
Proof.
  induction l as [|y l IH]; simpl.
  - split; intros [H|H]; auto.
  - destruct (String.ltb x y); simpl; [|rewrite IH];
      split; intros H; intuition auto.
Qed.

Lemma NoDup_str_insert (x : string) (l : list string) :
  ~ In x l -> NoDup l -> NoDup (str_insert x l).
Proof.
  induction l as [|y l IH]; simpl; intros Hn Hd.
  - constructor; [intros [] | constructor].
  - destruct (String.ltb x y).
    + constructor; [simpl; exact Hn | exact Hd].
    + inversion Hd as [|? ? Hy Hd']; subst. constructor.
      * rewrite in_str_insert. intros [->|H]; [apply Hn; auto | auto].
      * apply IH; auto.
Qed.

(** Inserting into a list in strict order keeps the order. *)
Lemma Sorted_str_insert (x : string) (l : list string) :
  ~ In x l -> Sorted str_lt l -> Sorted str_lt (str_insert x l).
Proof.
  induction l as [|y l IH]; simpl; intros Hn Hs.
  - repeat constructor.
  - destruct (String.ltb x y) eqn:E.
    + constructor; [exact Hs | constructor; exact E].
    + apply Sorted_inv in Hs as [Hs Hd].
      assert (Hyx : str_lt y x) by (apply str_not_lt; auto).
      constructor; [apply IH; auto|].
      destruct l as [|z l]; simpl.
      * constructor; exact Hyx.
      * destruct (String.ltb x z); constructor; [exact Hyx|].
        apply HdRel_inv in Hd. exact Hd.
Qed.

Lemma str_sorted_into_spec (l acc : list string) :
  NoDup (acc ++ l) -> Sorted str_lt acc ->
  Sorted str_lt (str_sorted_into acc l) /\
  NoDup (str_sorted_into acc l) /\
  forall a, In a (str_sorted_into acc l) <-> In a acc \/ In a l.
Proof.
  unfold str_sorted_into. revert acc.
  induction l as [|x l IH]; simpl; intros acc Hd Hs.
  - rewrite app_nil_r in Hd. repeat split; auto; tauto.
  - assert (Hx : ~ In x acc).
    { apply NoDup_remove_2 in Hd. rewrite in_app_iff in Hd. tauto. }
    assert (Hd' : NoDup (str_insert x acc ++ l)).
    { pose proof (NoDup_remove_1 _ _ _ Hd) as H1.
      pose proof (NoDup_remove_2 _ _ _ Hd) as H2.
      apply NoDup_app_remove_l in H1 as Hl.
      apply NoDup_app_remove_r in H1 as Hacc.
      rewrite in_app_iff in H2.
      assert (Hsep : forall a, In a acc -> ~ In a l).
      { clear - H1. induction acc as [|b acc IHa]; simpl; [tauto|].
        simpl in H1. inversion H1 as [|? ? Hb H1']; subst.
        intros a [<-|Ha]; [rewrite in_app_iff in Hb; tauto | auto]. }
      clear - Hl Hacc H2 Hsep Hx.
      assert (Hi : NoDup (str_insert x acc)) by (apply NoDup_str_insert; auto).
      assert (Hsep' : forall a, In a (str_insert x acc) -> ~ In a l).
      { intros a Ha. apply in_str_insert in Ha as [->|Ha]; [tauto | auto]. }
      revert Hi Hsep'. generalize (str_insert x acc) as m.
      induction m as [|b m IHm]; simpl; intros Hi Hsep'; [exact Hl|].
      inversion Hi; subst. constructor.
      - rewrite in_app_iff. intros [H|H]; [auto | apply (Hsep' b); auto].
      - apply IHm; auto. }
    destruct (IH (str_insert x acc) Hd' (Sorted_str_insert x acc Hx Hs))
      as [H1 [H2 H3]].
    repeat split; auto.
    + intros H. apply H3 in H as [H|H]; auto.
      apply in_str_insert in H as [->|H]; auto.
    + intros [H|[<-|H]]; apply H3; auto; left; apply in_str_insert; auto.
Qed.

Lemma Sorted_StronglySorted_str (l : list string) :
  Sorted str_lt l -> StronglySorted str_lt l.
Proof.
  apply Sorted_StronglySorted. intros a b c. apply str_lt_trans.
Qed.

(** The computations on values agree with the ones on strings. *)
Lemma set_add_str (acc : list string) (x : string) :
  set_add (map VStr acc) (VStr x) = Ok (map VStr (str_set_add acc x)).
Proof.
  unfold set_add, str_set_add; simpl.
  assert (E : existsb (py_eqb (VStr x)) (map VStr acc)
              = existsb (String.eqb x) acc).
  { induction acc as [|y acc IH]; simpl; [reflexivity|].
    rewrite IH. reflexivity. }
  rewrite E. destruct (existsb (String.eqb x) acc); [reflexivity|].
  rewrite map_app. reflexivity.
Qed.

Lemma set_of_str (l acc : list string) :
  set_of (map VStr acc) (map VStr l) = Ok (map VStr (str_set_of acc l)).
Proof.
  unfold str_set_of. revert acc.
  induction l as [|x l IH]; intros acc; [reflexivity|].
  cbn [set_of map fold_left]. rewrite set_add_str. apply IH.
Qed.

Lemma sorted_insert_str (x : string) (l : list string) :
  sorted_insert (VStr x) (map VStr l) = Ok (map VStr (str_insert x l)).
Proof.
  induction l as [|y l IH]; simpl; [reflexivity|].
  destruct (String.ltb x y); [reflexivity|].
  rewrite IH. reflexivity.
Qed.

Lemma sorted_into_str (l acc : list string) :
  sorted_into (map VStr acc) (map VStr l)
  = Ok (map VStr (str_sorted_into acc l)).
Proof.
  unfold str_sorted_into. revert acc.
  induction l as [|x l IH]; intros acc; [reflexivity|].
  cbn [sorted_into map fold_left]. rewrite sorted_insert_str. apply IH.
Qed.

Lemma map_VStr_str_of (l : list value) :
  Forall (fun v => exists a, v = VStr a) l -> l = map VStr (map str_of l).
Proof.
  induction 1 as [|v l [a ->] _ IH]; simpl; [reflexivity|].
  rewrite <- IH. reflexivity.
Qed.

(** The AZ list of subnets whose AZs are strings or false values. *)
Lemma vpc_azs_strings (subnets : list dict) :
  (forall s, In s subnets ->
             truthy (get s "az") = false \/ exists a, get s "az" = VStr a) ->
  exists azs,
    vpc_azs subnets = Ok (map VStr azs) /\
    StronglySorted str_lt azs /\
    NoDup azs /\
    forall a, In a azs <->
              a <> "" /\ exists s, In s subnets /\ get s "az" = VStr a.
Proof.
  intros H.
  set (vs := filter truthy (map (fun s => get s "az") subnets)).
  assert (Hvs : Forall (fun v => exists a, v = VStr a) vs).
  { apply Forall_forall. intros v Hv. subst vs.
    apply filter_In in Hv as [Hin Ht].
    apply in_map_iff in Hin as [s [<- Hs]].
    destruct (H s Hs) as [Hf|Ha]; [congruence | exact Ha]. }
  assert (Hin : forall a, In a (map str_of vs) <->
                          a <> "" /\
                          exists s, In s subnets /\ get s "az" = VStr a).
  { intros a. rewrite in_map_iff. split.
    - intros [v [<- Hv]]. subst vs.
      apply filter_In in Hv as [Hin Ht].
      apply in_map_iff in Hin as [s [<- Hs]].
      destruct (H s Hs) as [Hf|[b Hb]]; [congruence|].
      rewrite Hb in Ht |- *. simpl. split.
      + apply truthy_VStr. exact Ht.
      + exists s; auto.
    - intros [Hn [s [Hs Ha]]]. exists (VStr a). split; [reflexivity|].
      subst vs. apply filter_In. split.
      + apply in_map_iff. exists s; auto.
      + apply truthy_VStr. exact Hn. }
  destruct (str_sorted_into_spec (str_set_of [] (map str_of vs)) [])
    as [Hs [Hd Hm]].
  { simpl. apply NoDup_str_set_of. constructor. }
  { constructor. }
  exists (str_sorted_into [] (str_set_of [] (map str_of vs))).
  split; [|split; [|split]].
  - unfold vpc_azs. fold vs.
    assert (E : set_of [] vs
                = Ok (map VStr (str_set_of [] (map str_of vs)))).
    { rewrite (map_VStr_str_of vs Hvs) at 1. apply (set_of_str _ []). }
    rewrite E. apply (sorted_into_str _ []).
  - apply Sorted_StronglySorted_str. exact Hs.
  - exact Hd.
  - intros a. rewrite Hm, in_str_set_of, <- Hin. simpl. tauto.
Qed.

(** *** Numbers *)

Lemma forallb_app_one {A : Type} (K : A -> bool) (l : list A) (x : A) :
  forallb K l = true -> K x = true -> forallb K (l ++ [x])%list = true.
Proof.
  intros Hl Hx. rewrite forallb_app, Hl; simpl. rewrite Hx. reflexivity.
Qed.

Lemma is_str_hashable (v : value) : is_str v = true -> hashable v = true.
Proof. destruct v; simpl; auto. Qed.

Lemma is_num_hashable (v : value) : is_num v = true -> hashable v = true.
Proof. destruct v; simpl; auto. Qed.

Lemma in_z_set_add (acc : list Z) (x a : Z) :
  In a (z_set_add acc x) <-> In a acc \/ a = x.
Proof.
  unfold z_set_add. destruct (existsb (Z.eqb x) acc) eqn:E.
  - apply existsb_exists in E as [y [Hy Hxy]].
    apply Z.eqb_eq in Hxy; subst y.
    split; [auto | intros [H| ->]; assumption].
  - rewrite in_app_iff; simpl. split; intros [H|H]; auto.
    destruct H as [<-|[]]. auto.
Qed.

Lemma in_z_set_of (l acc : list Z) (a : Z) :
  In a (z_set_of acc l) <-> In a acc \/ In a l.
Proof.
  unfold z_set_of. revert acc.
  induction l as [|x l IH]; simpl; intros acc; [tauto|].
  rewrite IH, in_z_set_add. split; intros H; intuition auto.
Qed.

Lemma in_z_insert (x : Z) (l : list Z) (a : Z) :
  In a (z_insert x l) <-> a = x \/ In a l.
Proof.
  induction l as [|y l IH]; simpl.
  - split; intros [H|H]; auto.
  - destruct (Z.ltb x y); simpl; [|rewrite IH];
      split; intros H; intuition auto.
Qed.

(** Inserting a new element into a list in strict order keeps the order. *)
Lemma StronglySorted_z_insert (x : Z) (l : list Z) :
  ~ In x l -> StronglySorted Z.lt l -> StronglySorted Z.lt (z_insert x l).
Proof.
  induction l as [|y l IH]; simpl; intros Hn Hs.
  - repeat constructor.
  - apply StronglySorted_inv in Hs as [Hs Hy].
    destruct (Z.ltb x y) eqn:E.
    + apply Z.ltb_lt in E. constructor; [constructor; assumption|].
      constructor; [exact E|].
      rewrite Forall_forall in Hy |- *. intros z Hz.
      specialize (Hy z Hz). lia.
    + apply Z.ltb_ge in E.
      assert (Hxy : x <> y) by (intros ->; apply Hn; auto).
      assert (Hyx : (y < x)%Z) by lia.
      constructor; [apply IH; tauto|].
      rewrite Forall_forall in Hy |- *. intros z Hz.
      apply in_z_insert in Hz as [->|Hz]; [exact Hyx | apply Hy, Hz].
Qed.

(** The set has no number twice. *)
Lemma NoDup_z_set_add (acc : list Z) (x : Z) :
  NoDup acc -> NoDup (z_set_add acc x).
Proof.
  intros H. unfold z_set_add.
  destruct (existsb (Z.eqb x) acc) eqn:E; [exact H|].
  apply NoDup_rev in H. rewrite <- (rev_involutive (acc ++ [x])).
  apply NoDup_rev. rewrite rev_app_distr; simpl. constructor; [|exact H].
  rewrite <- in_rev. intros Hin.
  assert (existsb (Z.eqb x) acc = true).
  { apply existsb_exists. exists x. split; [exact Hin | apply Z.eqb_refl]. }
  congruence.
Qed.

Lemma NoDup_z_set_of (l acc : list Z) : NoDup acc -> NoDup (z_set_of acc l).
Proof.
  unfold z_set_of. revert acc.
  induction l as [|x l IH]; simpl; intros acc H; [exact H|].
  apply IH, NoDup_z_set_add, H.
Qed.

Lemma z_sorted_into_spec (l acc : list Z) :
  NoDup l -> (forall a, In a l -> ~ In a acc) ->
  StronglySorted Z.lt acc ->
  StronglySorted Z.lt (z_sorted_into acc l) /\
  forall a, In a (z_sorted_into acc l) <-> In a acc \/ In a l.
Proof.
  unfold z_sorted_into. revert acc.
  induction l as [|x l IH]; simpl; intros acc Hd Hsep Hs.
  - split; [exact Hs | tauto].
  - inversion Hd as [|? ? Hx Hd']; subst.
    destruct (IH (z_insert x acc) Hd') as [H1 H2].
    + intros a Ha Hin. apply in_z_insert in Hin as [->|Hin];
        [contradiction | exact (Hsep a (or_intror Ha) Hin)].
    + apply StronglySorted_z_insert; [apply Hsep; auto | exact Hs].
    + split; [exact H1|]. intros a. rewrite H2, in_z_insert.
      split; intros H; intuition auto.
Qed.

Lemma py_eqb_num (x y : value) :
  is_num x = true -> is_num y = true ->
  py_eqb x y = Z.eqb (num_of x) (num_of y).
Proof.
  destruct x; try discriminate; destruct y; try discriminate; reflexivity.
Qed.

Lemma py_lt_num_of (x y : value) :
  is_num x = true -> is_num y = true ->
  py_lt x y = Ok (Z.ltb (num_of x) (num_of y)).
Proof.
  destruct x; try discriminate; destruct y; try discriminate; reflexivity.
Qed.

Lemma existsb_py_eqb_num (x : value) (acc : list value) :
  is_num x = true -> forallb is_num acc = true ->
  existsb (py_eqb x) acc = existsb (Z.eqb (num_of x)) (map num_of acc).
Proof.
  intros Hx. induction acc as [|y acc IH]; simpl; [reflexivity|].
  intros H. apply andb_prop in H as [Hy H].
  rewrite (py_eqb_num x y Hx Hy), (IH H). reflexivity.
Qed.

Lemma set_of_num (l acc : list value) :
  forallb is_num acc = true -> forallb is_num l = true ->
  exists st,
    set_of acc l = Ok st /\ forallb is_num st = true /\
    map num_of st = z_set_of (map num_of acc) (map num_of l).
Proof.
  unfold z_set_of. revert acc.
  induction l as [|x l IH]; simpl; intros acc Hacc Hl.
  - exists acc; auto.
  - apply andb_prop in Hl as [Hx Hl].
    unfold set_add. rewrite (is_num_hashable x Hx).
    cbn [bind]. unfold z_set_add at 2.
    rewrite <- (existsb_py_eqb_num x acc Hx Hacc).
    destruct (existsb (py_eqb x) acc).
    + apply IH; assumption.
    + replace (map num_of acc ++ [num_of x])%list
        with (map num_of (acc ++ [x])%list) by (rewrite map_app; reflexivity).
      apply IH; [apply forallb_app_one; assumption | exact Hl].
Qed.

Lemma sorted_insert_num (x : value) (l : list value) :
  is_num x = true -> forallb is_num l = true ->
  exists l',
    sorted_insert x l = Ok l' /\ forallb is_num l' = true /\
    map num_of l' = z_insert (num_of x) (map num_of l).
Proof.
  intros Hx. induction l as [|y l IH]; simpl; intros Hl.
  - exists [x]; simpl. rewrite Hx. auto.
  - apply andb_prop in Hl as [Hy Hl].
    rewrite (py_lt_num_of x y Hx Hy). cbn [bind].
    destruct (Z.ltb (num_of x) (num_of y)).
    + eexists; split; [reflexivity|]. simpl. rewrite Hx, Hy, Hl. auto.
    + destruct (IH Hl) as [l' [-> [Hl' Hm]]]. cbn [bind].
      eexists; split; [reflexivity|]. simpl. rewrite Hy, Hl', Hm. auto.
Qed.

Lemma sorted_into_num (l acc : list value) :
  forallb is_num acc = true -> forallb is_num l = true ->
  exists l',
    sorted_into acc l = Ok l' /\ forallb is_num l' = true /\
    map num_of l' = z_sorted_into (map num_of acc) (map num_of l).
Proof.
  unfold z_sorted_into. revert acc.
  induction l as [|x l IH]; simpl; intros acc Hacc Hl.
  - exists acc; auto.
  - apply andb_prop in Hl as [Hx Hl].
    destruct (sorted_insert_num x acc Hx Hacc) as [acc' [-> [Hacc' Hm]]].
    cbn [bind]. rewrite <- Hm. apply IH; assumption.
Qed.

Lemma truthy_num (v : value) :
  is_num v = true -> (truthy v = true <-> num_of v <> 0%Z).
Proof.
  destruct v as [|b|z| | |]; try discriminate; intros _.
  - destruct b; unfold num_of; simpl; split; intros H.
    + discriminate.
    + reflexivity.
    + discriminate H.
    + exfalso; apply H; reflexivity.
  - unfold num_of; simpl. rewrite negb_true_iff. apply Z.eqb_neq.
Qed.

(** The AZ list of subnets whose AZs are numbers or false values. *)
Lemma vpc_azs_numbers (subnets : list dict) :
  (forall s, In s subnets ->
             truthy (get s "az") = false \/ is_num (get s "az") = true) ->
  exists azs,
    vpc_azs subnets = Ok azs /\
    forallb is_num azs = true /\
    StronglySorted Z.lt (map num_of azs) /\
    forall z, In z (map num_of azs) <->
              z <> 0%Z /\
              exists s, In s subnets /\ is_num (get s "az") = true /\
                        num_of (get s "az") = z.
Proof.
  intros H.
  set (vs := filter truthy (map (fun s => get s "az") subnets)).
  assert (Hvs : forallb is_num vs = true).
  { apply forallb_forall. intros v Hv. subst vs.
    apply filter_In in Hv as [Hin Ht].
    apply in_map_iff in Hin as [s [<- Hs]].
    destruct (H s Hs) as [Hf|Ha]; [congruence | exact Ha]. }
  assert (Hin : forall z, In z (map num_of vs) <->
                          z <> 0%Z /\
                          exists s, In s subnets /\
                                    is_num (get s "az") = true /\
                                    num_of (get s "az") = z).
  { intros z. rewrite in_map_iff. split.
    - intros [v [<- Hv]]. subst vs.
      apply filter_In in Hv as [Hin Ht].
      apply in_map_iff in Hin as [s [<- Hs]].
      destruct (H s Hs) as [Hf|Hn]; [congruence|]. split.
      + apply (truthy_num _ Hn). exact Ht.
      + exists s; auto.
    - intros [Hz [s [Hs [Hn Hz']]]]. exists (get s "az").
      split; [exact Hz'|]. subst vs. apply filter_In. split.
      + apply in_map_iff. exists s; auto.
      + apply (truthy_num _ Hn). rewrite Hz'. exact Hz. }
  destruct (set_of_num vs [] eq_refl Hvs) as [st [Est [Hst Mst]]].
  destruct (sorted_into_num st [] eq_refl Hst) as [azs [Eazs [Hazs Mazs]]].
  destruct (z_sorted_into_spec (map num_of st) []) as [Hs Hm].
  { rewrite Mst. apply NoDup_z_set_of. constructor. }
  { intros a _ []. }
  { constructor. }
  exists azs. split; [|split; [exact Hazs|split]].
  - unfold vpc_azs. fold vs. rewrite Est. exact Eazs.
  - rewrite Mazs. exact Hs.
  - intros z. rewrite Mazs. simpl map. rewrite Hm, Mst, in_z_set_of, <- Hin.
    simpl. tauto.
Qed.

(** C8, as the code has it: for a VPC whose subnets have strings (or
    nothing, or a false value) as AZ, the [azs] of the entry is the list of
    the non-empty AZs of the subnet entries, each once, in ascending order
    of strings.  For a VPC whose subnets have numbers as AZ, it is a list
    of numbers in ascending order of value, one for each number other than
    zero that is the AZ of a subnet. *)
Theorem vpc_azs_sorted_distinct :
  forall (network_cfg vpc : dict) (elems : list value),
    py_iter (get_default vpc "subnets" (VList [])) = Ok elems ->
    ((forall s, In s (dicts_of elems) ->
                truthy (subnet_az (get vpc "name") s) = false \/
                exists a, subnet_az (get vpc "name") s = VStr a) ->
     exists e azs,
       vpc_entry network_cfg vpc = Ok (VDict e) /\
       get e "azs" = VList (map VStr azs) /\
       StronglySorted str_lt azs /\
       NoDup azs /\
       forall a, In a azs <->
                 a <> "" /\
                 exists s, In s (dicts_of elems) /\
                           subnet_az (get vpc "name") s = VStr a) /\
    ((forall s, In s (dicts_of elems) ->
                truthy (subnet_az (get vpc "name") s) = false \/
                is_num (subnet_az (get vpc "name") s) = true) ->
     exists e azs,
       vpc_entry network_cfg vpc = Ok (VDict e) /\
       get e "azs" = VList azs /\
       forallb is_num azs = true /\
       StronglySorted Z.lt (map num_of azs) /\
       forall z, In z (map num_of azs) <->
                 z <> 0%Z /\
                 exists s, In s (dicts_of elems) /\
                           is_num (subnet_az (get vpc "name") s) = true /\
                           num_of (subnet_az (get vpc "name") s) = z).
Proof.
  intros network_cfg vpc elems He. split; intros Haz.
  - destruct (vpc_azs_strings
                (map (subnet_entry (get vpc "name")) (dicts_of elems)))
      as [azs [Hv [Hs [Hd Hm]]]].
    { intros s' Hs'. apply in_map_iff in Hs' as [s [<- Hs]].
      exact (Haz s Hs). }
    eexists; exists azs. split; [|split; [|split; [|split]]].
    + unfold vpc_entry. rewrite He; simpl bind. rewrite Hv; simpl bind.
      reflexivity.
    + reflexivity.
    + exact Hs.
    + exact Hd.
    + intros a. rewrite Hm. split; intros [Hn [s [Hin Ha]]]; split; auto.
      * apply in_map_iff in Hin as [s0 [<- Hs0]]. exists s0; auto.
      * exists (subnet_entry (get vpc "name") s). split; [|exact Ha].
        apply in_map. exact Hin.
  - destruct (vpc_azs_numbers
                (map (subnet_entry (get vpc "name")) (dicts_of elems)))
      as [azs [Hv [Hn [Hs Hm]]]].
    { intros s' Hs'. apply in_map_iff in Hs' as [s [<- Hs]].
      exact (Haz s Hs). }
    eexists; exists azs. split; [|split; [|split; [|split]]].
    + unfold vpc_entry. rewrite He; simpl bind. rewrite Hv; simpl bind.
      reflexivity.
    + reflexivity.
    + exact Hn.
    + exact Hs.
    + intros z. rewrite Hm.
      split; intros [Hz [s [Hin [Hk Ha]]]]; split; auto.
      * apply in_map_iff in Hin as [s0 [<- Hs0]]. exists s0; auto.
      * exists (subnet_entry (get vpc "name") s).
        split; [apply in_map; exact Hin | auto].
Qed.

Lemma vpc_azs_sorted_distinct_witness :
  (exists e azs,
     vpc_entry [] net1_attached = Ok (VDict e) /\
     get e "azs" = VList (map VStr azs) /\
     StronglySorted str_lt azs /\
     NoDup azs /\
     forall a, In a azs <->
               a <> "" /\
               exists s,
                 In s [[("name", VStr "Priv"); ("availabilityZone", VStr "b")];
                       [("name", VStr "Pub"); ("az", VStr "a")];
                       [("name", VStr "Db"); ("az", VStr "a")];
                       [("name", VStr "Spare"); ("az", VStr "")]] /\
                 subnet_az (get net1_attached "name") s = VStr a) /\
  (exists e azs,
     vpc_entry [] num_az_vpc = Ok (VDict e) /\
     get e "azs" = VList azs /\
     forallb is_num azs = true /\
     StronglySorted Z.lt (map num_of azs) /\
     forall z, In z (map num_of azs) <->
               z <> 0%Z /\
               exists s,
                 In s [[("az", VInt 2)]; [("az", VInt 1)];
                       [("az", VBool true)]; [("az", VInt 0)]] /\
                 is_num (subnet_az (get num_az_vpc "name") s) = true /\
                 num_of (subnet_az (get num_az_vpc "name") s) = z).
Proof.
  split.
  - apply (proj1 (vpc_azs_sorted_distinct [] net1_attached _ eq_refl)).
    intros s [<-|[<-|[<-|[<-|[]]]]];
      try (right; eexists; reflexivity); left; reflexivity.
  - apply (proj2 (vpc_azs_sorted_distinct [] num_az_vpc _ eq_refl)).
    intros s [<-|[<-|[<-|[<-|[]]]]]; right; reflexivity.
Defined.

(** The claim fails for a VPC whose subnets have the integers 10 and 9 as
    AZ: the list is in the order of the numbers, 9 before 10, while the
    text of 10 is before the text of 9. *)
Lemma vpc_azs_numbers_not_lexical :
  exists e,
    vpc_entry [] int_az_vpc = Ok (VDict e) /\
    get e "azs" = VList [VInt 9; VInt 10] /\
    String.ltb (py_str (VInt 10)) (py_str (VInt 9)) = true.
Proof. eexists; repeat split. Qed.

(** A number and the boolean equal to it are one element of the set, the
    first met. *)
Example vpc_azs_number_and_bool :
  exists e,
    vpc_entry [] num_az_vpc = Ok (VDict e) /\
    get e "azs" = VList [VInt 1; VInt 2].
Proof. eexists; repeat split. Qed.

(** The example of the specification: AZs b, a, a and an empty one. *)
Example vpc_azs_example :
  vpc_azs (map (subnet_entry (VStr "Net1"))
             [[("name", VStr "Priv"); ("availabilityZone", VStr "b")];
              [("name", VStr "Pub"); ("az", VStr "a")];
              [("name", VStr "Db"); ("az", VStr "a")];
              [("name", VStr "Spare"); ("az", VStr "")]])
  = Ok [VStr "a"; VStr "b"].
Proof. reflexivity. Qed.

(** The AZ of a subnet entry: [availabilityZone] before [az]. *)
Lemma subnet_az_precedence (vpc_id : value) (subnet : dict) :
  subnet_az vpc_id subnet
  = py_or (get subnet "availabilityZone") (get subnet "az").
Proof. reflexivity. Qed.

(** ** The extractor returns *)

Lemma each_dict_Ok (f : dict -> bool) (v : value) :
  each_dict f v = true ->
  exists l, py_iter v = Ok l /\ forallb f (dicts_of l) = true.
Proof.
  unfold each_dict. destruct (py_iter v) as [l|e]; [|discriminate].
  intros H. exists l; auto.
Qed.

Lemma mapM_Ok_forallb {A B : Type} (f : A -> result B) (g : A -> bool)
      (l : list A) :
  (forall a, g a = true -> exists b, f a = Ok b) ->
  forallb g l = true -> exists bs, mapM f l = Ok bs.
Proof.
  intros Hf Hl. apply mapM_Ok_Forall. apply Forall_forall. intros a Ha.
  apply Hf. rewrite forallb_forall in Hl. apply Hl. exact Ha.
Qed.

(** A set of hashable elements is built, from elements of the list. *)
Lemma set_of_Ok (K : value -> bool) (l acc : list value) :
  (forall v, K v = true -> hashable v = true) ->
  forallb K acc = true -> forallb K l = true ->
  exists st, set_of acc l = Ok st /\ forallb K st = true.
Proof.
  intros HK. revert acc.
  induction l as [|x l IH]; simpl; intros acc Hacc Hl.
  - exists acc; auto.
  - apply andb_prop in Hl as [Hx Hl].
    unfold set_add. rewrite (HK x Hx); simpl.
    apply IH; [|exact Hl].
    destruct (existsb (py_eqb x) acc); [exact Hacc|].
    apply forallb_app_one; assumption.
Qed.

(** A sort whose comparisons all answer returns, with the same elements. *)
Lemma sorted_insert_Ok (K : value -> bool) (x : value) (l : list value) :
  (forall a b, K a = true -> K b = true -> exists r, py_lt a b = Ok r) ->
  K x = true -> forallb K l = true ->
  exists l', sorted_insert x l = Ok l' /\ forallb K l' = true.
Proof.
  intros HK Hx. induction l as [|y l IH]; simpl; intros Hl.
  - exists [x]; simpl. rewrite Hx. auto.
  - apply andb_prop in Hl as [Hy Hl].
    destruct (HK x y Hx Hy) as [r ->]; simpl. destruct r.
    + eexists; split; [reflexivity|]. simpl. rewrite Hx, Hy, Hl. reflexivity.
    + destruct (IH Hl) as [l' [-> Hl']]; simpl.
      eexists; split; [reflexivity|]. simpl. rewrite Hy, Hl'. reflexivity.
Qed.

Lemma sorted_into_Ok (K : value -> bool) (l acc : list value) :
  (forall a b, K a = true -> K b = true -> exists r, py_lt a b = Ok r) ->
  forallb K acc = true -> forallb K l = true ->
  exists l', sorted_into acc l = Ok l' /\ forallb K l' = true.
Proof.
  intros HK. revert acc.
  induction l as [|x l IH]; simpl; intros acc Hacc Hl.
  - exists acc; auto.
  - apply andb_prop in Hl as [Hx Hl].
    destruct (sorted_insert_Ok K x acc HK Hx Hacc) as [acc' [-> Hacc']].
    simpl. apply IH; assumption.
Qed.

Lemma py_lt_str (a b : value) :
  is_str a = true -> is_str b = true -> exists r, py_lt a b = Ok r.
Proof.
  destruct a; try discriminate; destruct b; try discriminate.
  intros _ _. eexists; reflexivity.
Qed.

Lemma py_lt_num (a b : value) :
  is_num a = true -> is_num b = true -> exists r, py_lt a b = Ok r.
Proof.
  destruct a; try discriminate; destruct b; try discriminate;
    intros _ _; eexists; reflexivity.
Qed.

Lemma sortable_Ok (K : value -> bool) (l : list value) :
  (forall v, K v = true -> hashable v = true) ->
  (forall a b, K a = true -> K b = true -> exists r, py_lt a b = Ok r) ->
  forallb K l = true ->
  exists azs, (st <- set_of [] l ;; py_sorted st) = Ok azs.
Proof.
  intros Hh Hlt Hl.
  destruct (set_of_Ok K l [] Hh eq_refl Hl) as [st [-> Hst]]; simpl.
  destruct (sorted_into_Ok K st [] Hlt eq_refl Hst) as [azs [H _]].
  exists azs. exact H.
Qed.

Lemma vpc_azs_Ok (vpc_id : value) (subnets : list dict) :
  az_sortable (filter truthy (map (subnet_az vpc_id) subnets)) = true ->
  exists azs, vpc_azs (map (subnet_entry vpc_id) subnets) = Ok azs.
Proof.
  unfold az_sortable, vpc_azs. rewrite map_map.
  change (fun x : dict => get (subnet_entry vpc_id x) "az")
    with (subnet_az vpc_id).
  intros H. apply orb_prop in H as [H|H].
  - apply (sortable_Ok is_str); auto using is_str_hashable, py_lt_str.
  - apply (sortable_Ok is_num); auto using is_num_hashable, py_lt_num.
Qed.

Lemma vpc_entry_Ok (network_cfg vpc : dict) :
  wf_vpc vpc = true -> exists e, vpc_entry network_cfg vpc = Ok e.
Proof.
  unfold wf_vpc, vpc_entry. intros H. apply andb_prop in H as [H _].
  destruct (py_iter (get_default vpc "subnets" (VList []))) as [elems|];
    [|discriminate].
  simpl. destruct (vpc_azs_Ok _ _ H) as [azs ->]; simpl.
  eexists; reflexivity.
Qed.

Lemma attachment_entry_wf (vpc_id : value) (attachment : dict) :
  wf_attachment attachment = true ->
  exists e, attachment_entry vpc_id attachment = Ok e.
Proof.
  unfold wf_attachment.
  destruct (py_iter (get_default attachment "subnets" (VList [])))
    as [sns|] eqn:E; [|discriminate].
  intros _. destruct (attachment_entry_Ok vpc_id attachment sns E)
    as [e [He _]].
  exists (VDict e). exact He.
Qed.

Lemma process_vpc_Ok (network_cfg vpc : dict) :
  wf_vpc vpc = true -> exists r, process_vpc network_cfg vpc = Ok r.
Proof.
  intros H. unfold process_vpc.
  destruct (vpc_entry_Ok network_cfg vpc H) as [e ->]; simpl.
  unfold wf_vpc in H. apply andb_prop in H as [_ H].
  apply each_dict_Ok in H as [elems [He Hf]].
  unfold vpc_attachments. rewrite He; simpl.
  destruct (mapM_Ok_forallb (attachment_entry (get vpc "name"))
              wf_attachment (dicts_of elems)
              (attachment_entry_wf (get vpc "name")) Hf) as [atts ->].
  simpl. eexists; reflexivity.
Qed.

Lemma dx_gateway_entry_Ok (dxgw : dict) :
  wf_dxgw dxgw = true -> exists e, dx_gateway_entry dxgw = Ok e.
Proof.
  unfold wf_dxgw, dx_gateway_entry. intros H.
  apply andb_prop in H as [H1 H2].
  apply each_dict_Ok in H1 as [vifs [-> _]].
  apply each_dict_Ok in H2 as [assocs [-> _]].
  simpl. eexists; reflexivity.
Qed.

Lemma cgw_vpn_connections_Ok (cgw : dict) :
  wf_cgw cgw = true -> exists l, cgw_vpn_connections cgw = Ok l.
Proof.
  unfold wf_cgw, cgw_vpn_connections. intros H.
  apply each_dict_Ok in H as [vpns [-> _]].
  simpl. eexists; reflexivity.
Qed.

Lemma route_endpoint_Ok (tgw rt route : dict) :
  wf_route route = true -> exists o, route_endpoint tgw rt route = Ok o.
Proof.
  unfold wf_route, route_endpoint.
  destruct (truthy (get route "targetVpcEndpoint")); simpl;
    [|intros _; eexists; reflexivity].
  destruct (get route "targetVpcEndpoint"); try discriminate.
  intros _; simpl. destruct (contains "cnfgw" (lower s));
    eexists; reflexivity.
Qed.

Lemma rt_endpoints_Ok (tgw rt : dict) :
  wf_rt rt = true -> exists l, rt_endpoints tgw rt = Ok l.
Proof.
  unfold wf_rt, rt_endpoints. intros H.
  apply each_dict_Ok in H as [routes [-> Hf]]; simpl.
  destruct (mapM_Ok_forallb (route_endpoint tgw rt) wf_route _
              (route_endpoint_Ok tgw rt) Hf) as [es ->].
  simpl. eexists; reflexivity.
Qed.

Lemma tgw_endpoints_Ok (tgw : dict) :
  wf_tgw tgw = true -> exists l, tgw_endpoints tgw = Ok l.
Proof.
  unfold wf_tgw, tgw_endpoints. intros H.
  apply each_dict_Ok in H as [rts [-> Hf]]; simpl.
  destruct (mapM_Ok_forallb (rt_endpoints tgw) wf_rt _
              (rt_endpoints_Ok tgw) Hf) as [ess ->].
  simpl. eexists; reflexivity.
Qed.

(** On a root of [wf_cfg] every step returns. *)
Lemma wf_cfg_returns :
  forall network_cfg : dict,
    wf_cfg network_cfg = true ->
    exists tgws vpcs atts dxs vpns eps,
      extract_network_graph network_cfg
      = Ok (VDict [("transit_gateways", VList tgws);
                   ("vpcs", VList vpcs);
                   ("tgw_attachments", VList atts);
                   ("dx_gateways", VList dxs);
                   ("vpn_connections", VList vpns);
                   ("cnfgw_endpoints", VList eps)]).
Proof.
  intros network_cfg H. unfold wf_cfg in H.
  apply andb_prop in H as [H Hcgw]. apply andb_prop in H as [H Hdx].
  apply andb_prop in H as [Htgw Hvpc].
  apply each_dict_Ok in Htgw as [tgws [Et Ft]].
  apply each_dict_Ok in Hvpc as [vs [Ev Fv]].
  apply each_dict_Ok in Hdx as [dxs [Ed Fd]].
  apply each_dict_Ok in Hcgw as [cgws [Ec Fc]].
  destruct (mapM_Ok_forallb (process_vpc network_cfg) wf_vpc _
              (process_vpc_Ok network_cfg) Fv) as [pvs Epv].
  destruct (mapM_Ok_forallb dx_gateway_entry wf_dxgw _
              dx_gateway_entry_Ok Fd) as [dxes Edx].
  destruct (mapM_Ok_forallb cgw_vpn_connections wf_cgw _
              cgw_vpn_connections_Ok Fc) as [vpnss Evp].
  destruct (mapM_Ok_forallb tgw_endpoints wf_tgw _
              tgw_endpoints_Ok Ft) as [ess Ees].
  assert (Hep : exists eps, cnfgw_endpoints_of network_cfg = Ok eps).
  { unfold cnfgw_endpoints_of.
    destruct (truthy (get network_cfg "transitGateways"));
      [|eexists; reflexivity].
    rewrite Et; simpl. rewrite Ees; simpl. eexists; reflexivity. }
  destruct Hep as [eps Eep].
  unfold extract_network_graph.
  rewrite Et; simpl bind. rewrite Ev; simpl bind. rewrite Epv; simpl bind.
  rewrite Ed; simpl bind. rewrite Edx; simpl bind.
  rewrite Ec; simpl bind. rewrite Evp; simpl bind.
  rewrite Eep; simpl bind.
  do 6 eexists. reflexivity.
Qed.

(** The extractor returns the graph, with its six collections, for every
    root mapping in which each collection that is present can be iterated
    (a sequence, a string or a mapping), the true AZs of the subnets of a
    VPC are all strings or all numbers, and the [targetVpcEndpoint] of a
    route is a string or a false value.  Nothing is asked of an absent
    field or of an element that is not a mapping. *)
Theorem extract_network_graph_total :
  forall network_cfg : dict,
    wf_cfg network_cfg = true ->
    exists tgws vpcs atts dxs vpns eps,
      extract_network_graph network_cfg
      = Ok (VDict [("transit_gateways", VList tgws);
                   ("vpcs", VList vpcs);
                   ("tgw_attachments", VList atts);
                   ("dx_gateways", VList dxs);
                   ("vpn_connections", VList vpns);
                   ("cnfgw_endpoints", VList eps)]).
Proof. exact wf_cfg_returns. Qed.

Lemma extract_network_graph_total_witness :
  exists tgws vpcs atts dxs vpns eps,
    extract_network_graph mixed_cfg
    = Ok (VDict [("transit_gateways", VList tgws);
                 ("vpcs", VList vpcs);
                 ("tgw_attachments", VList atts);
                 ("dx_gateways", VList dxs);
                 ("vpn_connections", VList vpns);
                 ("cnfgw_endpoints", VList eps)]).
Proof.
  apply (extract_network_graph_total mixed_cfg). reflexivity.
Defined.

(** C1: on a root whose [transitGateways] is present and null the
    extractor raises: the first loop iterates the null value, where an
    absent key would have given the empty list.  The endpoint loop over
    the same field is guarded by its truth and returns no endpoint. *)
Theorem extract_network_graph_raises :
  extract_network_graph null_tgws_cfg = Raise TypeError /\
  cnfgw_endpoints_of null_tgws_cfg = Ok [] /\
  extract_network_graph [] = Ok empty_graph.
Proof. repeat split. Qed.

(** Other inputs that raise: an endpoint that is a number, an AZ that is a
    sequence, AZs of two kinds. *)
Example extract_network_graph_raises_more :
  extract_network_graph
    [("transitGateways",
      VList [VDict [("routeTables",
                     VList [VDict [("routes",
                                    VList [VDict [("targetVpcEndpoint",
                                                   VInt 5)]])]])]])]
    = Raise AttributeError /\
  extract_network_graph
    [("vpcs", VList [VDict [("subnets",
                             VList [VDict [("az", VList [VStr "a"])]])]])]
    = Raise TypeError /\
  extract_network_graph
    [("vpcs", VList [VDict [("subnets",
                             VList [VDict [("az", VStr "a")];
                                    VDict [("az", VInt 1)]])]])]
    = Raise TypeError.
Proof. repeat split. Qed.

(** An element that is not a mapping is passed over: the VPCs of the
    graph are the entries of the mappings of [vpcs]. *)
Example malformed_element_skipped :
  exists g vpcs,
    extract_network_graph mixed_cfg = Ok (VDict g) /\
    get g "vpcs" = VList vpcs /\ List.length vpcs = 2.
Proof. do 2 eexists. repeat split. Qed.

(** ** The extractor returns only on these inputs *)

Lemma mapM_Ok_forallb_inv {A B : Type} (f : A -> result B) (g : A -> bool)
      (l : list A) (bs : list B) :
  (forall a b, f a = Ok b -> g a = true) ->
  mapM f l = Ok bs -> forallb g l = true.
Proof.
  intros Hf. revert bs. induction l as [|a l IH]; simpl; intros bs H.
  - reflexivity.
  - apply bind_Ok in H as [b [Hb H]].
    apply bind_Ok in H as [bs' [Hbs _]].
    rewrite (Hf a b Hb), (IH bs' Hbs). reflexivity.
Qed.

Lemma each_dict_intro (f : dict -> bool) (v : value) (l : list value) :
  py_iter v = Ok l -> forallb f (dicts_of l) = true -> each_dict f v = true.
Proof. unfold each_dict. intros -> H. exact H. Qed.

Lemma forallb_true {A : Type} (l : list A) : forallb (fun _ => true) l = true.
Proof. induction l; simpl; auto. Qed.

(** *** The set *)

Lemma set_of_inv (l acc st : list value) :
  set_of acc l = Ok st ->
  forallb hashable l = true /\
  (forall y, In y st -> In y acc \/ In y l) /\
  (forall y, In y acc -> In y st) /\
  (forall x, In x l -> exists y, In y st /\ (x = y \/ py_eqb x y = true)).
Proof.
  revert acc st. induction l as [|x l IH]; simpl; intros acc st H.
  - injection H as <-. repeat split; auto. intros x [].
  - apply bind_Ok in H as [acc' [Ha H]].
    unfold set_add in Ha. destruct (hashable x); [|discriminate Ha].
    injection Ha as <-.
    destruct (IH _ _ H) as [Hh [Hsub [Hacc Hcov]]].
    split; [exact Hh|]. split; [|split].
    + intros y Hy. apply Hsub in Hy as [Hy|Hy]; auto.
      destruct (existsb (py_eqb x) acc); auto.
      apply in_app_iff in Hy as [Hy|[<-|[]]]; auto.
    + intros y Hy. apply Hacc.
      destruct (existsb (py_eqb x) acc); auto.
      apply in_app_iff; auto.
    + intros x' [<-|Hx']; [|apply Hcov; exact Hx'].
      destruct (existsb (py_eqb x) acc) eqn:E.
      * apply existsb_exists in E as [y [Hy Hxy]].
        exists y. split; [apply Hacc; exact Hy | auto].
      * exists x. split; [|auto]. apply Hacc, in_app_iff. simpl; auto.
Qed.

Lemma py_eqb_is_str (x y : value) :
  py_eqb x y = true -> is_str x = is_str y.
Proof.
  destruct x, y; simpl; try discriminate; auto;
    try (destruct b; discriminate).
Qed.

Lemma py_eqb_is_num (x y : value) :
  py_eqb x y = true -> is_num x = is_num y.
Proof.
  destruct x, y; simpl; try discriminate; auto;
    try (destruct b; discriminate).
Qed.

(** *** The sort *)

Lemma py_lt_same_kind (a b : value) (r : bool) :
  py_lt a b = Ok r -> same_kind a b = true.
Proof. destruct a, b; simpl; try discriminate; auto. Qed.

Lemma sorted_insert_forallb (K : value -> bool) (x : value)
      (l l' : list value) :
  sorted_insert x l = Ok l' -> forallb K l' = K x && forallb K l.
Proof.
  revert l'. induction l as [|y l IH]; simpl; intros l' H.
  - injection H as <-. reflexivity.
  - apply bind_Ok in H as [b [_ H]]. destruct b.
    + injection H as <-. reflexivity.
    + apply bind_Ok in H as [r [Hr H]]. injection H as <-.
      simpl. rewrite (IH r Hr).
      destruct (K x), (K y); reflexivity.
Qed.

Lemma sorted_insert_head (x y : value) (l l' : list value) :
  sorted_insert x (y :: l) = Ok l' -> same_kind x y = true.
Proof.
  simpl. intros H. apply bind_Ok in H as [b [Hb _]].
  exact (py_lt_same_kind x y b Hb).
Qed.

Lemma sorted_insert_not_nil (x : value) (l l' : list value) :
  sorted_insert x l = Ok l' -> l' <> [].
Proof.
  destruct l as [|y l]; simpl; intros H.
  - injection H as <-. discriminate.
  - apply bind_Ok in H as [b [_ H]]. destruct b.
    + injection H as <-. discriminate.
    + apply bind_Ok in H as [r [_ H]]. injection H as <-. discriminate.
Qed.

(** A sort that returns from a start of one kind had only this kind. *)
Lemma sorted_into_kind (K : value -> bool) (l acc r : list value) :
  (forall x y, same_kind x y = true -> K y = true -> K x = true) ->
  acc <> [] -> forallb K acc = true ->
  sorted_into acc l = Ok r -> forallb K l = true.
Proof.
  intros HK. revert acc. induction l as [|x l IH]; simpl; intros acc Hn Ha H.
  - reflexivity.
  - apply bind_Ok in H as [acc' [Hi H]].
    destruct acc as [|y acc]; [congruence|].
    assert (Hx : K x = true).
    { apply (HK x y (sorted_insert_head _ _ _ _ Hi)).
      simpl in Ha. apply andb_prop in Ha as [Hy _]. exact Hy. }
    rewrite Hx; simpl.
    apply (IH acc'); [eapply sorted_insert_not_nil; exact Hi | | exact H].
    rewrite (sorted_insert_forallb K _ _ _ Hi), Hx, Ha. reflexivity.
Qed.

Lemma same_kind_is_str (x y : value) :
  same_kind x y = true -> is_str y = true -> is_str x = true.
Proof. destruct x, y; simpl; auto; discriminate. Qed.

Lemma same_kind_is_num (x y : value) :
  same_kind x y = true -> is_num y = true -> is_num x = true.
Proof. destruct x, y; simpl; auto; discriminate. Qed.

Lemma py_sorted_sortable (l r : list value) :
  (forall v, In v l -> is_str v = true \/ is_num v = true) ->
  py_sorted l = Ok r -> az_sortable l = true.
Proof.
  unfold py_sorted, az_sortable. destruct l as [|x l]; [reflexivity|].
  intros Hk H. simpl in H.
  destruct (Hk x (or_introl eq_refl)) as [Hx|Hx].
  - assert (Hl : forallb is_str l = true).
    { apply (sorted_into_kind is_str l [x] r same_kind_is_str);
        [discriminate | simpl; rewrite Hx; reflexivity | exact H]. }
    simpl. rewrite Hx, Hl. reflexivity.
  - assert (Hl : forallb is_num l = true).
    { apply (sorted_into_kind is_num l [x] r same_kind_is_num);
        [discriminate | simpl; rewrite Hx; reflexivity | exact H]. }
    simpl. rewrite Hx, Hl. apply orb_true_r.
Qed.

Lemma truthy_hashable_kind (v : value) :
  truthy v = true -> hashable v = true ->
  is_str v = true \/ is_num v = true.
Proof. destruct v; simpl; auto; discriminate. Qed.

Lemma vpc_azs_Ok_inv (vpc_id : value) (subnets : list dict)
      (azs : list value) :
  vpc_azs (map (subnet_entry vpc_id) subnets) = Ok azs ->
  az_sortable (filter truthy (map (subnet_az vpc_id) subnets)) = true.
Proof.
  unfold vpc_azs. rewrite map_map.
  change (fun x : dict => get (subnet_entry vpc_id x) "az")
    with (subnet_az vpc_id).
  set (l := filter truthy (map (subnet_az vpc_id) subnets)).
  intros H. apply bind_Ok in H as [st [Hst Hs]].
  destruct (set_of_inv l [] st Hst) as [Hh [Hsub [_ Hcov]]].
  assert (Hl : forall v, In v l -> is_str v = true \/ is_num v = true).
  { intros v Hv. apply truthy_hashable_kind.
    - subst l. apply filter_In in Hv. tauto.
    - rewrite forallb_forall in Hh. apply Hh. exact Hv. }
  assert (Hk : az_sortable st = true).
  { apply (py_sorted_sortable st azs); [|exact Hs].
    intros v Hv. apply Hsub in Hv as [[]|Hv]. apply Hl. exact Hv. }
  unfold az_sortable in *. apply orb_prop in Hk as [Hk|Hk];
    rewrite forallb_forall in Hk.
  - replace (forallb is_str l) with true; [reflexivity|].
    symmetry. apply forallb_forall. intros x Hx.
    destruct (Hcov x Hx) as [y [Hy [->|He]]]; [auto|].
    rewrite (py_eqb_is_str x y He). auto.
  - replace (forallb is_num l) with true; [apply orb_true_r|].
    symmetry. apply forallb_forall. intros x Hx.
    destruct (Hcov x Hx) as [y [Hy [->|He]]]; [auto|].
    rewrite (py_eqb_is_num x y He). auto.
Qed.

(** *** The entries *)

Lemma attachment_entry_Ok_inv (vpc_id : value) (attachment : dict)
      (e : value) :
  attachment_entry vpc_id attachment = Ok e -> wf_attachment attachment = true.
Proof.
  unfold attachment_entry, wf_attachment. intros H.
  destruct (py_iter (get_default attachment "subnets" (VList [])));
    [reflexivity | discriminate H].
Qed.

Lemma process_vpc_Ok_inv (network_cfg vpc : dict) (r : value * list value) :
  process_vpc network_cfg vpc = Ok r -> wf_vpc vpc = true.
Proof.
  unfold process_vpc, wf_vpc. intros H.
  apply bind_Ok in H as [e [He H]]. apply bind_Ok in H as [atts [Ha _]].
  apply vpc_entry_inv in He as [elems [azs [Hi [Hz _]]]].
  rewrite Hi, (vpc_azs_Ok_inv _ _ _ Hz); simpl.
  unfold vpc_attachments in Ha. apply bind_Ok in Ha as [els [Hel Hm]].
  apply (each_dict_intro _ _ els Hel).
  apply (mapM_Ok_forallb_inv _ _ _ _
           (attachment_entry_Ok_inv (get vpc "name")) Hm).
Qed.

Lemma dx_gateway_entry_Ok_inv (dxgw : dict) (e : value) :
  dx_gateway_entry dxgw = Ok e -> wf_dxgw dxgw = true.
Proof.
  unfold dx_gateway_entry, wf_dxgw, field_iterable, field_each, each_dict.
  intros H. apply bind_Ok in H as [vifs [-> H]].
  apply bind_Ok in H as [assocs [-> _]].
  rewrite !forallb_true. reflexivity.
Qed.

Lemma cgw_vpn_connections_Ok_inv (cgw : dict) (l : list value) :
  cgw_vpn_connections cgw = Ok l -> wf_cgw cgw = true.
Proof.
  unfold cgw_vpn_connections, wf_cgw, field_iterable, field_each, each_dict.
  intros H. apply bind_Ok in H as [vpns [-> _]]. apply forallb_true.
Qed.

Lemma route_endpoint_Ok_inv (tgw rt route : dict) (o : option value) :
  route_endpoint tgw rt route = Ok o -> wf_route route = true.
Proof.
  unfold route_endpoint, wf_route.
  destruct (truthy (get route "targetVpcEndpoint")); [|reflexivity].
  destruct (get route "targetVpcEndpoint"); simpl; auto; discriminate.
Qed.

Lemma rt_endpoints_Ok_inv (tgw rt : dict) (l : list value) :
  rt_endpoints tgw rt = Ok l -> wf_rt rt = true.
Proof.
  unfold rt_endpoints, wf_rt, field_each. intros H.
  apply bind_Ok in H as [routes [Hr H]]. apply bind_Ok in H as [es [Hm _]].
  apply (each_dict_intro _ _ routes Hr).
  apply (mapM_Ok_forallb_inv _ _ _ _ (route_endpoint_Ok_inv tgw rt) Hm).
Qed.

Lemma tgw_endpoints_Ok_inv (tgw : dict) (l : list value) :
  tgw_endpoints tgw = Ok l -> wf_tgw tgw = true.
Proof.
  unfold tgw_endpoints, wf_tgw, field_each. intros H.
  apply bind_Ok in H as [rts [Hr H]]. apply bind_Ok in H as [ess [Hm _]].
  apply (each_dict_intro _ _ rts Hr).
  apply (mapM_Ok_forallb_inv _ _ _ _ (rt_endpoints_Ok_inv tgw) Hm).
Qed.

(** The conditions of [wf_cfg] are the ones under which the extractor
    returns: on every other root mapping it raises. *)
Lemma extract_network_graph_Ok_wf (network_cfg : dict) (g : value) :
  extract_network_graph network_cfg = Ok g -> wf_cfg network_cfg = true.
Proof.
  unfold extract_network_graph, wf_cfg, field_each. intros H.
  apply bind_Ok in H as [tgws [Et H]].
  apply bind_Ok in H as [vs [Ev H]].
  apply bind_Ok in H as [pvs [Epv H]].
  apply bind_Ok in H as [dxs [Ed H]].
  apply bind_Ok in H as [dxes [Edx H]].
  apply bind_Ok in H as [cgws [Ec H]].
  apply bind_Ok in H as [vpnss [Evp H]].
  apply bind_Ok in H as [eps [Eep _]].
  rewrite (each_dict_intro wf_vpc _ vs Ev
             (mapM_Ok_forallb_inv _ _ _ _ (process_vpc_Ok_inv network_cfg)
                Epv)).
  rewrite (each_dict_intro wf_dxgw _ dxs Ed
             (mapM_Ok_forallb_inv _ _ _ _ dx_gateway_entry_Ok_inv Edx)).
  rewrite (each_dict_intro wf_cgw _ cgws Ec
             (mapM_Ok_forallb_inv _ _ _ _ cgw_vpn_connections_Ok_inv Evp)).
  rewrite !andb_true_r.
  apply (each_dict_intro _ _ tgws Et).
  unfold cnfgw_endpoints_of in Eep.
  destruct (truthy (get network_cfg "transitGateways")) eqn:Ht.
  - rewrite Et in Eep. simpl in Eep.
    apply bind_Ok in Eep as [ess [Hm _]].
    apply (mapM_Ok_forallb_inv _ _ _ _ tgw_endpoints_Ok_inv Hm).
  - rewrite (falsy_iter_no_dict _ _ (get_default_falsy _ _ Ht) Et).
    reflexivity.
Qed.

(** X20: the extractor raises exactly on the roots outside [wf_cfg]: a
    collection that is present cannot be iterated, the true AZs of the
    subnets of a VPC are not all strings nor all numbers, or the
    [targetVpcEndpoint] of a route is a true value that is not a string. *)
Corollary extract_network_graph_raises_iff (network_cfg : dict) :
  raises (extract_network_graph network_cfg) <-> wf_cfg network_cfg = false.
Proof.
  split.
  - intros [e He]. destruct (wf_cfg network_cfg) eqn:E; [|reflexivity].
    destruct (wf_cfg_returns network_cfg E) as [? [? [? [? [? [? H]]]]]].
    congruence.
  - intros Hf. destruct (extract_network_graph network_cfg) as [g|e] eqn:E.
    + apply extract_network_graph_Ok_wf in E. congruence.
    + exists e; reflexivity.
Qed.

(** * Further properties *)

(** ** The replacement table: keys and values *)

Lemma keys_dict_set (d : dict) (k : string) (v : value) (k' : string) :
  In k' (map fst (dict_set d k v)) <-> k' = k \/ In k' (map fst d).
Proof.
  induction d as [|[k0 v0] d IH]; simpl.
  - split; intros [H|H]; auto.
  - destruct (String.eqb k k0) eqn:E; simpl.
    + apply String.eqb_eq in E; subst k0. split; intros H; intuition auto.
    + rewrite IH. split; intros H; intuition auto.
Qed.

Lemma NoDup_keys_dict_set (d : dict) (k : string) (v : value) :
  NoDup (map fst d) -> NoDup (map fst (dict_set d k v)).
Proof.
  induction d as [|[k0 v0] d IH]; simpl; intros H.
  - constructor; [intros [] | constructor].
  - destruct (String.eqb k k0) eqn:E; simpl; [exact H|].
    inversion H as [|? ? Hn Hd]; subst. constructor; [|apply IH; exact Hd].
    rewrite keys_dict_set. intros [->|Hin]; [|contradiction].
    rewrite String.eqb_refl in E. discriminate E.
Qed.

Lemma values_dict_set (P : value -> Prop) (d : dict) (k : string) (v : value) :
  P v -> Forall (fun kv => P (snd kv)) d ->
  Forall (fun kv => P (snd kv)) (dict_set d k v).
Proof.
  intros Hv. induction 1 as [|[k0 v0] d H0 Hd IH]; simpl.
  - repeat constructor; exact Hv.
  - destruct (String.eqb k k0); constructor; auto.
Qed.

(** What one element does to the table: nothing, or one binding. *)
Lemma add_replacement_cases (mapping : dict) (item : value) :
  (entry_key item = None /\ add_replacement mapping item = mapping) \/
  (exists k v, entry_key item = Some k /\ table_value v = true /\
               add_replacement mapping item = dict_set mapping k v).
Proof.
  unfold entry_key, add_replacement.
  destruct (as_dict item) as [it|]; [|left; auto].
  destruct (get it "key") eqn:Ek; [left; auto | | | | |];
    right; destruct (py_eqb _ (VStr "StringList"));
      try (eexists; eexists; split; [reflexivity|];
           split; [|reflexivity]; reflexivity);
      eexists; eexists; (split; [reflexivity|]); (split; [|reflexivity]);
        destruct (get it "value"); reflexivity.
Qed.

Lemma fold_add_replacement_keys (items : list value) (mapping : dict) :
  NoDup (map fst mapping) ->
  NoDup (map fst (fold_left add_replacement items mapping)) /\
  forall k,
    In k (map fst (fold_left add_replacement items mapping)) <->
    In k (map fst mapping) \/
    exists item, In item items /\ entry_key item = Some k.
Proof.
  revert mapping. induction items as [|item items IH]; simpl; intros mapping Hd.
  - split; [exact Hd|]. intros k. split; [auto|].
    intros [H|[item [[] _]]]. exact H.
  - destruct (add_replacement_cases mapping item)
      as [[Hk ->]|[k0 [v [Hk [_ ->]]]]].
    + destruct (IH mapping Hd) as [H1 H2]. split; [exact H1|].
      intros k. rewrite H2. split.
      * intros [H|[it [Hin He]]]; [auto|]. right. exists it; auto.
      * intros [H|[it [[<-|Hin] He]]]; [auto | congruence |].
        right. exists it; auto.
    + destruct (IH (dict_set mapping k0 v)
                  (NoDup_keys_dict_set mapping k0 v Hd)) as [H1 H2].
      split; [exact H1|]. intros k. rewrite H2, keys_dict_set. split.
      * intros [[->|H]|[it [Hin He]]]; auto.
        -- right. exists item; auto.
        -- right. exists it; auto.
      * intros [H|[it [[<-|Hin] He]]]; auto.
        -- left. left. congruence.
        -- right. exists it; auto.
Qed.

(** The keys of the table of a document with a sequence of elements. *)
Lemma build_replacements_keys_aux (raw : dict) (items : list value) :
  get_default raw "globalReplacements" (VList []) = VList items ->
  NoDup (map fst (build_replacements (VDict raw))) /\
  forall k,
    In k (map fst (build_replacements (VDict raw))) <->
    exists item, In item items /\ entry_key item = Some k.
Proof.
  intros H. unfold build_replacements; simpl. rewrite H.
  destruct (fold_add_replacement_keys items [] (NoDup_nil _)) as [H1 H2].
  split; [exact H1|]. intros k. rewrite H2. simpl. tauto.
Qed.

(** X1: the keys of the table are the texts of the keys of the mappings of
    [globalReplacements] that have one, each once: an element that is not
    a mapping or has no key adds nothing, and a key bound twice has one
    entry. *)
Theorem build_replacements_keys :
  forall (raw : dict) (items : list value),
    get_default raw "globalReplacements" (VList []) = VList items ->
    NoDup (map fst (build_replacements (VDict raw))) /\
    forall k,
      In k (map fst (build_replacements (VDict raw))) <->
      exists item, In item items /\ entry_key item = Some k.
Proof.
  intros raw items H. exact (build_replacements_keys_aux raw items H).
Qed.

Lemma build_replacements_keys_witness :
  NoDup (map fst (build_replacements (VDict rebinding_replacements))) /\
  forall k,
    In k (map fst (build_replacements (VDict rebinding_replacements))) <->
    exists item,
      In item
        [VDict [("key", VStr "Region"); ("value", VStr "us-east-1")];
         VDict [("key", VStr "Asn"); ("type", VStr "String");
                ("value", VInt 64512)];
         VDict [("value", VStr "lost")];
         VStr "stray";
         VDict [("key", VStr "Region"); ("type", VStr "Number")]] /\
      entry_key item = Some k.
Proof.
  apply (build_replacements_keys rebinding_replacements). reflexivity.
Defined.

Lemma fold_add_replacement_values (items : list value) (mapping : dict) :
  Forall (fun kv => table_value (snd kv) = true) mapping ->
  Forall (fun kv => table_value (snd kv) = true)
    (fold_left add_replacement items mapping).
Proof.
  revert mapping. induction items as [|item items IH]; simpl; intros mapping H.
  - exact H.
  - apply IH.
    destruct (add_replacement_cases mapping item)
      as [[_ ->]|[k [v [_ [Hv ->]]]]]; [exact H|].
    apply (values_dict_set (fun v => table_value v = true)); assumption.
Qed.

(** X2: whatever the replacement document, each value of the table is a
    string or a sequence. *)
Theorem build_replacements_values :
  forall (replacements_raw : value) (k : string) (v : value),
    In (k, v) (build_replacements replacements_raw) ->
    (exists s, v = VStr s) \/ (exists l, v = VList l).
Proof.
  intros raw k v Hin.
  assert (H : Forall (fun kv => table_value (snd kv) = true)
                (build_replacements raw)).
  { unfold build_replacements.
    destruct (as_dict raw) as [d|]; [|constructor].
    destruct (get_default d "globalReplacements" (VList []));
      try constructor.
    apply fold_add_replacement_values. constructor. }
  rewrite Forall_forall in H. specialize (H (k, v) Hin). simpl in H.
  destruct v; try discriminate H; [left | right]; eexists; reflexivity.
Qed.

Lemma build_replacements_values_witness :
  (exists s, VStr "64512" = VStr s) \/ (exists l, VStr "64512" = VList l).
Proof.
  apply (build_replacements_values (VDict rebinding_replacements) "Asn").
  vm_compute. right; left; reflexivity.
Defined.

Lemma py_eqb_not_StringList (v : value) :
  v <> VStr "StringList" -> py_eqb v (VStr "StringList") = false.
Proof.
  intros H. destruct (py_eqb v (VStr "StringList")) eqn:E; [|reflexivity].
  apply py_eqb_StringList in E. contradiction.
Qed.

Lemma add_replacement_String (mapping it : dict) :
  get it "key" <> VNone ->
  get_default it "type" (VStr "String") <> VStr "StringList" ->
  lookup (py_str (get it "key")) (add_replacement mapping (VDict it))
  = Some (VStr (string_entry_text (get it "value"))).
Proof.
  intros Hk Ht. unfold add_replacement; simpl.
  rewrite (py_eqb_not_StringList _ Ht).
  destruct (get it "key") eqn:E; try (exfalso; apply Hk; reflexivity);
    rewrite lookup_dict_set_eq; destruct (get it "value"); reflexivity.
Qed.

(** X3: an entry whose type is not ["StringList"] (the last entry that
    binds its key) is stored as one string: the text of its value, the
    empty string for a null or absent value. *)
Theorem build_replacements_string_entry :
  forall (raw it : dict) (items1 items2 : list value),
    get_default raw "globalReplacements" (VList [])
      = VList (items1 ++ VDict it :: items2)%list ->
    get it "key" <> VNone ->
    get_default it "type" (VStr "String") <> VStr "StringList" ->
    Forall (fun item => entry_key item <> Some (py_str (get it "key")))
      items2 ->
    lookup (py_str (get it "key")) (build_replacements (VDict raw))
    = Some (VStr (string_entry_text (get it "value"))) /\
    (lookup "value" it = None -> string_entry_text (get it "value") = "") /\
    (forall s, get it "value" = VStr s ->
               string_entry_text (get it "value") = s).
Proof.
  intros raw it items1 items2 Hraw Hk Ht Hlater. split; [|split].
  - unfold build_replacements; simpl. rewrite Hraw.
    rewrite fold_left_app; simpl.
    rewrite fold_add_replacement_other by exact Hlater.
    apply add_replacement_String; assumption.
  - intros Hn. rewrite (get_absent _ _ Hn). reflexivity.
  - intros s ->. reflexivity.
Qed.

Lemma build_replacements_string_entry_witness :
  lookup "Region" (build_replacements (VDict rebinding_replacements))
  = Some (VStr "").
Proof.
  apply (build_replacements_string_entry rebinding_replacements
           [("key", VStr "Region"); ("type", VStr "Number")]
           [VDict [("key", VStr "Region"); ("value", VStr "us-east-1")];
            VDict [("key", VStr "Asn"); ("type", VStr "String");
                   ("value", VInt 64512)];
            VDict [("value", VStr "lost")];
            VStr "stray"]
           []).
  - reflexivity.
  - discriminate.
  - discriminate.
  - constructor.
Defined.

(** X4: the table is empty exactly when no element binds a key: the
    document is not a mapping, [globalReplacements] is not a sequence, or
    none of its elements is a mapping with a key. *)
Theorem build_replacements_empty :
  forall replacements_raw : value,
    build_replacements replacements_raw = [] <->
    forall raw items item,
      replacements_raw = VDict raw ->
      get_default raw "globalReplacements" (VList []) = VList items ->
      In item items -> entry_key item = None.
Proof.
  intros replacements_raw. split.
  - intros He raw items item -> Hi Hin.
    destruct (entry_key item) as [k|] eqn:Ek; [|reflexivity].
    destruct (build_replacements_keys_aux raw items Hi) as [_ H].
    assert (Hk : In k (map fst (build_replacements (VDict raw)))).
    { apply H. exists item; auto. }
    rewrite He in Hk. destruct Hk.
  - intros H. destruct replacements_raw as [| | | | |raw]; try reflexivity.
    destruct (get_default raw "globalReplacements" (VList []))
      as [| | | |items|] eqn:Hi;
      try (unfold build_replacements; simpl; rewrite Hi; reflexivity).
    destruct (build_replacements_keys_aux raw items Hi) as [_ Hk].
    destruct (build_replacements (VDict raw)) as [|[k v] t]; [reflexivity|].
    destruct (proj1 (Hk k) (or_introl eq_refl)) as [item [Hin He]].
    rewrite (H raw items item eq_refl Hi Hin) in He. discriminate He.
Qed.

(** ** Rendering a text without placeholders *)

Lemma render_entry_absent (raw_text key : string) (value : value) :
  contains (spaced key) raw_text = false ->
  contains (unspaced key) raw_text = false ->
  contains (dollar key) raw_text = false ->
  render_entry raw_text (key, value) = raw_text.
Proof.
  intros H1 H2 H3. unfold render_entry; cbv zeta.
  rewrite (str_replace_absent raw_text (spaced key)); [|discriminate|exact H1].
  rewrite (str_replace_absent raw_text (unspaced key));
    [|discriminate|exact H2].
  apply str_replace_absent; [discriminate | exact H3].
Qed.

(** X5: a text in which no placeholder of a key of the table occurs, in
    any of the three forms, is rendered to itself, whatever the values. *)
Theorem render_without_placeholders :
  forall (replacements : dict) (raw_text : string),
    (forall key value, In (key, value) replacements ->
       contains ("{{ " ++ key ++ " }}") raw_text = false /\
       contains ("{{" ++ key ++ "}}") raw_text = false /\
       contains ("${" ++ key ++ "}") raw_text = false) ->
    render_network_config raw_text replacements = raw_text.
Proof.
  unfold render_network_config.
  induction replacements as [|[key value] rest IH]; intros raw_text H;
    cbn [fold_left].
  - reflexivity.
  - destruct (H key value (or_introl eq_refl)) as [H1 [H2 H3]].
    rewrite (render_entry_absent raw_text key value H1 H2 H3).
    apply IH. intros k v Hin. apply (H k v). right; exact Hin.
Qed.

Lemma render_without_placeholders_witness :
  render_network_config "region: {{ Zone }}" region_table
  = "region: {{ Zone }}".
Proof.
  apply (render_without_placeholders region_table).
  intros key value [H|[]]. injection H as <- <-. repeat split.
Defined.

(** X6: a text with no opening brace and no dollar is rendered to itself by
    every table. *)
Theorem render_plain_text :
  forall (replacements : dict) (raw_text : string),
    plain raw_text = true ->
    render_network_config raw_text replacements = raw_text.
Proof.
  intros replacements raw_text Hp.
  unfold render_network_config.
  induction replacements as [|[key value] rest IH]; cbn [fold_left];
    [reflexivity|].
  rewrite render_entry_absent; [exact IH | | |].
  - rewrite spaced_cons. apply contains_no_head, plain_brace, Hp.
  - rewrite unspaced_cons. apply contains_no_head, plain_brace, Hp.
  - rewrite dollar_cons. apply contains_no_head, plain_dollar, Hp.
Qed.

Lemma render_plain_text_witness :
  render_network_config "vpcs: []" region_table = "vpcs: []".
Proof. apply (render_plain_text region_table). reflexivity. Defined.

(** ** The collections of the graph *)

(** The endpoint loop is guarded by the truth of [transitGateways]; once
    the first loop over it has returned, the guard changes nothing. *)
Lemma cnfgw_endpoints_of_iter (network_cfg : dict) (tgws : list value) :
  py_iter (get_default network_cfg "transitGateways" (VList [])) = Ok tgws ->
  cnfgw_endpoints_of network_cfg
  = (ess <- mapM tgw_endpoints (dicts_of tgws) ;; Ok (List.concat ess)).
Proof.
  intros Et. unfold cnfgw_endpoints_of.
  destruct (truthy (get network_cfg "transitGateways")) eqn:Ht.
  - rewrite Et. reflexivity.
  - rewrite (falsy_iter_no_dict _ _ (get_default_falsy _ _ Ht) Et).
    reflexivity.
Qed.

(** What a returned graph is made of. *)
Lemma extract_network_graph_inv (network_cfg : dict) (g : value) :
  extract_network_graph network_cfg = Ok g ->
  exists tgws vs pvs dxs dxes cgws vpnss ess,
    py_iter (get_default network_cfg "transitGateways" (VList [])) = Ok tgws /\
    py_iter (get_default network_cfg "vpcs" (VList [])) = Ok vs /\
    mapM (process_vpc network_cfg) (dicts_of vs) = Ok pvs /\
    py_iter (get_default network_cfg "directConnectGateways" (VList []))
      = Ok dxs /\
    mapM dx_gateway_entry (dicts_of dxs) = Ok dxes /\
    py_iter (get_default network_cfg "customerGateways" (VList []))
      = Ok cgws /\
    mapM cgw_vpn_connections (dicts_of cgws) = Ok vpnss /\
    mapM tgw_endpoints (dicts_of tgws) = Ok ess /\
    g = VDict
          [("transit_gateways",
            VList (map transit_gateway_entry (dicts_of tgws)));
           ("vpcs", VList (map fst pvs));
           ("tgw_attachments", VList (List.concat (map snd pvs)));
           ("dx_gateways", VList dxes);
           ("vpn_connections", VList (List.concat vpnss));
           ("cnfgw_endpoints", VList (List.concat ess))].
Proof.
  unfold extract_network_graph. intros H.
  apply bind_Ok in H as [tgws [Et H]].
  apply bind_Ok in H as [vs [Ev H]].
  apply bind_Ok in H as [pvs [Epv H]].
  apply bind_Ok in H as [dxs [Ed H]].
  apply bind_Ok in H as [dxes [Edx H]].
  apply bind_Ok in H as [cgws [Ec H]].
  apply bind_Ok in H as [vpnss [Evp H]].
  apply bind_Ok in H as [eps [Eep H]].
  rewrite (cnfgw_endpoints_of_iter network_cfg tgws Et) in Eep.
  apply bind_Ok in Eep as [ess [Eess Eeps]]. injection Eeps as <-.
  injection H as <-.
  exists tgws, vs, pvs, dxs, dxes, cgws, vpnss, ess.
  repeat split; assumption.
Qed.

Lemma Forall2_nth_error_l {A B : Type} (R : A -> B -> Prop) (l : list A)
      (bs : list B) (i : nat) (a : A) :
  Forall2 R l bs -> nth_error l i = Some a ->
  exists b, nth_error bs i = Some b /\ R a b.
Proof.
  intros H. revert i. induction H as [|a' b l bs Hab _ IH]; intros [|i];
    simpl; try discriminate.
  - intros E; injection E as <-. exists b; auto.
  - apply IH.
Qed.

Lemma Forall2_length_eq {A B : Type} (R : A -> B -> Prop) (l : list A)
      (bs : list B) :
  Forall2 R l bs -> List.length l = List.length bs.
Proof. induction 1; simpl; auto. Qed.

(** X7: the graph has one transit gateway per mapping of
    [transitGateways], in their order; the id and the name of each are the
    [name] of the mapping, and account, region and asn are its fields,
    null when absent. *)
Theorem transit_gateways_of_graph :
  forall (network_cfg g : dict) (tgws : list value),
    extract_network_graph network_cfg = Ok (VDict g) ->
    py_iter (get_default network_cfg "transitGateways" (VList [])) = Ok tgws ->
    exists es,
      get g "transit_gateways" = VList es /\
      List.length es = List.length (dicts_of tgws) /\
      forall i tgw,
        nth_error (dicts_of tgws) i = Some tgw ->
        exists e,
          nth_error es i = Some (VDict e) /\
          get e "id" = get tgw "name" /\
          get e "name" = get tgw "name" /\
          get e "account" = get tgw "account" /\
          get e "region" = get tgw "region" /\
          get e "asn" = get tgw "asn".
Proof.
  intros network_cfg g tgws H Et.
  apply extract_network_graph_inv in H
    as [tgws' [vs [pvs [dxs [dxes [cgws [vpnss [ess
         [Et' [_ [_ [_ [_ [_ [_ [_ Hg]]]]]]]]]]]]]]]].
  rewrite Et in Et'. injection Et' as <-. injection Hg as ->.
  eexists. split; [reflexivity|]. split; [apply length_map|].
  intros i tgw Hi. eexists. split.
  - rewrite nth_error_map, Hi. reflexivity.
  - repeat split.
Qed.

Lemma transit_gateways_of_graph_witness :
  exists g es,
    extract_network_graph mixed_cfg = Ok (VDict g) /\
    get g "transit_gateways" = VList es /\
    List.length es = 1.
Proof.
  assert (H : exists g, extract_network_graph mixed_cfg = Ok (VDict g))
    by (eexists; reflexivity).
  destruct H as [g Hg].
  destruct (transit_gateways_of_graph mixed_cfg g _ Hg eq_refl)
    as [es [He [Hl _]]].
  exists g, es. auto.
Defined.

Lemma process_vpc_inv (network_cfg vpc : dict) (r : value * list value) :
  process_vpc network_cfg vpc = Ok r ->
  vpc_entry network_cfg vpc = Ok (fst r) /\
  vpc_attachments vpc = Ok (snd r).
Proof.
  unfold process_vpc. intros H.
  apply bind_Ok in H as [e [He H]]. apply bind_Ok in H as [atts [Ha H]].
  injection H as <-. auto.
Qed.

(** X8: the graph has one VPC per mapping of [vpcs], in their order.  The
    id and the name of each are the [name] of the mapping; the account is
    its [account], ["unknown"] when the key is absent; the region is its
    [region], and when the key is absent the [region] of the root, null
    when the root has none. *)
Theorem vpcs_of_graph :
  forall (network_cfg g : dict) (vs : list value),
    extract_network_graph network_cfg = Ok (VDict g) ->
    py_iter (get_default network_cfg "vpcs" (VList [])) = Ok vs ->
    exists es,
      get g "vpcs" = VList es /\
      List.length es = List.length (dicts_of vs) /\
      forall i vpc,
        nth_error (dicts_of vs) i = Some vpc ->
        exists e,
          nth_error es i = Some (VDict e) /\
          vpc_entry network_cfg vpc = Ok (VDict e) /\
          get e "id" = get vpc "name" /\
          get e "name" = get vpc "name" /\
          (lookup "account" vpc = None -> get e "account" = VStr "unknown") /\
          (forall x, lookup "account" vpc = Some x -> get e "account" = x) /\
          (forall x, lookup "region" vpc = Some x -> get e "region" = x) /\
          (lookup "region" vpc = None ->
           get e "region" = get network_cfg "region").
Proof.
  intros network_cfg g vs H Ev.
  apply extract_network_graph_inv in H
    as [tgws [vs' [pvs [dxs [dxes [cgws [vpnss [ess
         [_ [Ev' [Epv [_ [_ [_ [_ [_ Hg]]]]]]]]]]]]]]]].
  rewrite Ev in Ev'. injection Ev' as <-. injection Hg as ->.
  apply mapM_Ok_inv in Epv.
  exists (map fst pvs). split; [reflexivity|].
  split; [rewrite length_map; symmetry;
          exact (Forall2_length_eq _ _ _ Epv)|].
  intros i vpc Hi.
  destruct (Forall2_nth_error_l _ _ _ i vpc Epv Hi) as [r [Hr Hp]].
  apply process_vpc_inv in Hp as [He _].
  destruct (vpc_entry_inv _ _ _ He) as [elems [azs [_ [_ Hv]]]].
  eexists. split; [rewrite nth_error_map, Hr; simpl; rewrite Hv; reflexivity|].
  split; [rewrite He, Hv; reflexivity|].
  split; [reflexivity|]. split; [reflexivity|].
  unfold get, get_default; simpl.
  repeat split.
  - intros ->. reflexivity.
  - intros x ->. reflexivity.
  - intros x ->. reflexivity.
  - intros ->. reflexivity.
Qed.

Lemma vpcs_of_graph_witness :
  exists g es,
    extract_network_graph mixed_cfg = Ok (VDict g) /\
    get g "vpcs" = VList es /\
    List.length es = 2.
Proof.
  assert (H : exists g, extract_network_graph mixed_cfg = Ok (VDict g))
    by (eexists; reflexivity).
  destruct H as [g Hg].
  destruct (vpcs_of_graph mixed_cfg g _ Hg eq_refl) as [es [He [Hl _]]].
  exists g, es. auto.
Defined.

(** ** References between the collections *)

Lemma vpc_attachments_vpc_id (vpc : dict) (atts : list value) (a : value) :
  vpc_attachments vpc = Ok atts -> In a atts ->
  exists ad, a = VDict ad /\ get ad "vpc_id" = get vpc "name".
Proof.
  unfold vpc_attachments. intros H Hin.
  apply bind_Ok in H as [elems [_ Hm]]. apply mapM_Ok_inv in Hm.
  destruct (Forall2_In_r _ _ _ _ Hm Hin) as [att [_ Ha]].
  unfold attachment_entry in Ha.
  apply bind_Ok in Ha as [sns [_ Ha]]. injection Ha as <-.
  eexists. split; reflexivity.
Qed.

(** X9: every attachment of the graph belongs to a VPC of the graph: its
    [vpc_id] is the id of one of the VPC entries. *)
Theorem attachment_vpc_in_graph :
  forall (network_cfg g : dict) (atts : list value) (a : value),
    extract_network_graph network_cfg = Ok (VDict g) ->
    get g "tgw_attachments" = VList atts ->
    In a atts ->
    exists ad vpcs vd,
      a = VDict ad /\
      get g "vpcs" = VList vpcs /\
      In (VDict vd) vpcs /\
      get vd "id" = get ad "vpc_id".
Proof.
  intros network_cfg g atts a H Ha Hin.
  apply extract_network_graph_inv in H
    as [tgws [vs [pvs [dxs [dxes [cgws [vpnss [ess
         [_ [Ev [Epv [_ [_ [_ [_ [_ Hg]]]]]]]]]]]]]]]].
  injection Hg as ->.
  change (VList (List.concat (map snd pvs)) = VList atts) in Ha.
  injection Ha as <-.
  apply in_concat in Hin as [l [Hl Hin]].
  apply in_map_iff in Hl as [r [<- Hr]].
  apply mapM_Ok_inv in Epv.
  destruct (Forall2_In_r _ _ _ _ Epv Hr) as [vpc [_ Hp]].
  apply process_vpc_inv in Hp as [He Hatt].
  destruct (vpc_attachments_vpc_id vpc (snd r) a Hatt Hin) as [ad [-> Hid]].
  destruct (vpc_entry_inv _ _ _ He) as [elems [azs [_ [_ Hv]]]].
  eexists ad, (map fst pvs), _.
  split; [reflexivity|]. split; [reflexivity|]. split.
  - rewrite <- Hv. apply in_map. exact Hr.
  - rewrite Hid. reflexivity.
Qed.

Lemma attachment_vpc_in_graph_witness :
  exists g atts a ad vpcs vd,
    extract_network_graph mixed_cfg = Ok (VDict g) /\
    get g "tgw_attachments" = VList atts /\
    In a atts /\
    a = VDict ad /\
    get g "vpcs" = VList vpcs /\
    In (VDict vd) vpcs /\
    get vd "id" = get ad "vpc_id".
Proof.
  assert (H : exists g a atts,
             extract_network_graph mixed_cfg = Ok (VDict g) /\
             get g "tgw_attachments" = VList (a :: atts))
    by (do 3 eexists; split; reflexivity).
  destruct H as [g [a [atts [Hg Ha]]]].
  destruct (attachment_vpc_in_graph mixed_cfg g _ a Hg Ha (or_introl eq_refl))
    as [ad [vpcs [vd [H1 [H2 [H3 H4]]]]]].
  exists g, (a :: atts), a, ad, vpcs, vd.
  repeat split; auto. left; reflexivity.
Defined.

(** X10: every CNFGW endpoint of the graph hangs on a transit gateway of
    the graph: its [tgw] is the id of one of the transit gateway entries,
    so a root without transit gateway mappings has no endpoint. *)
Theorem endpoint_tgw_in_graph :
  forall (network_cfg g : dict) (eps : list value) (e : value),
    extract_network_graph network_cfg = Ok (VDict g) ->
    get g "cnfgw_endpoints" = VList eps ->
    In e eps ->
    exists ed tgs td,
      e = VDict ed /\
      get g "transit_gateways" = VList tgs /\
      In (VDict td) tgs /\
      get td "id" = get ed "tgw".
Proof.
  intros network_cfg g eps e H He Hin.
  apply extract_network_graph_inv in H
    as [tgws [vs [pvs [dxs [dxes [cgws [vpnss [ess
         [_ [_ [_ [_ [_ [_ [_ [Eess Hg]]]]]]]]]]]]]]]].
  injection Hg as ->.
  change (VList (List.concat ess) = VList eps) in He. injection He as <-.
  apply (mapM_concat_In _ _ _ e Eess) in Hin as [tgw [bs [Ht [Hb Hin]]]].
  apply (tgw_endpoints_In tgw bs e Hb) in Hin
    as [rts [rt [routes [route [_ [_ [_ [_ Hr]]]]]]]].
  apply route_endpoint_Some in Hr as [s [_ [_ [_ ->]]]].
  eexists _, (map transit_gateway_entry (dicts_of tgws)), _.
  split; [reflexivity|]. split; [reflexivity|]. split.
  - apply (in_map transit_gateway_entry). exact Ht.
  - reflexivity.
Qed.

Lemma endpoint_tgw_in_graph_witness :
  exists g eps e ed tgs td,
    extract_network_graph mixed_cfg = Ok (VDict g) /\
    get g "cnfgw_endpoints" = VList eps /\
    In e eps /\
    e = VDict ed /\
    get g "transit_gateways" = VList tgs /\
    In (VDict td) tgs /\
    get td "id" = get ed "tgw".
Proof.
  assert (H : exists g e eps,
             extract_network_graph mixed_cfg = Ok (VDict g) /\
             get g "cnfgw_endpoints" = VList (e :: eps))
    by (do 3 eexists; split; reflexivity).
  destruct H as [g [e [eps [Hg He]]]].
  destruct (endpoint_tgw_in_graph mixed_cfg g _ e Hg He (or_introl eq_refl))
    as [ed [tgs [td [H1 [H2 [H3 H4]]]]]].
  exists g, (e :: eps), e, ed, tgs, td.
  repeat split; auto. left; reflexivity.
Defined.

(** ** Attachments *)

Lemma get_of_lookup (d d' : dict) (k : string) :
  lookup k d = lookup k d' -> get d k = get d' k.
Proof. unfold get, get_default. intros ->. reflexivity. Qed.

Lemma get_default_of_lookup (d d' : dict) (k : string) (dflt : value) :
  lookup k d = lookup k d' -> get_default d k dflt = get_default d' k dflt.
Proof. unfold get_default. intros ->. reflexivity. Qed.

(** An attachment entry is a function of the transit gateway name and of
    four fields of the attachment. *)
Lemma attachment_entry_ext (vpc_id : value) (a1 a2 : dict) :
  attachment_tgw_name a1 = attachment_tgw_name a2 ->
  (forall k, In k ["name"; "subnets"; "routeTableAssociations";
                   "routeTablePropagations"] ->
             lookup k a1 = lookup k a2) ->
  attachment_entry vpc_id a1 = attachment_entry vpc_id a2.
Proof.
  intros Ht Hk. unfold attachment_entry.
  change (match as_dict (get a1 "transitGateway") with
          | Some d => get d "name"
          | None => get a1 "transitGateway"
          end) with (attachment_tgw_name a1).
  change (match as_dict (get a2 "transitGateway") with
          | Some d => get d "name"
          | None => get a2 "transitGateway"
          end) with (attachment_tgw_name a2).
  rewrite Ht.
  rewrite (get_of_lookup a1 a2 "name") by (apply Hk; simpl; auto).
  rewrite (get_default_of_lookup a1 a2 "subnets")
    by (apply Hk; simpl; auto).
  rewrite (get_of_lookup a1 a2 "routeTableAssociations")
    by (apply Hk; simpl; auto).
  rewrite (get_default_of_lookup a1 a2 "routeTablePropagations")
    by (apply Hk; simpl; auto).
  reflexivity.
Qed.

(** X11: an attachment that gives its transit gateway as a plain name and
    one that gives it as a mapping with this [name] have the same entry,
    when their other fields agree. *)
Theorem attachment_tgw_reference_forms :
  forall (vpc_id n : value) (a1 a2 d : dict),
    lookup "transitGateway" a1 = Some n ->
    as_dict n = None ->
    lookup "transitGateway" a2 = Some (VDict d) ->
    get d "name" = n ->
    (forall k, In k ["name"; "subnets"; "routeTableAssociations";
                     "routeTablePropagations"] ->
               lookup k a1 = lookup k a2) ->
    attachment_entry vpc_id a1 = attachment_entry vpc_id a2.
Proof.
  intros vpc_id n a1 a2 d H1 Hn H2 Hd Hk.
  apply attachment_entry_ext; [|exact Hk].
  unfold attachment_tgw_name, get, get_default. rewrite H1, H2, Hn. simpl.
  exact (eq_sym Hd).
Qed.

Lemma attachment_tgw_reference_forms_witness :
  attachment_entry (VStr "Net1") attachment1_plain
  = attachment_entry (VStr "Net1") attachment1.
Proof.
  apply (attachment_tgw_reference_forms (VStr "Net1") (VStr "Tgw")
           attachment1_plain attachment1 [("name", VStr "Tgw")]);
    try reflexivity.
  intros k [<-|[<-|[<-|[<-|[]]]]]; reflexivity.
Defined.

Lemma append_not_empty (a : string) (c : ascii) (b : string) :
  a ++ String c b <> "".
Proof. destruct a; simpl; discriminate. Qed.

Lemma truthy_fmt_dash (a b : value) : truthy (VStr (fmt_dash a b)) = true.
Proof. apply truthy_VStr. unfold fmt_dash. apply append_not_empty. Qed.

Lemma truthy_py_or_r (a b : value) : truthy b = true -> truthy (py_or a b) = true.
Proof. unfold py_or. destruct (truthy a) eqn:E; auto. Qed.

(** X12: the name and the id of an attachment entry are never null or
    empty.  The name is the [name] of the attachment when that is a true
    value, else the text ["<vpc>-<tgw>"]; the id is this text when both the
    VPC name and the transit gateway name are true values, else the name
    of the entry. *)
Theorem attachment_id_and_name :
  forall (vpc_id : value) (attachment e : dict),
    attachment_entry vpc_id attachment = Ok (VDict e) ->
    let tgw_name := attachment_tgw_name attachment in
    truthy (get e "name") = true /\
    truthy (get e "id") = true /\
    get e "tgw_id" = tgw_name /\
    (truthy (get attachment "name") = true ->
     get e "name" = get attachment "name") /\
    (truthy (get attachment "name") = false ->
     get e "name" = VStr (py_str vpc_id ++ "-" ++ py_str tgw_name)) /\
    (truthy vpc_id = true -> truthy tgw_name = true ->
     get e "id" = VStr (py_str vpc_id ++ "-" ++ py_str tgw_name)) /\
    (truthy vpc_id = false \/ truthy tgw_name = false ->
     get e "id" = get e "name").
Proof.
  intros vpc_id attachment e H tgw_name.
  unfold attachment_entry in H.
  apply bind_Ok in H as [sns [_ H]]. injection H as <-.
  fold (attachment_tgw_name attachment). fold tgw_name.
  cbn [get get_default lookup String.eqb Ascii.eqb Bool.eqb].
  assert (Hname : truthy (py_or (get attachment "name")
                            (VStr (fmt_dash vpc_id tgw_name))) = true)
    by apply truthy_py_or_r, truthy_fmt_dash.
  rewrite truthy_py_and.
  split; [exact Hname|]. split; [|split; [reflexivity|]].
  { destruct (truthy vpc_id && truthy tgw_name);
      [apply truthy_fmt_dash | exact Hname]. }
  split; [|split; [|split]].
  - intros Ht. unfold py_or. rewrite Ht. reflexivity.
  - intros Ht. unfold py_or. rewrite Ht. reflexivity.
  - intros Hv Hg. rewrite Hv, Hg. reflexivity.
  - intros [Hf|Hf]; rewrite Hf; [reflexivity|].
    rewrite andb_false_r. reflexivity.
Qed.

Lemma attachment_id_and_name_witness :
  exists e,
    attachment_entry (VStr "Net1") attachment1 = Ok (VDict e) /\
    truthy (get e "name") = true /\
    truthy (get e "id") = true /\
    get e "id" = VStr "Net1-Tgw".
Proof.
  assert (H : exists e,
             attachment_entry (VStr "Net1") attachment1 = Ok (VDict e))
    by (eexists; reflexivity).
  destruct H as [e He]. exists e. split; [exact He|].
  destruct (attachment_id_and_name (VStr "Net1") attachment1 e He)
    as [H1 [H2 [_ [_ [_ [H6 _]]]]]].
  split; [exact H1|]. split; [exact H2|].
  apply H6; reflexivity.
Defined.

(** ** Fields of a subnet *)

Lemma first_truthy_truthy (d : dict) (ks : list string) (x : value) :
  first_truthy d ks = Some x -> truthy x = true.
Proof.
  induction ks as [|k ks IH]; simpl; [discriminate|].
  destruct (lookup k d) as [v|]; [|exact IH].
  destruct (truthy v) eqn:E; [|exact IH].
  intros H. injection H as <-. exact E.
Qed.

(** X13: in a subnet entry the type is the first of [type], [subnetType],
    [tier] bound to a true value and ["unknown"] when there is none, so it
    is never null or empty; the cidr is the first of [cidr],
    [ipv4CidrBlock], [ipv4Cidr] bound to a true value, and the az the first
    of [availabilityZone], [az]; with no true value they are the value of
    the last key, null when absent. *)
Theorem subnet_entry_fields :
  forall (vpc_id : value) (subnet : dict),
    let e := subnet_entry vpc_id subnet in
    get e "type"
      = match first_truthy subnet type_keys with
        | Some x => x
        | None => VStr "unknown"
        end /\
    truthy (get e "type") = true /\
    get e "cidr"
      = match first_truthy subnet cidr_keys with
        | Some x => x
        | None => get subnet "ipv4Cidr"
        end /\
    get e "az"
      = match first_truthy subnet az_keys with
        | Some x => x
        | None => get subnet "az"
        end /\
    get e "name" = get subnet "name" /\
    map fst e = ["id"; "name"; "cidr"; "az"; "type"].
Proof.
  intros vpc_id subnet e.
  assert (Ht : get e "type"
               = match first_truthy subnet type_keys with
                 | Some x => x
                 | None => VStr "unknown"
                 end).
  { subst e. cbn [subnet_entry get get_default lookup String.eqb Ascii.eqb
                  Bool.eqb].
    rewrite or_chain_first_truthy. unfold type_keys, py_or.
    destruct (first_truthy subnet ["type"; "subnetType"; "tier"]) as [x|] eqn:E.
    - rewrite (first_truthy_truthy _ _ _ E). reflexivity.
    - assert (Hf : truthy (get subnet "tier") = false).
      { revert E. unfold get, get_default. simpl.
        destruct (lookup "type" subnet) as [a|];
          [destruct (truthy a); [discriminate|]|];
          (destruct (lookup "subnetType" subnet) as [b|];
           [destruct (truthy b); [discriminate|]|]);
          (destruct (lookup "tier" subnet) as [c|];
           [destruct (truthy c) eqn:Ec; [discriminate|]|]); auto. }
      rewrite Hf. reflexivity. }
  split; [exact Ht|]. split.
  { rewrite Ht.
    destruct (first_truthy subnet type_keys) as [x|] eqn:E;
      [exact (first_truthy_truthy _ _ _ E) | reflexivity]. }
  split; [subst e; apply or_chain_first_truthy|].
  split; [subst e; apply py_or_first_truthy|].
  split; reflexivity.
Qed.

(** ** Direct Connect gateways and VPN connections *)

(** X14: the graph has one Direct Connect gateway per mapping of
    [directConnectGateways], in their order; its id and name are the
    [name] of the mapping, and it holds one virtual interface per mapping
    of [virtualInterfaces] and one association per mapping of
    [transitGatewayAssociations]. *)
Theorem dx_gateways_of_graph :
  forall (network_cfg g : dict) (dxs : list value),
    extract_network_graph network_cfg = Ok (VDict g) ->
    py_iter (get_default network_cfg "directConnectGateways" (VList []))
      = Ok dxs ->
    exists es,
      get g "dx_gateways" = VList es /\
      List.length es = List.length (dicts_of dxs) /\
      forall i dxgw,
        nth_error (dicts_of dxs) i = Some dxgw ->
        exists e vifs assocs,
          nth_error es i = Some (VDict e) /\
          get e "id" = get dxgw "name" /\
          get e "name" = get dxgw "name" /\
          py_iter (get_default dxgw "virtualInterfaces" (VList []))
            = Ok vifs /\
          get e "virtual_interfaces"
            = VList (map vif_entry (dicts_of vifs)) /\
          py_iter (get_default dxgw "transitGatewayAssociations" (VList []))
            = Ok assocs /\
          get e "tgw_associations"
            = VList (map dx_assoc_entry (dicts_of assocs)).
Proof.
  intros network_cfg g dxs H Ed.
  apply extract_network_graph_inv in H
    as [tgws [vs [pvs [dxs' [dxes [cgws [vpnss [ess
         [_ [_ [_ [Ed' [Edx [_ [_ [_ Hg]]]]]]]]]]]]]]]].
  rewrite Ed in Ed'. injection Ed' as <-. injection Hg as ->.
  apply mapM_Ok_inv in Edx.
  exists dxes. split; [reflexivity|].
  split; [symmetry; exact (Forall2_length_eq _ _ _ Edx)|].
  intros i dxgw Hi.
  destruct (Forall2_nth_error_l _ _ _ i dxgw Edx Hi) as [e [He Hd]].
  unfold dx_gateway_entry in Hd.
  apply bind_Ok in Hd as [vifs [Hv Hd]].
  apply bind_Ok in Hd as [assocs [Ha Hd]]. injection Hd as <-.
  eexists _, vifs, assocs. split; [exact He|].
  repeat split; assumption.
Qed.

Lemma dx_gateways_of_graph_witness :
  exists g es,
    extract_network_graph mixed_cfg = Ok (VDict g) /\
    get g "dx_gateways" = VList es /\
    List.length es = 1.
Proof.
  assert (H : exists g, extract_network_graph mixed_cfg = Ok (VDict g))
    by (eexists; reflexivity).
  destruct H as [g Hg].
  destruct (dx_gateways_of_graph mixed_cfg g _ Hg eq_refl)
    as [es [He [Hl _]]].
  exists g, es. auto.
Defined.

Lemma cgw_vpn_connections_In (cgw : dict) (l : list value) (e : value) :
  cgw_vpn_connections cgw = Ok l ->
  (In e l <->
   exists vpns vpn,
     py_iter (get_default cgw "vpnConnections" (VList [])) = Ok vpns /\
     In vpn (dicts_of vpns) /\ e = vpn_entry cgw vpn).
Proof.
  unfold cgw_vpn_connections. intros H.
  apply bind_Ok in H as [vpns [Hv H]]. injection H as <-.
  rewrite in_map_iff. split.
  - intros [vpn [<- Hin]]. exists vpns, vpn; auto.
  - intros [vpns' [vpn [Hv' [Hin ->]]]].
    rewrite Hv in Hv'. injection Hv' as <-. exists vpn; auto.
Qed.

(** X15: the VPN connections of the graph are the entries of the mappings
    of [vpnConnections] of the mappings of [customerGateways]; each carries
    the name, the account and the region of its customer gateway. *)
Theorem vpn_connections_of_graph :
  forall (network_cfg g : dict) (cgws : list value),
    extract_network_graph network_cfg = Ok (VDict g) ->
    py_iter (get_default network_cfg "customerGateways" (VList []))
      = Ok cgws ->
    exists es,
      get g "vpn_connections" = VList es /\
      forall e,
        In e es <->
        exists cgw vpns vpn ed,
          In cgw (dicts_of cgws) /\
          py_iter (get_default cgw "vpnConnections" (VList [])) = Ok vpns /\
          In vpn (dicts_of vpns) /\
          e = VDict ed /\
          e = vpn_entry cgw vpn /\
          get ed "name" = get vpn "name" /\
          get ed "customer_gateway" = get cgw "name" /\
          get ed "account" = get cgw "account" /\
          get ed "region" = get cgw "region" /\
          get ed "transit_gateway" = get vpn "transitGateway".
Proof.
  intros network_cfg g cgws H Ec.
  apply extract_network_graph_inv in H
    as [tgws [vs [pvs [dxs [dxes [cgws' [vpnss [ess
         [_ [_ [_ [_ [_ [Ec' [Evp [_ Hg]]]]]]]]]]]]]]]].
  rewrite Ec in Ec'. injection Ec' as <-. injection Hg as ->.
  exists (List.concat vpnss). split; [reflexivity|].
  intros e. rewrite (mapM_concat_In _ _ _ e Evp). split.
  - intros [cgw [l [Hin [Hl He]]]].
    apply (cgw_vpn_connections_In cgw l e Hl) in He
      as [vpns [vpn [Hv [Hin' ->]]]].
    eexists cgw, vpns, vpn, _. repeat split; try assumption.
  - intros [cgw [vpns [vpn [ed [Hin [Hv [Hin' [_ [-> _]]]]]]]]].
    destruct (Forall2_In_l _ _ _ _ (mapM_Ok_inv _ _ _ Evp) Hin)
      as [l [_ Hl]].
    exists cgw, l. split; [exact Hin|]. split; [exact Hl|].
    apply (cgw_vpn_connections_In cgw l _ Hl). exists vpns, vpn; auto.
Qed.

Lemma vpn_connections_of_graph_witness :
  exists g es,
    extract_network_graph vpn_cfg = Ok (VDict g) /\
    get g "vpn_connections" = VList es /\
    In (vpn_entry [("name", VStr "Cgw"); ("account", VStr "Network");
                   ("vpnConnections",
                    VList [VDict [("name", VStr "vpn1");
                                  ("transitGateway", VStr "Tgw")];
                           VInt 0])]
          [("name", VStr "vpn1"); ("transitGateway", VStr "Tgw")]) es.
Proof.
  assert (H : exists g, extract_network_graph vpn_cfg = Ok (VDict g))
    by (eexists; reflexivity).
  destruct H as [g Hg].
  destruct (vpn_connections_of_graph vpn_cfg g _ Hg eq_refl)
    as [es [He Hin]].
  exists g, es. split; [exact Hg|]. split; [exact He|].
  apply Hin. do 3 eexists. eexists.
  split; [left; reflexivity|]. split; [reflexivity|].
  split; [left; reflexivity|]. repeat split.
Defined.

(** ** What the graph depends on *)

Lemma mapM_ext {A B : Type} (f f' : A -> result B) (l : list A) :
  (forall a, f a = f' a) -> mapM f l = mapM f' l.
Proof.
  intros H. induction l as [|a l IH]; simpl; [reflexivity|].
  rewrite H, IH. reflexivity.
Qed.

Lemma process_vpc_region (network_cfg network_cfg' vpc : dict) :
  get_default network_cfg "region" VNone
    = get_default network_cfg' "region" VNone ->
  process_vpc network_cfg vpc = process_vpc network_cfg' vpc.
Proof.
  intros H. unfold process_vpc, vpc_entry. rewrite H. reflexivity.
Qed.

(** The graph is a function of the region of the root and of the mappings
    of its four collections. *)
Lemma extract_network_graph_ext (network_cfg network_cfg' : dict) :
  get_default network_cfg "region" VNone
    = get_default network_cfg' "region" VNone ->
  (forall k, In k root_collections ->
             same_mappings (get_default network_cfg k (VList []))
               (get_default network_cfg' k (VList []))) ->
  extract_network_graph network_cfg = extract_network_graph network_cfg'.
Proof.
  intros Hr Hc.
  destruct (Hc "transitGateways") as [t [t' [Et [Et' Dt]]]];
    [simpl; auto|].
  destruct (Hc "vpcs") as [v [v' [Ev [Ev' Dv]]]]; [simpl; auto|].
  destruct (Hc "directConnectGateways") as [d [d' [Ed [Ed' Dd]]]];
    [simpl; auto 6|].
  destruct (Hc "customerGateways") as [c [c' [Ec [Ec' Dc]]]];
    [simpl; auto 6|].
  unfold extract_network_graph.
  rewrite (cnfgw_endpoints_of_iter network_cfg t Et).
  rewrite (cnfgw_endpoints_of_iter network_cfg' t' Et').
  rewrite Et, Et', Ev, Ev', Ed, Ed', Ec, Ec'.
  cbn [bind]. rewrite Dt, Dv, Dd, Dc.
  rewrite (mapM_ext _ _ _ (fun vpc => process_vpc_region _ _ vpc Hr)).
  reflexivity.
Qed.

(** X16: the extractor reads five keys of the root: two roots with the same
    [transitGateways], [vpcs], [directConnectGateways], [customerGateways]
    and [region] give the same result, the graph or the exception. *)
Theorem extract_network_graph_frame :
  forall network_cfg network_cfg' : dict,
    (forall k, In k root_keys ->
               lookup k network_cfg = lookup k network_cfg') ->
    extract_network_graph network_cfg = extract_network_graph network_cfg'.
Proof.
  intros network_cfg network_cfg' H.
  assert (Hr : get_default network_cfg "region" VNone
               = get_default network_cfg' "region" VNone)
    by (apply get_default_of_lookup, H; simpl; auto 6).
  unfold extract_network_graph, cnfgw_endpoints_of.
  rewrite (get_default_of_lookup network_cfg network_cfg' "transitGateways")
    by (apply H; simpl; auto).
  rewrite (get_default_of_lookup network_cfg network_cfg' "vpcs")
    by (apply H; simpl; auto).
  rewrite (get_default_of_lookup network_cfg network_cfg'
             "directConnectGateways") by (apply H; simpl; auto).
  rewrite (get_default_of_lookup network_cfg network_cfg' "customerGateways")
    by (apply H; simpl; auto 6).
  rewrite (get_of_lookup network_cfg network_cfg' "transitGateways")
    by (apply H; simpl; auto).
  destruct (py_iter (get_default network_cfg' "transitGateways" (VList [])))
    as [tgws|]; [|reflexivity].
  destruct (py_iter (get_default network_cfg' "vpcs" (VList [])))
    as [vs|]; [|reflexivity].
  cbn [bind].
  rewrite (mapM_ext _ _ (dicts_of vs)
             (fun vpc => process_vpc_region _ _ vpc Hr)).
  reflexivity.
Qed.

Lemma extract_network_graph_frame_witness :
  extract_network_graph mixed_cfg_more = extract_network_graph mixed_cfg.
Proof.
  apply (extract_network_graph_frame mixed_cfg_more mixed_cfg).
  intros k [<-|[<-|[<-|[<-|[<-|[]]]]]]; reflexivity.
Defined.

(** X17: the elements of the four collections of the root that are not
    mappings are not read: two roots with the same [region] whose
    collections hold the same mappings in the same order give the same
    graph. *)
Theorem non_mappings_ignored :
  forall network_cfg network_cfg' : dict,
    get_default network_cfg "region" VNone
      = get_default network_cfg' "region" VNone ->
    (forall k, In k root_collections ->
               same_mappings (get_default network_cfg k (VList []))
                 (get_default network_cfg' k (VList []))) ->
    extract_network_graph network_cfg = extract_network_graph network_cfg'.
Proof. exact extract_network_graph_ext. Qed.

Lemma non_mappings_ignored_witness :
  extract_network_graph mixed_cfg = extract_network_graph mixed_cfg_clean.
Proof.
  apply (non_mappings_ignored mixed_cfg mixed_cfg_clean); [reflexivity|].
  intros k [<-|[<-|[<-|[<-|[]]]]]; do 2 eexists; repeat split.
Defined.

(** X18: a root without any of the four collections gives the graph with
    six empty collections, whatever else it holds. *)
Theorem extract_network_graph_no_collection :
  forall network_cfg : dict,
    (forall k, In k root_collections -> lookup k network_cfg = None) ->
    extract_network_graph network_cfg = Ok empty_graph.
Proof.
  intros network_cfg H.
  unfold extract_network_graph, cnfgw_endpoints_of, get, get_default.
  rewrite (H "transitGateways") by (simpl; auto).
  rewrite (H "vpcs") by (simpl; auto).
  rewrite (H "directConnectGateways") by (simpl; auto).
  rewrite (H "customerGateways") by (simpl; auto 6).
  reflexivity.
Qed.

Lemma extract_network_graph_no_collection_witness :
  extract_network_graph [("region", VStr "ca-central-1"); ("extra", VInt 1)]
  = Ok empty_graph.
Proof.
  apply extract_network_graph_no_collection.
  intros k [<-|[<-|[<-|[<-|[]]]]]; reflexivity.
Defined.

(** ** The AZ list does not depend on the order of the subnets *)

Lemma str_lt_irrefl (a : string) : ~ str_lt a a.
Proof.
  unfold str_lt. intros H. pose proof (str_lt_asym a a H) as H'.
  rewrite H in H'. discriminate H'.
Qed.

(** Two lists in strict order with the same elements are equal. *)
Lemma StronglySorted_unique (l1 l2 : list string) :
  StronglySorted str_lt l1 -> StronglySorted str_lt l2 ->
  (forall a, In a l1 <-> In a l2) -> l1 = l2.
Proof.
  intros H1. revert l2.
  induction H1 as [|x l1 Hs1 IH Hx]; intros l2 H2 Hin.
  - destruct l2 as [|y l2]; [reflexivity|].
    destruct (proj2 (Hin y) (or_introl eq_refl)).
  - destruct H2 as [|y l2 Hs2 Hy].
    + destruct (proj1 (Hin x) (or_introl eq_refl)).
    + rewrite Forall_forall in Hx, Hy.
      assert (Exy : x = y).
      { destruct (proj1 (Hin x) (or_introl eq_refl)) as [E|Hx2]; [auto|].
        destruct (proj2 (Hin y) (or_introl eq_refl)) as [E|Hy1]; [auto|].
        exfalso. apply (str_lt_irrefl x).
        apply (str_lt_trans x y x); [apply Hx, Hy1 | apply Hy, Hx2]. }
      subst y. f_equal. apply IH; [exact Hs2|].
      intros a. split; intros Ha.
      * destruct (proj1 (Hin a) (or_intror Ha)) as [<-|H]; [|exact H].
        exfalso. exact (str_lt_irrefl x (Hx x Ha)).
      * destruct (proj2 (Hin a) (or_intror Ha)) as [<-|H]; [|exact H].
        exfalso. exact (str_lt_irrefl x (Hy x Ha)).
Qed.

(** X19: for subnets with strings (or false values) as AZ, the AZ list
    depends only on the set of their non-empty AZs, not on the order of
    the subnets nor on how many share an AZ. *)
Theorem vpc_azs_order_independent :
  forall subnets1 subnets2 : list dict,
    (forall s, In s subnets1 ->
       truthy (get s "az") = false \/ exists a, get s "az" = VStr a) ->
    (forall s, In s subnets2 ->
       truthy (get s "az") = false \/ exists a, get s "az" = VStr a) ->
    (forall a, a <> "" ->
       ((exists s, In s subnets1 /\ get s "az" = VStr a) <->
        (exists s, In s subnets2 /\ get s "az" = VStr a))) ->
    exists azs,
      vpc_azs subnets1 = Ok azs /\ vpc_azs subnets2 = Ok azs.
Proof.
  intros subnets1 subnets2 H1 H2 Hset.
  destruct (vpc_azs_strings subnets1 H1) as [l1 [E1 [S1 [_ M1]]]].
  destruct (vpc_azs_strings subnets2 H2) as [l2 [E2 [S2 [_ M2]]]].
  assert (El : l1 = l2).
  { apply StronglySorted_unique; auto.
    intros a. rewrite M1, M2. split; intros [Hn Hs]; split; auto;
      apply (Hset a Hn); exact Hs. }
  subst l2. exists (map VStr l1). auto.
Qed.

Lemma vpc_azs_order_independent_witness :
  exists azs, vpc_azs subnets_ab = Ok azs /\ vpc_azs subnets_ba = Ok azs.
Proof.
  apply (vpc_azs_order_independent subnets_ab subnets_ba).
  - intros s [<-|[<-|[<-|[]]]];
      try (right; eexists; reflexivity); left; reflexivity.
  - intros s [<-|[<-|[<-|[<-|[]]]]];
      try (right; eexists; reflexivity); left; reflexivity.
  - intros a Hn. split.
    + intros [s [[<-|[<-|[<-|[]]]] Hs]]; simpl in Hs; try discriminate Hs;
        injection Hs as <-.
      * exists [("az", VStr "a")]. split; [simpl; auto|reflexivity].
      * exists [("az", VStr "b")]. split; [simpl; auto|reflexivity].
    + intros [s [[<-|[<-|[<-|[<-|[]]]]] Hs]]; simpl in Hs;
        try discriminate Hs; injection Hs as <-.
      * exists [("az", VStr "b")]. split; [simpl; auto|reflexivity].
      * contradiction Hn. reflexivity.
      * exists [("az", VStr "a")]. split; [simpl; auto|reflexivity].
      * exists [("az", VStr "b")]. split; [simpl; auto|reflexivity].
Defined.
